(** * bot/anthropic_utils.py: the [Claude] completion adapter

    A shallow embedding of [Claude.send_message], [Claude.send_message_stream]
    and their helpers, with the properties of the adapter's specification
    stated and proved over it.

    Python values are modelled as follows.
    - A [str] is its sequence of Unicode code points ([list N]); [len] is
      [length] and [+] is [++].
    - An [int] is a [Z].
    - A [dict] built with a fixed key order and iterated with [.items()] is an
      association list in insertion order; a configuration [dict] that is only
      looked up is a [gmap].
    - A [list] that is passed by reference (the dialog history) lives in a
      heap of list objects and is named by its location.
    - Raising is an outcome of the computation; local variables of the running
      call are part of the state, so that they keep their values when an
      exception leaves a [try] block. *)

From Stdlib Require Import ZArith QArith.QArith_base Ascii String.
From stdpp Require Import gmap list strings.

Local Open Scope Z_scope.

(** ** Python strings *)

Abbreviation pystr := (list N) (only parsing).

(** An ASCII literal as a Python string. *)
Definition py (s : string) : pystr :=
  N_of_ascii <$> list_ascii_of_string s.

Arguments py : simpl never.

(** [str.isspace] on one code point: the code points [str.strip()] removes. *)
Definition is_space (c : N) : bool :=
  ((9 <=? c) && (c <=? 13) || (28 <=? c) && (c <=? 32)
   || (c =? 133) || (c =? 160) || (c =? 5760)
   || (8192 <=? c) && (c <=? 8202)
   || (c =? 8232) || (c =? 8233) || (c =? 8239) || (c =? 8287)
   || (c =? 12288))%N.

Fixpoint lstrip (s : pystr) : pystr :=
  match s with
  | c :: s' => if is_space c then lstrip s' else s
  | [] => []
  end.

Definition rstrip (s : pystr) : pystr := reverse (lstrip (reverse s)).

(** [s.strip()] *)
Definition strip (s : pystr) : pystr := rstrip (lstrip s).

Fixpoint startswith (p s : pystr) : bool :=
  match p, s with
  | [], _ => true
  | a :: p', b :: s' => (a =? b)%N && startswith p' s'
  | _ :: _, [] => false
  end.

(** [p in s] for strings. *)
Fixpoint str_in (p s : pystr) : bool :=
  startswith p s || match s with
                    | [] => false
                    | _ :: s' => str_in p s'
                    end.

(** ** Values, exceptions *)

(** The values an exception attribute such as [status_code] may hold; [==]
    between an [int] and a [str] is [False]. *)
Inductive pyval :=
| PyInt (n : Z)
| PyStr (s : pystr).

Global Instance pyval_eq_dec : EqDecision pyval.
Proof. solve_decision. Defined.

Inductive exn :=
| ValueError (msg : pystr)
| KeyError (key : pystr)
| IndexError (msg : pystr)
| UnboundLocalError (name : pystr)
| AssertionError (msg : pystr)
| AttributeError (msg : pystr)
| TypeError (msg : pystr)
(** [anthropic.APIStatusError]: [e.status_code] and [str(e)]. *)
| APIStatusError (status_code : pyval) (message : pystr)
(** Any exception of another class coming out of the client
    (a connection error, a timeout, ...). *)
| ClientError (cls : pystr) (message : pystr).

Global Instance exn_eq_dec : EqDecision exn.
Proof. solve_decision. Defined.

(** ** Data *)

(** One element of [dialog_messages]: [{"user": ..., "bot": ...}]. *)
Record Turn := { user : pystr; bot : pystr }.

(** A message [dict], keys in insertion order. *)
Abbreviation message_dict := (list (pystr * pystr)) (only parsing).

(** [ANTHROPIC_COMPLETION_OPTIONS] *)
Record completion_options := {
  temperature : Q;
  max_tokens : Z;
  top_p : Z;
  timeout : Q
}.

Definition ANTHROPIC_COMPLETION_OPTIONS : completion_options :=
  {| temperature := 7 # 10; max_tokens := 4000; top_p := 1; timeout := 60 # 1 |}.

(** The keyword arguments of one [client.messages.create] call. *)
Record request := {
  req_model : pystr;
  req_system : pystr;
  req_messages : list message_dict;
  req_stream : bool;
  req_options : completion_options
}.

(** What a successful non-streaming call returns: the [text] of each content
    block and [usage.input_tokens], [usage.output_tokens]. *)
Record Message := {
  content : list pystr;
  usage_input_tokens : Z;
  usage_output_tokens : Z
}.

(** The items of a streamed response that the adapter tells apart by [type]. *)
Inductive event :=
| content_block_delta (text : pystr)
| message_delta (output_tokens : Z)
| other_event (type : pystr).

(** A streamed response: its items and, when the stream breaks off, the
    exception raised by the iteration after the last item. *)
Record Stream := {
  events : list event;
  broken : option exn
}.

(** An element yielded by [send_message_stream]:
    [(status, answer, (n_input_tokens, n_output_tokens), n_removed)]. *)
Abbreviation item := (pystr * pystr * (Z * Z) * Z)%type (only parsing).

Definition item_status (x : item) : pystr := x.1.1.1.
Definition item_answer (x : item) : pystr := x.1.1.2.
Definition item_tokens (x : item) : Z * Z := x.1.2.
Definition item_removed (x : item) : Z := x.2.

(** The three models [Claude] accepts. *)
Definition claude_models : list pystr :=
  [py "claude-3-opus-20240229"; py "claude-3-sonnet-20240229";
   py "claude-3-5-sonnet-20240620"].

Record Claude := { model : pystr }.

(** [Claude.__init__] *)
Definition Claude_init (m : pystr) : exn + Claude :=
  if bool_decide (m ∈ claude_models) then inr {| model := m |}
  else inl (AssertionError (py "Unknown model: " ++ m)).

(** ** Pure helpers *)

(** [Claude._generate_prompt_messages], on the value of the history list. *)
Fixpoint _generate_prompt_messages_from
    (acc : list message_dict) (dialog_messages : list Turn) : list message_dict :=
  match dialog_messages with
  | [] => acc
  | dialog_message :: rest =>
      _generate_prompt_messages_from
        (acc ++ [[(py "role", py "user"); (py "content", user dialog_message)]]
             ++ [[(py "role", py "assistant"); (py "content", bot dialog_message)]])
        rest
  end.

Definition _generate_prompt_messages
    (msg : pystr) (dialog_messages : list Turn) (chat_mode : pystr) : list message_dict :=
  _generate_prompt_messages_from [] dialog_messages
    ++ [[(py "role", py "user"); (py "content", msg)]].

(** [Claude._postprocess_answer] *)
Definition _postprocess_answer (answer : pystr) : pystr := strip answer.

(** ** State and control *)

Abbreviation loc := positive (only parsing).

(** The local variables of the running call that are assigned inside the
    retry loop.  [None] is an unbound name, except for [answer], which is
    bound to Python's [None] before the loop. *)
Record frame := {
  dialog_messages : loc;
  answer : option pystr;
  n_input_tokens : option Z;
  n_output_tokens : option Z;
  n_first_dialog_messages_removed : option Z
}.

Record state := {
  heap : gmap loc (list Turn);  (* the list objects *)
  calls : list request;         (* remote calls made so far, oldest first *)
  yielded : list item;          (* elements produced so far, oldest first *)
  locals : frame
}.

Inductive stuck := OutOfFuel | Dangling.

Inductive outcome (A : Type) :=
| Val (a : A)
| Exc (e : exn)
| Stuck (why : stuck).
Arguments Val {A} a.
Arguments Exc {A} e.
Arguments Stuck {A} why.

Definition M (A : Type) : Type := state → outcome A * state.

Definition ret {A} (a : A) : M A := λ s, (Val a, s).

Definition bind {A B} (m : M A) (k : A → M B) : M B :=
  λ s, match m s with
       | (Val a, s') => k a s'
       | (Exc e, s') => (Exc e, s')
       | (Stuck w, s') => (Stuck w, s')
       end.

Definition raise {A} (e : exn) : M A := λ s, (Exc e, s).
Definition stop {A} (w : stuck) : M A := λ s, (Stuck w, s).

Notation "'let*' x := m 'in' k" := (bind m (λ x, k))
  (at level 10, x name, m at level 100, k at level 200).

(** [try: body except anthropic.APIStatusError as e: handler] *)
Definition try_except_APIStatusError {A}
    (body : M A) (handler : pyval → pystr → M A) : M A :=
  λ s, match body s with
       | (Exc (APIStatusError status_code msg), s') => handler status_code msg s'
       | r => r
       end.

(** Lift a pure computation that may raise. *)
Definition lift {A} (r : exn + A) : M A :=
  match r with
  | inl e => raise e
  | inr a => ret a
  end.

Definition set_locals (f : frame) (s : state) : state :=
  {| heap := heap s; calls := calls s; yielded := yielded s; locals := f |}.

Definition get_local {A} (proj : frame → A) : M A := λ s, (Val (proj (locals s)), s).

(** Reading a local that may be unbound. *)
Definition read_local {A} (name : string) (proj : frame → option A) : M A :=
  λ s, match proj (locals s) with
       | Some a => (Val a, s)
       | None => (Exc (UnboundLocalError (py name)), s)
       end.

Definition assign_dialog_messages (l : loc) : M unit := λ s,
  (Val tt, set_locals {| dialog_messages := l;
                         answer := answer (locals s);
                         n_input_tokens := n_input_tokens (locals s);
                         n_output_tokens := n_output_tokens (locals s);
                         n_first_dialog_messages_removed :=
                           n_first_dialog_messages_removed (locals s) |} s).

Definition assign_answer (a : option pystr) : M unit := λ s,
  (Val tt, set_locals {| dialog_messages := dialog_messages (locals s);
                         answer := a;
                         n_input_tokens := n_input_tokens (locals s);
                         n_output_tokens := n_output_tokens (locals s);
                         n_first_dialog_messages_removed :=
                           n_first_dialog_messages_removed (locals s) |} s).

Definition assign_n_input_tokens (n : Z) : M unit := λ s,
  (Val tt, set_locals {| dialog_messages := dialog_messages (locals s);
                         answer := answer (locals s);
                         n_input_tokens := Some n;
                         n_output_tokens := n_output_tokens (locals s);
                         n_first_dialog_messages_removed :=
                           n_first_dialog_messages_removed (locals s) |} s).

Definition assign_n_output_tokens (n : Z) : M unit := λ s,
  (Val tt, set_locals {| dialog_messages := dialog_messages (locals s);
                         answer := answer (locals s);
                         n_input_tokens := n_input_tokens (locals s);
                         n_output_tokens := Some n;
                         n_first_dialog_messages_removed :=
                           n_first_dialog_messages_removed (locals s) |} s).

Definition assign_n_first_dialog_messages_removed (n : Z) : M unit := λ s,
  (Val tt, set_locals {| dialog_messages := dialog_messages (locals s);
                         answer := answer (locals s);
                         n_input_tokens := n_input_tokens (locals s);
                         n_output_tokens := n_output_tokens (locals s);
                         n_first_dialog_messages_removed := Some n |} s).

(** [answer] where a string is needed ([answer += ...], [encode(answer)]). *)
Definition answer_str : M pystr := λ s,
  match answer (locals s) with
  | Some a => (Val a, s)
  | None => (Exc (TypeError (py "NoneType where str is expected")), s)
  end.

(** The frame on entry: the parameter bound, [answer = None], nothing else
    assigned yet. *)
Definition entered (dm : loc) (s : state) : state :=
  set_locals {| dialog_messages := dm; answer := None;
                n_input_tokens := None; n_output_tokens := None;
                n_first_dialog_messages_removed := None |} s.

Definition enter (dm : loc) : M unit := λ s, (Val tt, entered dm s).

(** [while answer is None: body]; [fuel] bounds the number of iterations.  The
    loop is left with [answer] bound to a string, which is its result here. *)
Fixpoint while_answer_is_None (fuel : nat) (body : M unit) : M pystr :=
  let* a := get_local answer in
  match a with
  | Some a => ret a
  | None =>
      match fuel with
      | O => stop OutOfFuel
      | S fuel' => let* _ := body in while_answer_is_None fuel' body
      end
  end.

(** The value of a list object. *)
Definition deref (l : loc) : M (list Turn) := λ s,
  match heap s !! l with
  | Some v => (Val v, s)
  | None => (Stuck Dangling, s)
  end.

(** [len(l)] *)
Definition py_len (l : loc) : M Z :=
  let* v := deref l in ret (Z.of_nat (length v)).

(** The state once a new list object holding [v] has been created. *)
Definition allocated (v : list Turn) (s : state) : state :=
  {| heap := <[fresh (dom (heap s)) := v]> (heap s); calls := calls s;
     yielded := yielded s; locals := locals s |}.

(** [l[1:]]: a new list object holding all but the first element. *)
Definition py_slice_from_1 (l : loc) : M loc :=
  let* v := deref l in
  λ s, (Val (fresh (dom (heap s))), allocated (drop 1 v) s).

(** The state once the element [x] has been produced. *)
Definition produced (x : item) (s : state) : state :=
  {| heap := heap s; calls := calls s;
     yielded := yielded s ++ [x]; locals := locals s |}.

(** [yield x] *)
Definition yield (x : item) : M unit := λ s, (Val tt, produced x s).

(** The state once the remote call [r] has been made. *)
Definition logged (r : request) (s : state) : state :=
  {| heap := heap s; calls := calls s ++ [r];
     yielded := yielded s; locals := locals s |}.

(** The messages of the two [ValueError]s raised by the [except] clause. *)
Definition history_exhausted_text : pystr :=
  py "Dialog messages is reduced to zero, but still has too many tokens to make completion".

(** The text before [{e}] in the rate-limit message of the source (sixteen
    CJK code points, then [": "]). *)
Definition rate_limited_text : pystr :=
  [0x9054; 0x5230; 0x4f7f; 0x7528; 0x9650; 0x5236; 0x4e0a; 0x9650; 0xff0c;
   0x8acb; 0x7a0d; 0x5f8c; 0x518d; 0x8a66; 0x8a66; 0x770b; 0x3a; 0x20]%N.

Definition unsupported_mode (chat_mode : pystr) : exn :=
  ValueError (py "Chat mode " ++ chat_mode ++ py " is not supported").
Definition history_exhausted : exn := ValueError history_exhausted_text.
Definition rate_limited (str_e : pystr) : exn :=
  ValueError (rate_limited_text ++ str_e).
Definition unknown_model (m : pystr) : exn :=
  ValueError (py "Unknown model: " ++ m).

(** What the [except] clause compares [e.status_code] with: two strings.  (The
    client library sets [status_code] to the [int] of the HTTP response.) *)
Definition too_large_code : pyval := PyStr (py "403").
Definition rate_limit_code : pyval := PyStr (py "429").

Section Adapter.

(** [config.chat_modes]: mode key to the entry's fields. *)
Variable chat_modes : gmap (list N) (gmap (list N) (list N)).

(** [tiktoken]: [encoding_for_model], which raises for a model name it has
    no encoding for, and [encoding.encode], which raises for a text that
    spells one of the encoding's special tokens. *)
Variable Encoding : Type.
Variable encoding_for_model : pystr → exn + Encoding.
Variable encode : Encoding → pystr → exn + list Z.

(** The remote service behind [client.messages.create]: what the [n]-th
    call ([n] calls having been made before it) answers to a request,
    without and with [stream=True]. *)
Variable create_message : nat → request → exn + Message.
Variable create_stream : nat → request → exn + Stream.

(** *** Token accounting *)

(** The [if]/[elif] chain of [_count_tokens_from_messages]:
    [(tokens_per_message, tokens_per_name)]. *)
Definition tokens_per (m : pystr) : exn + (Z * Z) :=
  if bool_decide (m = py "gpt-3.5-turbo-16k") then inr (4, -1)
  else if bool_decide (m = py "gpt-3.5-turbo") then inr (4, -1)
  else if bool_decide (m = py "gpt-4") then inr (3, 1)
  else if bool_decide (m = py "gpt-4-1106-preview") then inr (3, 1)
  else if bool_decide (m = py "claude-3-opus-20240229") then inr (3, 1)
  else if bool_decide (m = py "claude-3-sonnet-20240229") then inr (3, 1)
  else if bool_decide (m = py "claude-3-5-sonnet-20240620") then inr (3, 1)
  else inl (unknown_model m).

(** The inner [for key, value in message.items()] loop, from the count [n]
    reached so far. *)
Fixpoint count_items (encoding : Encoding) (tokens_per_name : Z)
    (n : Z) (m : message_dict) : exn + Z :=
  match m with
  | [] => inr n
  | kv :: rest =>
      match encode encoding kv.2 with
      | inl e => inl e
      | inr tokens =>
          let n := n + Z.of_nat (length tokens) in
          count_items encoding tokens_per_name
            (if bool_decide (kv.1 = py "name") then n + tokens_per_name else n)
            rest
      end
  end.

(** The outer [for message in messages] loop. *)
Fixpoint count_messages (encoding : Encoding)
    (tokens_per_message tokens_per_name : Z)
    (n : Z) (messages : list message_dict) : exn + Z :=
  match messages with
  | [] => inr n
  | msg :: rest =>
      match count_items encoding tokens_per_name (n + tokens_per_message) msg with
      | inl e => inl e
      | inr n => count_messages encoding tokens_per_message tokens_per_name n rest
      end
  end.

Definition _count_tokens_from_messages
    (messages : list message_dict) (ans : pystr) (m : pystr) : exn + (Z * Z) :=
  match (if str_in (py "claude") m then encoding_for_model (py "gpt-4")
         else encoding_for_model m) with
  | inl e => inl e
  | inr encoding =>
      match tokens_per m with
      | inl e => inl e
      | inr (tokens_per_message, tokens_per_name) =>
          match count_messages encoding tokens_per_message tokens_per_name
                  0 messages with
          | inl e => inl e
          | inr n_input =>
              match encode encoding ans with
              | inl e => inl e
              | inr tokens => inr (n_input + 2, 1 + Z.of_nat (length tokens))
              end
          end
      end
  end.

(** *** Collaborators *)

(** [config.chat_modes[chat_mode]["prompt_start"]] *)
Definition prompt_start (chat_mode : pystr) : M pystr :=
  match chat_modes !! chat_mode with
  | None => raise (KeyError chat_mode)
  | Some entry =>
      match entry !! py "prompt_start" with
      | None => raise (KeyError (py "prompt_start"))
      | Some p => ret p
      end
  end.

(** [await self.client.messages.create(...)] *)
Definition messages_create (r : request) : M Message := λ s,
  match create_message (length (calls s)) r with
  | inl e => (Exc e, logged r s)
  | inr m => (Val m, logged r s)
  end.

(** [await self.client.messages.create(..., stream=True, ...)] *)
Definition messages_create_stream (r : request) : M Stream := λ s,
  match create_stream (length (calls s)) r with
  | inl e => (Exc e, logged r s)
  | inr g => (Val g, logged r s)
  end.

Definition the_request (self : Claude) (chat_mode msg : pystr)
    (history : list Turn) (system : pystr) (streaming : bool) : request :=
  {| req_model := model self;
     req_system := system;
     req_messages := _generate_prompt_messages msg history chat_mode;
     req_stream := streaming;
     req_options := ANTHROPIC_COMPLETION_OPTIONS |}.

(** [r.content[0].text] *)
Definition content_0_text (r : Message) : M pystr :=
  match content r with
  | text :: _ => ret text
  | [] => raise (IndexError (py "list index out of range"))
  end.

(** *** The [except anthropic.APIStatusError as e] clause (both methods) *)

Definition on_APIStatusError (status_code : pyval) (str_e : pystr) : M unit :=
  let* dm := get_local dialog_messages in
  let* n := py_len dm in
  if bool_decide (n = 0) then raise history_exhausted
  else if bool_decide (status_code = too_large_code) then
    (* forget first message in dialog_messages *)
    let* dm' := py_slice_from_1 dm in
    assign_dialog_messages dm'
  else if bool_decide (status_code = rate_limit_code) then
    raise (rate_limited str_e)
  else ret tt.

(** *** [Claude.send_message] *)

(** The body of the [try] block.  The statements after the [if]/[else] run
    only when the [else] branch has not raised, so they are placed at the end
    of the [if] branch, where [r] is bound. *)
Definition send_message_try (self : Claude) (msg chat_mode : pystr) : M unit :=
  if bool_decide (model self ∈ claude_models) then
    let* dm := get_local dialog_messages in
    let* history := deref dm in
    let* system := prompt_start chat_mode in
    let* r := messages_create (the_request self chat_mode msg history system false) in
    let* text := content_0_text r in
    let* _ := assign_answer (Some text) in
    let* _ := assign_answer (Some (_postprocess_answer text)) in
    let* _ := assign_n_input_tokens (usage_input_tokens r) in
    assign_n_output_tokens (usage_output_tokens r)
  else raise (unknown_model (model self)).

Definition send_message_loop (fuel : nat) (self : Claude) (msg chat_mode : pystr)
    : M pystr :=
  while_answer_is_None fuel
    (try_except_APIStatusError (send_message_try self msg chat_mode)
       on_APIStatusError).

Definition send_message (fuel : nat) (self : Claude)
    (msg : pystr) (dm : loc) (chat_mode : pystr) : M (pystr * (Z * Z) * Z) :=
  let* _ := enter dm in
  if bool_decide (chat_mode ∉ dom chat_modes) then raise (unsupported_mode chat_mode)
  else
    let* n_dialog_messages_before := py_len dm in
    let* a := send_message_loop fuel self msg chat_mode in
    let* dm' := get_local dialog_messages in
    let* n := py_len dm' in
    let* n_in := read_local "n_input_tokens" n_input_tokens in
    let* n_out := read_local "n_output_tokens" n_output_tokens in
    ret (a, (n_in, n_out), n_dialog_messages_before - n).

(** *** [Claude.send_message_stream] *)

(** One iteration of [async for r_item in r_gen]. *)
Definition stream_item (self : Claude) (messages : list message_dict)
    (n_dialog_messages_before : Z) (r_item : event) : M unit :=
  match r_item with
  | content_block_delta text =>
      let* a := answer_str in
      let* _ := assign_answer (Some (a ++ text)) in
      let* a := answer_str in
      let* t := lift (_count_tokens_from_messages messages a (model self)) in
      let* _ := assign_n_input_tokens t.1 in
      let* _ := assign_n_output_tokens t.2 in
      let* dm := get_local dialog_messages in
      let* n := py_len dm in
      let* _ := assign_n_first_dialog_messages_removed (n_dialog_messages_before - n) in
      let* n_in := read_local "n_input_tokens" n_input_tokens in
      let* n_out := read_local "n_output_tokens" n_output_tokens in
      let* removed := read_local "n_first_dialog_messages_removed"
                        n_first_dialog_messages_removed in
      yield (py "not_finished", a, (n_in, n_out), removed)
  | message_delta usage_output =>
      let* a := answer_str in
      let* t := lift (_count_tokens_from_messages messages a (model self)) in
      let* _ := assign_n_input_tokens t.1 in
      let* _ := assign_n_output_tokens t.2 in
      let* _ := assign_n_output_tokens usage_output in
      let* dm := get_local dialog_messages in
      let* n := py_len dm in
      let* _ := assign_n_first_dialog_messages_removed (n_dialog_messages_before - n) in
      let* n_in := read_local "n_input_tokens" n_input_tokens in
      let* n_out := read_local "n_output_tokens" n_output_tokens in
      let* removed := read_local "n_first_dialog_messages_removed"
                        n_first_dialog_messages_removed in
      yield (py "not_finished", a, (n_in, n_out), removed)
  | other_event _ => ret tt
  end.

Fixpoint stream_items (self : Claude) (messages : list message_dict)
    (n_dialog_messages_before : Z) (r_gen : list event) : M unit :=
  match r_gen with
  | [] => ret tt
  | r_item :: rest =>
      let* _ := stream_item self messages n_dialog_messages_before r_item in
      stream_items self messages n_dialog_messages_before rest
  end.

(** The body of the [try] block.  There is no [else] branch here: with a
    model outside the three, [answer] is still [None] when it is
    post-processed. *)
Definition send_message_stream_try (self : Claude) (msg chat_mode : pystr)
    (n_dialog_messages_before : Z) : M unit :=
  let* _ :=
    (if bool_decide (model self ∈ claude_models) then
       let* dm := get_local dialog_messages in
       let* history := deref dm in
       let* system := prompt_start chat_mode in
       let r := the_request self chat_mode msg history system true in
       let* r_gen := messages_create_stream r in
       let* _ := assign_answer (Some []) in
       let* _ := stream_items self (req_messages r) n_dialog_messages_before
                   (events r_gen) in
       match broken r_gen with
       | Some e => raise e
       | None => ret tt
       end
     else ret tt) in
  let* a := get_local answer in
  match a with
  | Some a => assign_answer (Some (_postprocess_answer a))
  | None => raise (AttributeError (py "'NoneType' object has no attribute 'strip'"))
  end.

Definition send_message_stream_loop (fuel : nat) (self : Claude)
    (msg chat_mode : pystr) (n_dialog_messages_before : Z) : M pystr :=
  while_answer_is_None fuel
    (try_except_APIStatusError
       (send_message_stream_try self msg chat_mode n_dialog_messages_before)
       on_APIStatusError).

(** The generator, driven to exhaustion: the elements it produces are
    appended to [yielded]; its outcome is how the iteration ends. *)
Definition send_message_stream (fuel : nat) (self : Claude)
    (msg : pystr) (dm : loc) (chat_mode : pystr) : M unit :=
  let* _ := enter dm in
  if bool_decide (chat_mode ∉ dom chat_modes) then raise (unsupported_mode chat_mode)
  else
    let* n_dialog_messages_before := py_len dm in
    let* a := send_message_stream_loop fuel self msg chat_mode
                n_dialog_messages_before in
    let* n_in := read_local "n_input_tokens" n_input_tokens in
    let* n_out := read_local "n_output_tokens" n_output_tokens in
    let* removed := read_local "n_first_dialog_messages_removed"
                      n_first_dialog_messages_removed in
    (* sending final answer *)
    yield (py "finished", a, (n_in, n_out), removed).

End Adapter.

Arguments count_items {Encoding} encode encoding tokens_per_name n m.
Arguments count_messages {Encoding} encode encoding tokens_per_message
  tokens_per_name n messages.
Arguments _count_tokens_from_messages {Encoding} encoding_for_model encode messages ans m.
Arguments stream_item {Encoding} encoding_for_model encode self messages
  n_dialog_messages_before r_item.
Arguments stream_items {Encoding} encoding_for_model encode self messages
  n_dialog_messages_before r_gen.
Arguments send_message_stream_try chat_modes {Encoding} encoding_for_model encode
  create_stream self msg chat_mode n_dialog_messages_before.
Arguments send_message_stream_loop chat_modes {Encoding} encoding_for_model encode
  create_stream fuel self msg chat_mode n_dialog_messages_before.
Arguments send_message_stream chat_modes {Encoding} encoding_for_model encode
  create_stream fuel self msg dm chat_mode.

(** ** The prompt helpers

    [_generate_prompt] and [_count_tokens_from_prompt], the text-completion
    counterparts of the message helpers. *)

(** ["\n"] *)
Definition nl : pystr := [10%N].

Section Prompts.

Variable chat_modes : gmap (list N) (gmap (list N) (list N)).
Variable Encoding : Type.
Variable encoding_for_model : pystr → exn + Encoding.
Variable encode : Encoding → pystr → exn + list Z.

(** The [for dialog_message in dialog_messages] loop of [_generate_prompt]. *)
Fixpoint _generate_prompt_turns (prompt : pystr) (dialog_messages : list Turn)
    : pystr :=
  match dialog_messages with
  | [] => prompt
  | dialog_message :: rest =>
      _generate_prompt_turns
        ((prompt ++ (py "User: " ++ user dialog_message ++ nl))
           ++ (py "Assistant: " ++ bot dialog_message ++ nl))
        rest
  end.

(** [Claude._generate_prompt], on the value of the history list. *)
Definition _generate_prompt (msg : pystr) (dialog_messages : list Turn)
    (chat_mode : pystr) : exn + pystr :=
  match chat_modes !! chat_mode with
  | None => inl (KeyError chat_mode)
  | Some entry =>
      match entry !! py "prompt_start" with
      | None => inl (KeyError (py "prompt_start"))
      | Some prompt =>
          let prompt := prompt ++ (nl ++ nl) in
          (* add chat context *)
          let prompt :=
            if bool_decide (Z.of_nat (length dialog_messages) > 0)
            then _generate_prompt_turns (prompt ++ (py "Chat:" ++ nl)) dialog_messages
            else prompt in
          (* current message *)
          let prompt := prompt ++ (py "User: " ++ msg ++ nl) in
          inr (prompt ++ py "Assistant: ")
      end
  end.

(** [Claude._count_tokens_from_prompt] *)
Definition _count_tokens_from_prompt (prompt ans m : pystr) : exn + (Z * Z) :=
  match encoding_for_model m with
  | inl e => inl e
  | inr encoding =>
      match encode encoding prompt with
      | inl e => inl e
      | inr prompt_tokens =>
          match encode encoding ans with
          | inl e => inl e
          | inr answer_tokens =>
              inr (Z.of_nat (length prompt_tokens) + 1,
                   Z.of_nat (length answer_tokens))
          end
      end
  end.

End Prompts.

Arguments _count_tokens_from_prompt {Encoding} encoding_for_model encode prompt ans m.

(** ** Specification vocabulary *)

Definition all_space (s : pystr) : Prop := Forall (λ c, is_space c = true) s.

(** [t] is [s] with its leading and trailing whitespace removed. *)
Definition trimmed_of (s t : pystr) : Prop :=
  (∃ l r, s = l ++ t ++ r ∧ all_space l ∧ all_space r)
  ∧ (∀ c, head t = Some c → is_space c = false)
  ∧ (∀ c, last t = Some c → is_space c = false).

Definition user_entry (text : pystr) : message_dict :=
  [(py "role", py "user"); (py "content", text)].
Definition assistant_entry (text : pystr) : message_dict :=
  [(py "role", py "assistant"); (py "content", text)].

(** The message list the specification describes: per turn, in order, a user
    entry then an assistant entry. *)
Fixpoint turn_entries (history : list Turn) : list message_dict :=
  match history with
  | [] => []
  | t :: rest => user_entry (user t) :: assistant_entry (bot t) :: turn_entries rest
  end.

(** [m.get(key)] on a message [dict]. *)
Fixpoint dict_get (key : pystr) (m : message_dict) : option pystr :=
  match m with
  | [] => None
  | kv :: rest => if bool_decide (kv.1 = key) then Some kv.2 else dict_get key rest
  end.

Definition role_of (m : message_dict) : option pystr := dict_get (py "role") m.

(** A message [dict] without a ["name"] key. *)
Definition no_name (m : message_dict) : Prop := ∀ kv, kv ∈ m → kv.1 ≠ py "name".

Definition Zsum (l : list Z) : Z := foldr Z.add 0 l.

(** The texts of a message list that are tokenized: every value of every
    message, in the order of the two loops. *)
Definition message_values (messages : list message_dict) : list pystr :=
  snd <$> concat messages.

(** [tokens] is what [encoding.encode] returns on each of [texts]: it raises
    on none of them. *)
Definition encodes {Encoding} (encode : Encoding → pystr → exn + list Z)
    (encoding : Encoding) (tokens : pystr → list Z) (texts : list pystr) : Prop :=
  Forall (λ t, encode encoding t = inr (tokens t)) texts.

(** The tokenized length of the values of one message. *)
Definition values_tokens (tokens : pystr → list Z) (m : message_dict) : Z :=
  Zsum ((λ kv, Z.of_nat (length (tokens kv.2))) <$> m).

(** The input count as the specification words it: per message, the overhead
    and the tokenized length of the message's content, plus the overhead of the
    conversation. *)
Definition content_only_input_count (tokens : pystr → list Z)
    (tokens_per_message : Z) (messages : list message_dict) : Z :=
  Zsum ((λ msg, tokens_per_message
                + match dict_get (py "content") msg with
                  | Some text => Z.of_nat (length (tokens text))
                  | None => 0
                  end) <$> messages) + 2.

(** The running answer after each text fragment of a stream. *)
Fixpoint running_answers (a : pystr) (evs : list event) : list pystr :=
  match evs with
  | [] => []
  | content_block_delta text :: rest => (a ++ text) :: running_answers (a ++ text) rest
  | message_delta _ :: rest => a :: running_answers a rest
  | other_event _ :: rest => running_answers a rest
  end.

(** The text fragments of a stream, in the order they arrive. *)
Definition fragments (evs : list event) : list pystr :=
  omap (λ ev, match ev with content_block_delta text => Some text | _ => None end) evs.

(** The local count raises on none of [answers], taken with [messages]. *)
Definition count_succeeds {Encoding} (encoding_for_model : pystr → exn + Encoding)
    (encode : Encoding → pystr → exn + list Z)
    (messages : list message_dict) (m : pystr) (answers : list pystr) : Prop :=
  Forall (λ a, ∃ t, _count_tokens_from_messages encoding_for_model encode
                      messages a m = inr t) answers.

(** What one pass through the [except] clause does when it forgets the first
    turn: [s2] is [s1] after one more remote call [r], with [dialog_messages]
    rebound to a new list holding [rest]; nothing that existed is changed. *)
Definition turn_dropped (r : request) (rest : list Turn) (s1 s2 : state) : Prop :=
  heap s1 ⊆ heap s2
  ∧ heap s2 !! dialog_messages (locals s2) = Some rest
  ∧ calls s2 = calls s1 ++ [r]
  ∧ yielded s2 = yielded s1
  ∧ answer (locals s2) = answer (locals s1)
  ∧ n_input_tokens (locals s2) = n_input_tokens (locals s1)
  ∧ n_output_tokens (locals s2) = n_output_tokens (locals s1)
  ∧ n_first_dialog_messages_removed (locals s2)
    = n_first_dialog_messages_removed (locals s1).

(** The same after [k] passes, starting from [history]: call [i] was made for
    the history less its [i] oldest turns. *)
Definition turns_dropped (rq : list Turn → request) (history : list Turn) (k : nat)
    (s1 s2 : state) : Prop :=
  heap s1 ⊆ heap s2
  ∧ heap s2 !! dialog_messages (locals s2) = Some (drop k history)
  ∧ calls s2 = calls s1 ++ ((λ i, rq (drop i history)) <$> seq 0 k)
  ∧ yielded s2 = yielded s1
  ∧ answer (locals s2) = answer (locals s1)
  ∧ n_input_tokens (locals s2) = n_input_tokens (locals s1)
  ∧ n_output_tokens (locals s2) = n_output_tokens (locals s1)
  ∧ n_first_dialog_messages_removed (locals s2)
    = n_first_dialog_messages_removed (locals s1).

(** A computation whose final state is always related to its initial state. *)
Definition monotone {A} (R : relation state) (m : M A) : Prop := ∀ s, R s (m s).2.

(** Every list object that exists is left as it is: new ones may be created. *)
Definition heap_extends (s s' : state) : Prop := heap s ⊆ heap s'.

(** The remote calls made so far stay as they are: more may follow. *)
Definition calls_extend (s s' : state) : Prop := calls s `prefix_of` calls s'.

(** The token counts and the discarded count held in the locals are those of
    the element produced last. *)
Definition synced (s : state) : Prop :=
  ∃ x : item,
    last (yielded s) = Some x
    ∧ n_input_tokens (locals s) = Some (item_tokens x).1
    ∧ n_output_tokens (locals s) = Some (item_tokens x).2
    ∧ n_first_dialog_messages_removed (locals s) = Some (item_removed x).

(** An item that makes the generator produce an element. *)
Definition is_delta (ev : event) : bool :=
  match ev with
  | other_event _ => false
  | _ => true
  end.

(** The two lines a turn contributes to the text prompt. *)
Definition turn_lines (t : Turn) : pystr :=
  (py "User: " ++ user t ++ nl) ++ (py "Assistant: " ++ bot t ++ nl).

(** The number of ["name"] keys of a message [dict]. *)
Definition name_keys (m : message_dict) : Z :=
  Zsum ((λ kv, if bool_decide (kv.1 = py "name") then 1 else 0) <$> m).

(** The elements produced between two states are all tagged ["not_finished"]. *)
Definition yields_not_finished (s s' : state) : Prop :=
  ∃ items : list item,
    yielded s' = yielded s ++ items
    ∧ Forall (λ x, item_status x = py "not_finished") items.

(** Between two states of a call for [history], [dialog_messages] has been
    rebound from the history less its [k] oldest turns to the history less its
    [k'] oldest turns, at most [n] remote calls have been made, each of them
    for the history less some of its oldest turns, and nothing has been
    produced. *)
Definition retried (rq : list Turn → request) (history : list Turn)
    (k k' n : nat) (s s' : state) : Prop :=
  (k ≤ k')%nat ∧ (k' ≤ length history)%nat
  ∧ heap s' !! dialog_messages (locals s') = Some (drop k' history)
  ∧ (∃ new, calls s' = calls s ++ new
            ∧ (length new ≤ n)%nat
            ∧ Forall (λ r, ∃ j, (k ≤ j)%nat ∧ (j ≤ k')%nat
                                ∧ r = rq (drop j history)) new)
  ∧ yielded s' = yielded s.

(** [s] after [k] more remote calls, each of them made with [r]. *)
Definition relogged (k : nat) (r : request) (s : state) : state :=
  {| heap := heap s; calls := calls s ++ replicate k r;
     yielded := yielded s; locals := locals s |}.

(** A computation that never ends by raising an [APIStatusError]. *)
Definition no_status_error {A} (m : M A) : Prop :=
  ∀ s c msg, (m s).1 ≠ Exc (APIStatusError c msg).

(** ** A sample configuration and scripted services

    Concrete collaborators on which the adapter can be run: a configuration
    with one chat mode, a caller whose history is the list object at location
    1, a tokenizer with one token per code point that knows the model names a
    tokenizer library has encodings for and refuses a text that spells a
    special token, and remote services that answer by script. *)

Definition sample_modes : gmap (list N) (gmap (list N) (list N)) :=
  {[ py "assistant" := {[ py "prompt_start" := py "You are a helpful assistant." ]} ]}.

Definition sonnet : Claude := {| model := py "claude-3-5-sonnet-20240620" |}.

Definition turn1 : Turn := {| user := py "hi"; bot := py "hello" |}.
Definition turn2 : Turn := {| user := py "2+2?"; bot := py "4" |}.
Definition turn3 : Turn := {| user := py "thanks"; bot := py "welcome" |}.

(** The caller's state before the call: its history is the only list object. *)
Definition caller_state (history : list Turn) : state :=
  {| heap := {[ 1%positive := history ]}; calls := []; yielded := [];
     locals := {| dialog_messages := 1%positive; answer := None;
                  n_input_tokens := None; n_output_tokens := None;
                  n_first_dialog_messages_removed := None |} |}.

Definition sample_encoding_for_model (m : pystr) : exn + unit :=
  if bool_decide (m ∈ [py "gpt-4"; py "gpt-3.5-turbo"; py "gpt-3.5-turbo-16k";
                       py "gpt-4-1106-preview"; py "text-davinci-003"])
  then inr tt
  else inl (KeyError (py "Could not automatically map " ++ m ++ py " to a tokeniser.")).

(** One token per code point; like the tokenizer library, it refuses a text
    that spells a special token. *)
Definition char_tokens (text : pystr) : list Z := Z.of_N <$> text.

Definition special_token_error : exn :=
  ValueError (py "Encountered text corresponding to disallowed special token '<|endoftext|>'.").

Definition char_encode (_ : unit) (text : pystr) : exn + list Z :=
  if str_in (py "<|endoftext|>") text then inl special_token_error
  else inr (char_tokens text).

(** A status error whose [status_code] is the string that the [except] clause
    compares it with. *)
Definition too_large_error : exn :=
  APIStatusError too_large_code (py "prompt is too long").

(** Status errors as the client library raises them: [status_code] is the
    [int] of the HTTP response. *)
Definition request_too_large : exn :=
  APIStatusError (PyInt 413) (py "request_too_large").
Definition rate_limit_429 : exn :=
  APIStatusError (PyInt 429) (py "rate_limit_error").
Definition server_error : exn :=
  APIStatusError (PyInt 500) (py "Internal server error").
Definition overloaded : exn :=
  APIStatusError (PyInt 529) (py "overloaded_error").
Definition connection_error : exn :=
  ClientError (py "APIConnectionError") (py "Connection error.").

Definition greeting : Message :=
  {| content := [py "  hi there  "]; usage_input_tokens := 5; usage_output_tokens := 3 |}.

Definition always (r : exn + Message) : nat → request → exn + Message := λ _ _, r.

(** A status error with the string ['403'] for the first [k] calls, then [r]. *)
Definition too_large_then (k : nat) (r : exn + Message)
    : nat → request → exn + Message :=
  λ n _, if (n <? k)%nat then inl too_large_error else r.

Definition padded_stream : Stream :=
  {| events := [other_event (py "message_start");
                content_block_delta (py "  hi");
                content_block_delta (py " there  ");
                message_delta 3;
                other_event (py "message_stop")];
     broken := None |}.

(** A stream that breaks off with a status error after one fragment. *)
Definition interrupted_stream : Stream :=
  {| events := [content_block_delta (py "Hel ")]; broken := Some overloaded |}.

(** A stream that runs to its end without a text fragment or a usage update. *)
Definition silent_stream : Stream :=
  {| events := [other_event (py "message_start"); other_event (py "message_stop")];
     broken := None |}.

Definition always_stream (r : exn + Stream) : nat → request → exn + Stream := λ _ _, r.

Definition too_large_then_stream (k : nat) (r : exn + Stream)
    : nat → request → exn + Stream :=
  λ n _, if (n <? k)%nat then inl too_large_error else r.

(** [e] for the first [k] calls, then [r]. *)
Definition failing_then (e : exn) (k : nat) (r : exn + Message)
    : nat → request → exn + Message :=
  λ n _, if (n <? k)%nat then inl e else r.

Definition failing_then_stream (e : exn) (k : nat) (r : exn + Stream)
    : nat → request → exn + Stream :=
  λ n _, if (n <? k)%nat then inl e else r.

(** * Properties *)

(** ** Trimming *)

Lemma lstrip_split (s : pystr) : ∃ l, s = l ++ lstrip s ∧ all_space l.
Proof.
  induction s as [|c s IH]; simpl.
  - exists []. split; [done | constructor].
  - destruct (is_space c) eqn:Hc.
    + destruct IH as (l & Hl & Hsp). exists (c :: l). split.
      * simpl. by f_equal.
      * by constructor.
    + exists []. split; [done | constructor].
Qed.

Lemma lstrip_head (s : pystr) (c : N) :
  head (lstrip s) = Some c → is_space c = false.
Proof.
  induction s as [|d s IH]; simpl; [done|].
  destruct (is_space d) eqn:Hd; [done|].
  simpl. by intros [= <-].
Qed.

Lemma rstrip_split (s : pystr) : ∃ r, s = rstrip s ++ r ∧ all_space r.
Proof.
  unfold rstrip. destruct (lstrip_split (reverse s)) as (l & Hl & Hsp).
  exists (reverse l). split.
  - rewrite <- reverse_app, <- Hl. by rewrite reverse_involutive.
  - unfold all_space in *. by rewrite Forall_reverse.
Qed.

Lemma rstrip_last (s : pystr) (c : N) :
  last (rstrip s) = Some c → is_space c = false.
Proof.
  unfold rstrip. rewrite last_reverse. apply lstrip_head.
Qed.

Lemma rstrip_head (s : pystr) (c : N) :
  head (rstrip s) = Some c → head s = Some c.
Proof.
  destruct (rstrip_split s) as (r & Hs & _).
  destruct (rstrip s) as [|d t] eqn:E; [done|].
  rewrite Hs. by simpl.
Qed.

Lemma strip_trimmed (s : pystr) : trimmed_of s (strip s).
Proof.
  unfold trimmed_of, strip. repeat split.
  - destruct (lstrip_split s) as (l & Hl & Hsl).
    destruct (rstrip_split (lstrip s)) as (r & Hr & Hsr).
    exists l, r. split; [|done]. by rewrite <- Hr.
  - intros c Hc. apply rstrip_head in Hc. by apply lstrip_head in Hc.
  - apply rstrip_last.
Qed.

(** A string without whitespace at either end is left as it is. *)
Lemma lstrip_id (s : pystr) :
  (∀ c, head s = Some c → is_space c = false) → lstrip s = s.
Proof.
  destruct s as [|c s]; [done|]. simpl. intros H. by rewrite (H c).
Qed.

(** ** Message assembly *)

Lemma generate_from_turn_entries (acc : list message_dict) (history : list Turn) :
  _generate_prompt_messages_from acc history = acc ++ turn_entries history.
Proof.
  revert acc. induction history as [|t rest IH]; intros acc; simpl.
  - by rewrite app_nil_r.
  - rewrite IH. by rewrite <- !app_assoc.
Qed.

Lemma generate_turn_entries (msg : pystr) (history : list Turn) (chat_mode : pystr) :
  _generate_prompt_messages msg history chat_mode
  = turn_entries history ++ [user_entry msg].
Proof.
  unfold _generate_prompt_messages. by rewrite generate_from_turn_entries.
Qed.

Lemma length_turn_entries (history : list Turn) :
  length (turn_entries history) = (2 * length history)%nat.
Proof. induction history as [|t rest IH]; simpl; lia. Qed.

Lemma lookup_turn_entries (history : list Turn) (i : nat) (t : Turn) :
  history !! i = Some t →
  turn_entries history !! (2 * i)%nat = Some (user_entry (user t))
  ∧ turn_entries history !! (2 * i + 1)%nat = Some (assistant_entry (bot t)).
Proof.
  revert i. induction history as [|t0 rest IH]; intros i Hi; [done|].
  destruct i as [|i].
  - simpl in Hi. injection Hi as ->. by split.
  - simpl in Hi. destruct (IH i Hi) as [Hu Ha].
    replace (2 * S i)%nat with (S (S (2 * i))) by lia.
    replace (S (S (2 * i)) + 1)%nat with (S (S (2 * i + 1))) by lia.
    by split.
Qed.

Lemma role_turn_entries (history : list Turn) (i : nat) (m : message_dict) :
  turn_entries history !! i = Some m →
  role_of m = Some (if Nat.even i then py "user" else py "assistant").
Proof.
  revert i. induction history as [|t0 rest IH]; intros i Hi; [done|].
  destruct i as [|[|i]]; simpl in Hi.
  - by injection Hi as <-.
  - by injection Hi as <-.
  - change (Nat.even (S (S i))) with (Nat.even i). by apply IH.
Qed.

(** ** Token accounting *)

Lemma Zsum_nil : Zsum [] = 0.
Proof. done. Qed.

Lemma Zsum_cons (x : Z) (l : list Z) : Zsum (x :: l) = x + Zsum l.
Proof. done. Qed.

Section TokenAccounting.
Context {Encoding : Type}
        (encoding_for_model : list N → exn + Encoding)
        (encode : Encoding → list N → exn + list Z).

Lemma message_values_cons (m : message_dict) (messages : list message_dict) :
  message_values (m :: messages) = (snd <$> m) ++ message_values messages.
Proof. unfold message_values. cbn [concat]. by rewrite fmap_app. Qed.

Lemma name_keys_no_name (m : message_dict) : no_name m → name_keys m = 0.
Proof.
  unfold name_keys, no_name. induction m as [|kv m IH]; intros Hm; [done|].
  rewrite fmap_cons, Zsum_cons.
  rewrite bool_decide_eq_false_2 by (apply Hm; left).
  rewrite IH; [done|]. intros kv' Hkv'. apply Hm. by right.
Qed.

(** Where the tokenizer raises on none of the values, the inner loop adds
    their tokenized lengths, and the per-name overhead for each ["name"]. *)
Lemma count_items_encodes (encoding : Encoding) (tokens : list N → list Z)
    (tpn n : Z) (m : message_dict) :
  encodes encode encoding tokens (snd <$> m) →
  count_items encode encoding tpn n m
  = inr (n + values_tokens tokens m + tpn * name_keys m).
Proof.
  unfold encodes, values_tokens, name_keys.
  revert n. induction m as [|kv m IH]; intros n Hm.
  - rewrite !fmap_nil, !Zsum_nil. cbn [count_items]. f_equal. lia.
  - rewrite fmap_cons in Hm. apply Forall_cons in Hm as [Hkv Hm].
    rewrite !fmap_cons, !Zsum_cons. cbn [count_items]. rewrite Hkv, IH by done.
    f_equal. case_bool_decide; lia.
Qed.

Lemma count_messages_encodes (encoding : Encoding) (tokens : list N → list Z)
    (tpm tpn n : Z) (messages : list message_dict) :
  encodes encode encoding tokens (message_values messages) →
  count_messages encode encoding tpm tpn n messages
  = inr (n + Zsum ((λ m, tpm + values_tokens tokens m + tpn * name_keys m)
                     <$> messages)).
Proof.
  unfold encodes.
  revert n. induction messages as [|m ms IH]; intros n Hms.
  - rewrite fmap_nil, Zsum_nil. cbn [count_messages]. f_equal. lia.
  - rewrite message_values_cons in Hms. apply Forall_app in Hms as [Hm Hms].
    rewrite fmap_cons, Zsum_cons. cbn [count_messages].
    rewrite (count_items_encodes encoding tokens) by done.
    rewrite IH by done. f_equal. lia.
Qed.

(** The first value on which the tokenizer raises ends the count with that
    error. *)
Lemma count_items_raises (encoding : Encoding) (tokens : list N → list Z)
    (tpn : Z) (m : message_dict) (t : list N) (e : exn) :
  ∀ (n : Z) (pre post : list (list N)),
    snd <$> m = pre ++ t :: post →
    encodes encode encoding tokens pre →
    encode encoding t = inl e →
    count_items encode encoding tpn n m = inl e.
Proof.
  unfold encodes. induction m as [|kv m IH]; intros n pre post Hm Hpre Ht.
  - by destruct pre.
  - rewrite fmap_cons in Hm. cbn [count_items]. destruct pre as [|p pre].
    + injection Hm as -> _. by rewrite Ht.
    + injection Hm as -> Hm. apply Forall_cons in Hpre as [-> Hpre].
      by apply (IH _ pre post).
Qed.

Lemma count_messages_raises (encoding : Encoding) (tokens : list N → list Z)
    (tpm tpn : Z) (messages : list message_dict) (t : list N) (e : exn) :
  ∀ (n : Z) (pre post : list (list N)),
    message_values messages = pre ++ t :: post →
    encodes encode encoding tokens pre →
    encode encoding t = inl e →
    count_messages encode encoding tpm tpn n messages = inl e.
Proof.
  induction messages as [|m ms IH]; intros n pre post Hms Hpre Ht.
  - by destruct pre.
  - rewrite message_values_cons in Hms. cbn [count_messages].
    apply app_eq_inv in Hms as [(k & Hm & Hms)|(k & -> & Hms)].
    + destruct k as [|t' k].
      * rewrite app_nil_r in Hm. simpl in Hms.
        rewrite (count_items_encodes encoding tokens) by (by rewrite Hm).
        apply (IH _ [] post); [by rewrite <- Hms|constructor|done].
      * injection Hms as -> _.
        by rewrite (count_items_raises encoding tokens tpn m t' e _ pre k).
    + apply Forall_app in Hpre as [Hm Hk].
      rewrite (count_items_encodes encoding tokens) by done.
      by apply (IH _ k post).
Qed.

(** A count that has succeeded from [n] succeeds from any [n'], with the same
    increase. *)
Lemma count_items_shift (encoding : Encoding) (tpn : Z) (m : message_dict) :
  ∀ (n n' r : Z),
    count_items encode encoding tpn n m = inr r →
    count_items encode encoding tpn n' m = inr (r + (n' - n)).
Proof.
  induction m as [|kv m IH]; intros n n' r; cbn [count_items].
  - intros [= <-]. f_equal. lia.
  - destruct (encode encoding kv.2) as [e|tokens]; [done|].
    intros Hr. rewrite (IH _ (if bool_decide (kv.1 = py "name")
                              then n' + Z.of_nat (length tokens) + tpn
                              else n' + Z.of_nat (length tokens)) _ Hr).
    f_equal. case_bool_decide; lia.
Qed.

Lemma count_messages_shift (encoding : Encoding) (tpm tpn : Z)
    (messages : list message_dict) :
  ∀ (n n' r : Z),
    count_messages encode encoding tpm tpn n messages = inr r →
    count_messages encode encoding tpm tpn n' messages = inr (r + (n' - n)).
Proof.
  induction messages as [|m ms IH]; intros n n' r; cbn [count_messages].
  - intros [= <-]. f_equal. lia.
  - destruct (count_items encode encoding tpn (n + tpm) m) as [e|n1] eqn:E; [done|].
    rewrite (count_items_shift encoding tpn m _ (n' + tpm) _ E).
    intros Hr. rewrite (IH _ (n1 + (n' + tpm - (n + tpm))) _ Hr). f_equal. lia.
Qed.

Lemma count_messages_app (encoding : Encoding) (tpm tpn : Z)
    (ms1 ms2 : list message_dict) :
  ∀ n : Z,
    count_messages encode encoding tpm tpn n (ms1 ++ ms2)
    = match count_messages encode encoding tpm tpn n ms1 with
      | inl e => inl e
      | inr n1 => count_messages encode encoding tpm tpn n1 ms2
      end.
Proof.
  induction ms1 as [|m ms1 IH]; intros n; [done|].
  cbn [app count_messages].
  by destruct (count_items encode encoding tpn (n + tpm) m).
Qed.

Lemma turn_entries_no_name (history : list Turn) :
  Forall no_name (turn_entries history).
Proof.
  induction history as [|t rest IH]; simpl; [constructor|].
  repeat constructor; [| |done];
    intros kv Hkv; repeat (apply elem_of_cons in Hkv as [->|Hkv]; [by compute|]);
    by apply elem_of_nil in Hkv.
Qed.

Lemma generate_no_name (msg : pystr) (history : list Turn) (chat_mode : pystr) :
  Forall no_name (_generate_prompt_messages msg history chat_mode).
Proof.
  rewrite generate_turn_entries. apply Forall_app. split.
  - apply turn_entries_no_name.
  - repeat constructor.
    intros kv Hkv; repeat (apply elem_of_cons in Hkv as [->|Hkv]; [by compute|]);
    by apply elem_of_nil in Hkv.
Qed.
End TokenAccounting.

(** ** Running the adapter *)

Lemma bind_Val {A B} (m : M A) (k : A → M B) (s s' : state) (a : A) :
  m s = (Val a, s') → bind m k s = k a s'.
Proof. unfold bind. by intros ->. Qed.

Lemma bind_Exc {A B} (m : M A) (k : A → M B) (s s' : state) (e : exn) :
  m s = (Exc e, s') → bind m k s = (Exc e, s').
Proof. unfold bind. by intros ->. Qed.

Lemma bind_Stuck {A B} (m : M A) (k : A → M B) (s s' : state) (w : stuck) :
  m s = (Stuck w, s') → bind m k s = (Stuck w, s').
Proof. unfold bind. by intros ->. Qed.

Lemma deref_Some (s : state) (l : loc) (v : list Turn) :
  heap s !! l = Some v → deref l s = (Val v, s).
Proof. unfold deref. by intros ->. Qed.

Lemma py_len_Some (s : state) (l : loc) (v : list Turn) :
  heap s !! l = Some v → py_len l s = (Val (Z.of_nat (length v)), s).
Proof. intros H. unfold py_len, bind. by rewrite (deref_Some _ _ _ H). Qed.

Lemma bind_assoc {A B C} (m : M A) (f : A → M B) (g : B → M C) (s : state) :
  bind (bind m f) g s = bind m (λ x, bind (f x) g) s.
Proof. unfold bind. by destruct (m s) as [[a|e|w] s']. Qed.

Lemma bind_same {A B} (m1 m2 : M A) (k : A → M B) (s : state) :
  m1 s = m2 s → bind m1 k s = bind m2 k s.
Proof. unfold bind. by intros ->. Qed.

Lemma bind_ext {A B} (m : M A) (k1 k2 : A → M B) (s : state) :
  (∀ a s', k1 a s' = k2 a s') → bind m k1 s = bind m k2 s.
Proof. intros H. unfold bind. by destruct (m s) as [[a|e|w] s']. Qed.

(** Running a computation symbolically: reassociate, reduce what is pure, and
    rewrite with the equation of the operation that comes next. *)
Ltac norm := repeat first [rewrite bind_assoc | progress cbn].
Tactic Notation "run" constr(H) := norm; rewrite (bind_Val _ _ _ _ _ H); norm.
Tactic Notation "run_exc" constr(H) := norm; rewrite (bind_Exc _ _ _ _ _ H); norm.

Lemma read_local_Some {A} (name : string) (proj : frame → option A)
    (s : state) (a : A) :
  proj (locals s) = Some a → read_local name proj s = (Val a, s).
Proof. unfold read_local. by intros ->. Qed.

Lemma answer_str_Some (s : state) (a : pystr) :
  answer (locals s) = Some a → answer_str s = (Val a, s).
Proof. unfold answer_str. by intros ->. Qed.

Lemma heap_allocated (v : list Turn) (s : state) :
  heap (allocated v s) !! fresh (dom (heap s)) = Some v.
Proof. unfold allocated. cbn. apply lookup_insert_eq. Qed.

Lemma heap_allocated_subseteq (v : list Turn) (s : state) :
  heap s ⊆ heap (allocated v s).
Proof.
  unfold allocated. cbn. apply insert_subseteq.
  apply not_elem_of_dom. apply is_fresh.
Qed.

Lemma py_slice_from_1_Some (s : state) (l : loc) (v : list Turn) :
  heap s !! l = Some v →
  py_slice_from_1 l s = (Val (fresh (dom (heap s))), allocated (drop 1 v) s).
Proof. intros H. unfold py_slice_from_1. by run (deref_Some _ _ _ H). Qed.

(** *** The [except] clause *)

Lemma handler_empty (s : state) (c : pyval) (m : pystr) :
  heap s !! dialog_messages (locals s) = Some [] →
  on_APIStatusError c m s = (Exc history_exhausted, s).
Proof. intros H. unfold on_APIStatusError. cbn. by run (py_len_Some _ _ _ H). Qed.

Lemma handler_too_large (s : state) (r : request) (t : Turn) (rest : list Turn)
    (m : pystr) :
  heap s !! dialog_messages (locals s) = Some (t :: rest) →
  ∃ s', on_APIStatusError too_large_code m (logged r s) = (Val tt, s')
        ∧ turn_dropped r rest s s'.
Proof.
  intros H. unfold on_APIStatusError. cbn.
  erewrite bind_Val by (by apply py_len_Some).
  rewrite bool_decide_eq_false_2 by done.
  rewrite bool_decide_eq_true_2 by done.
  erewrite bind_Val by (by apply py_slice_from_1_Some).
  eexists. split; [reflexivity|]. unfold turn_dropped. cbn.
  split; [apply insert_subseteq, not_elem_of_dom, is_fresh|].
  split; [apply lookup_insert_eq|]. done.
Qed.

Lemma handler_rate_limited (s : state) (t : Turn) (rest : list Turn) (m : pystr) :
  heap s !! dialog_messages (locals s) = Some (t :: rest) →
  on_APIStatusError rate_limit_code m s = (Exc (rate_limited m), s).
Proof.
  intros H. unfold on_APIStatusError. cbn. run (py_len_Some _ _ _ H).
  rewrite bool_decide_eq_false_2 by done.
  rewrite bool_decide_eq_false_2 by (by compute).
  by rewrite bool_decide_eq_true_2.
Qed.

Lemma handler_other_status (s : state) (t : Turn) (rest : list Turn)
    (c : pyval) (m : pystr) :
  heap s !! dialog_messages (locals s) = Some (t :: rest) →
  c ≠ too_large_code → c ≠ rate_limit_code →
  on_APIStatusError c m s = (Val tt, s).
Proof.
  intros H H1 H2. unfold on_APIStatusError. cbn. run (py_len_Some _ _ _ H).
  by rewrite !bool_decide_eq_false_2.
Qed.

(** *** The retry loop *)

Section RetryLoop.
Context (body : M unit) (rq : list Turn → request).
(** [forgets n r]: the remote call number [n], made with [r], is answered by
    a status error for which the [except] clause forgets the first turn. *)
Context (forgets : nat → request → Prop).

Lemma while_step (fuel : nat) (s : state) :
  answer (locals s) = None →
  while_answer_is_None (S fuel) body s
  = bind body (λ _, while_answer_is_None fuel body) s.
Proof. intros Ha. cbn. by rewrite Ha. Qed.

Lemma while_done (fuel : nat) (s : state) (a : list N) :
  answer (locals s) = Some a → while_answer_is_None fuel body s = (Val a, s).
Proof. intros Ha. destruct fuel; cbn; by rewrite Ha. Qed.

(** The body, run where the remote call is answered so and the history is not
    empty, drops the oldest turn. *)
Hypothesis body_drops :
  ∀ (s : state) (t : Turn) (rest : list Turn),
    heap s !! dialog_messages (locals s) = Some (t :: rest) →
    forgets (length (calls s)) (rq (t :: rest)) →
    ∃ s', body s = (Val tt, s') ∧ turn_dropped (rq (t :: rest)) rest s s'.

(** [k] attempts answered so drop the [k] oldest turns, one per
    attempt, and leave the loop where it would be with the shorter history. *)
Lemma while_drops (k : nat) :
  ∀ (fuel : nat) (s : state) (history : list Turn),
    heap s !! dialog_messages (locals s) = Some history →
    answer (locals s) = None →
    (k ≤ length history)%nat →
    (∀ i, (i < k)%nat →
          forgets (length (calls s) + i)%nat (rq (drop i history))) →
    ∃ s', while_answer_is_None (k + fuel) body s
          = while_answer_is_None fuel body s'
          ∧ turns_dropped rq history k s s'.
Proof.
  induction k as [|k IH]; intros fuel s history Hh Ha Hk Hfail.
  - exists s. unfold turns_dropped. rewrite drop_0, app_nil_r. by repeat split.
  - destruct history as [|t rest]; [simpl in Hk; lia|].
    pose proof (Hfail 0%nat ltac:(lia)) as Hm.
    rewrite Nat.add_0_r, drop_0 in Hm.
    destruct (body_drops s t rest Hh Hm)
      as (s1 & Hrun & Hsub & Hdm & Hcalls & Hy & Ha1 & Hi & Ho & Hn).
    destruct (IH fuel s1 rest Hdm)
      as (s' & Hloop & Hsub' & Hdm' & Hcalls' & Hy' & Ha' & Hi' & Ho' & Hn').
    + by rewrite Ha1.
    + simpl in Hk. lia.
    + intros i Hi'. pose proof (Hfail (S i) ltac:(lia)) as Hm'.
      rewrite Hcalls, length_app. simpl.
      by replace (length (calls s) + 1 + i)%nat
        with (length (calls s) + S i)%nat by lia.
    + exists s'. split; [|split; [|split; [|split]]].
      * change (S k + fuel)%nat with (S (k + fuel)).
        rewrite (while_step _ _ Ha).
        by rewrite (bind_Val _ _ _ _ _ Hrun).
      * by etrans.
      * done.
      * rewrite Hcalls', Hcalls, <- app_assoc. f_equal.
        change (seq 0 (S k)) with (0%nat :: seq 1 k).
        rewrite fmap_cons, drop_0, <- fmap_S_seq, <- list_fmap_compose. done.
      * repeat split; congruence.
Qed.
End RetryLoop.

Lemma relogged_0 (r : request) (s : state) : relogged 0 r s = s.
Proof. destruct s. unfold relogged. cbn. by rewrite app_nil_r. Qed.

Lemma relogged_S (k : nat) (r : request) (s : state) :
  relogged k r (logged r s) = relogged (S k) r s.
Proof. unfold relogged, logged. cbn. by rewrite <- app_assoc. Qed.

Lemma length_calls_relogged (k : nat) (r : request) (s : state) :
  length (calls (relogged k r s)) = (length (calls s) + k)%nat.
Proof. cbn. by rewrite length_app, length_replicate. Qed.

Section RepeatLoop.
Context (body : M unit) (r : request) (h : list Turn).
(** [refused n]: the remote call number [n], made with [r], is answered by a
    status error for which the [except] clause does nothing. *)
Context (refused : nat → Prop).

Hypothesis body_repeats :
  ∀ s : state,
    heap s !! dialog_messages (locals s) = Some h →
    answer (locals s) = None →
    refused (length (calls s)) →
    body s = (Val tt, logged r s).

(** [k] refused attempts leave the loop where it was, [k] calls later. *)
Lemma while_repeats (k : nat) :
  ∀ (fuel : nat) (s : state),
    heap s !! dialog_messages (locals s) = Some h →
    answer (locals s) = None →
    (∀ i, (i < k)%nat → refused (length (calls s) + i)%nat) →
    while_answer_is_None (k + fuel) body s
    = while_answer_is_None fuel body (relogged k r s).
Proof.
  induction k as [|k IH]; intros fuel s Hh Ha Hall.
  - by rewrite relogged_0.
  - change (S k + fuel)%nat with (S (k + fuel)).
    rewrite (while_step _ _ _ Ha).
    rewrite (bind_Val _ _ _ _ _ (body_repeats s Hh Ha
               ltac:(rewrite <- (Nat.add_0_r (length (calls s))); apply Hall; lia))).
    rewrite IH, relogged_S; [done..|].
    intros i Hi. cbn. rewrite length_app. cbn.
    replace (length (calls s) + 1 + i)%nat with (length (calls s) + S i)%nat by lia.
    apply Hall. lia.
Qed.
End RepeatLoop.

(** *** [send_message]: one attempt, then the loop *)

Section SendMessage.
Context (chat_modes : gmap (list N) (gmap (list N) (list N))).
Context (create_message : nat → request → exn + Message).
Context (self : Claude) (msg chat_mode : list N).
Context (entry : gmap (list N) (list N)) (system : list N).
Hypothesis Hmodel : model self ∈ claude_models.
Hypothesis Hmode : chat_modes !! chat_mode = Some entry.
Hypothesis Hprompt : entry !! py "prompt_start" = Some system.

Local Abbreviation req history := (the_request self chat_mode msg history system false).
Local Abbreviation attempt :=
  (try_except_APIStatusError
     (send_message_try chat_modes create_message self msg chat_mode)
     on_APIStatusError).
Local Abbreviation loop fuel :=
  (send_message_loop chat_modes create_message fuel self msg chat_mode).

Lemma prompt_start_Some (s : state) :
  prompt_start chat_modes chat_mode s = (Val system, s).
Proof. unfold prompt_start. by rewrite Hmode, Hprompt. Qed.

Lemma messages_create_inr (s : state) (r : request) (m : Message) :
  create_message (length (calls s)) r = inr m →
  messages_create create_message r s = (Val m, logged r s).
Proof. unfold messages_create. by intros ->. Qed.

Lemma messages_create_inl (s : state) (r : request) (e : exn) :
  create_message (length (calls s)) r = inl e →
  messages_create create_message r s = (Exc e, logged r s).
Proof. unfold messages_create. by intros ->. Qed.

Lemma send_try_raises (s : state) (history : list Turn) (e : exn) :
  heap s !! dialog_messages (locals s) = Some history →
  create_message (length (calls s)) (req history) = inl e →
  send_message_try chat_modes create_message self msg chat_mode s
  = (Exc e, logged (req history) s).
Proof.
  intros Hh Hr. unfold send_message_try.
  rewrite bool_decide_eq_true_2 by done.
  cbn. run (deref_Some _ _ _ Hh). run (prompt_start_Some s).
  by run_exc (messages_create_inl _ _ _ Hr).
Qed.

Lemma send_attempt_success (s : state) (history : list Turn) (r : Message)
    (text : list N) (rest : list (list N)) :
  heap s !! dialog_messages (locals s) = Some history →
  create_message (length (calls s)) (req history) = inr r →
  content r = text :: rest →
  ∃ s', attempt s = (Val tt, s')
        ∧ heap s' = heap s
        ∧ calls s' = calls s ++ [req history]
        ∧ yielded s' = yielded s
        ∧ dialog_messages (locals s') = dialog_messages (locals s)
        ∧ answer (locals s') = Some (strip text)
        ∧ n_input_tokens (locals s') = Some (usage_input_tokens r)
        ∧ n_output_tokens (locals s') = Some (usage_output_tokens r).
Proof.
  intros Hh Hr Hc.
  unfold try_except_APIStatusError, send_message_try.
  rewrite bool_decide_eq_true_2 by done.
  cbn. run (deref_Some _ _ _ Hh). run (prompt_start_Some s).
  run (messages_create_inr _ _ _ Hr). unfold content_0_text. rewrite Hc. cbn.
  eexists. split; [reflexivity|]. done.
Qed.

Lemma send_attempt_too_large (s : state) (t : Turn) (rest : list Turn) :
  heap s !! dialog_messages (locals s) = Some (t :: rest) →
  (∃ m, create_message (length (calls s)) (req (t :: rest))
        = inl (APIStatusError too_large_code m)) →
  ∃ s', attempt s = (Val tt, s') ∧ turn_dropped (req (t :: rest)) rest s s'.
Proof.
  intros Hh [m Hr]. unfold try_except_APIStatusError.
  rewrite (send_try_raises _ _ _ Hh Hr).
  apply (handler_too_large s _ t rest m Hh).
Qed.

Lemma send_attempt_exhausted (s : state) (c : pyval) (m : list N) :
  heap s !! dialog_messages (locals s) = Some [] →
  create_message (length (calls s)) (req []) = inl (APIStatusError c m) →
  attempt s = (Exc history_exhausted, logged (req []) s).
Proof.
  intros Hh Hr. unfold try_except_APIStatusError.
  rewrite (send_try_raises _ _ _ Hh Hr).
  by rewrite (handler_empty (logged (req []) s) c m Hh).
Qed.

Lemma send_attempt_rate_limited (s : state) (t : Turn) (rest : list Turn)
    (m : list N) :
  heap s !! dialog_messages (locals s) = Some (t :: rest) →
  create_message (length (calls s)) (req (t :: rest))
    = inl (APIStatusError rate_limit_code m) →
  attempt s = (Exc (rate_limited m), logged (req (t :: rest)) s).
Proof.
  intros Hh Hr. unfold try_except_APIStatusError.
  rewrite (send_try_raises _ _ _ Hh Hr).
  by rewrite (handler_rate_limited (logged (req (t :: rest)) s) t rest m Hh).
Qed.

Lemma send_attempt_other_error (s : state) (history : list Turn) (e : exn) :
  heap s !! dialog_messages (locals s) = Some history →
  (∀ c m, e ≠ APIStatusError c m) →
  create_message (length (calls s)) (req history) = inl e →
  attempt s = (Exc e, logged (req history) s).
Proof.
  intros Hh He Hr. unfold try_except_APIStatusError.
  rewrite (send_try_raises _ _ _ Hh Hr).
  destruct e; try done. by destruct (He status_code message).
Qed.

(** A status error with any other code, met with a non-empty history: neither
    branch of the [except] clause applies, and the loop goes on with the
    history as it is. *)
Lemma send_attempt_other_status (s : state) (t : Turn) (rest : list Turn)
    (c : pyval) (m : list N) :
  heap s !! dialog_messages (locals s) = Some (t :: rest) →
  c ≠ too_large_code → c ≠ rate_limit_code →
  create_message (length (calls s)) (req (t :: rest)) = inl (APIStatusError c m) →
  attempt s = (Val tt, logged (req (t :: rest)) s).
Proof.
  intros Hh Hc1 Hc2 Hr. unfold try_except_APIStatusError.
  rewrite (send_try_raises _ _ _ Hh Hr).
  by apply (handler_other_status (logged (req (t :: rest)) s) t rest c m).
Qed.

Lemma send_loop_drops (k fuel : nat) (s : state) (history : list Turn) :
  heap s !! dialog_messages (locals s) = Some history →
  answer (locals s) = None →
  (k ≤ length history)%nat →
  (∀ i, (i < k)%nat →
        ∃ m, create_message (length (calls s) + i) (req (drop i history))
             = inl (APIStatusError too_large_code m)) →
  ∃ s', loop (k + fuel) s = loop fuel s'
        ∧ turns_dropped (λ h, req h) history k s s'.
Proof.
  apply (while_drops attempt (λ h, req h)
           (λ n r, ∃ m, create_message n r = inl (APIStatusError too_large_code m))).
  apply send_attempt_too_large.
Qed.

Lemma mode_supported : bool_decide (chat_mode ∉ dom chat_modes) = false.
Proof. apply bool_decide_eq_false_2. intros H. apply H, elem_of_dom. eauto. Qed.

Lemma send_message_returns (fuel : nat) (s s' : state) (dm : loc)
    (history history' : list Turn) (a : list N) (n_in n_out : Z) :
  heap s !! dm = Some history →
  loop fuel (entered dm s) = (Val a, s') →
  heap s' !! dialog_messages (locals s') = Some history' →
  n_input_tokens (locals s') = Some n_in →
  n_output_tokens (locals s') = Some n_out →
  send_message chat_modes create_message fuel self msg dm chat_mode s
  = (Val (a, (n_in, n_out), Z.of_nat (length history) - Z.of_nat (length history')), s').
Proof.
  intros Hh Hloop Hh' Hi Ho. unfold send_message. cbn.
  rewrite mode_supported.
  assert (Hh0 : heap (entered dm s) !! dm = Some history) by done.
  run (py_len_Some _ _ _ Hh0). run Hloop. run (py_len_Some _ _ _ Hh').
  run (read_local_Some "n_input_tokens" _ _ _ Hi).
  by run (read_local_Some "n_output_tokens" _ _ _ Ho).
Qed.

Lemma send_message_raises (fuel : nat) (s s' : state) (dm : loc)
    (history : list Turn) (e : exn) :
  heap s !! dm = Some history →
  loop fuel (entered dm s) = (Exc e, s') →
  send_message chat_modes create_message fuel self msg dm chat_mode s = (Exc e, s').
Proof.
  intros Hh Hloop. unfold send_message. cbn. rewrite mode_supported.
  assert (Hh0 : heap (entered dm s) !! dm = Some history) by done.
  run (py_len_Some _ _ _ Hh0). by run_exc Hloop.
Qed.

Lemma seq_snoc_fmap {A} (f : nat → A) (k : nat) :
  (f <$> seq 0 k) ++ [f k] = f <$> seq 0 (S k).
Proof. by rewrite seq_S, fmap_app. Qed.

(** After [k] answers with the [status_code] ['403'], a string, the [k+1]-th
    attempt succeeds. *)
Lemma send_message_succeeds_after (k fuel : nat) (s : state) (dm : loc)
    (history : list Turn) (r : Message) (text : list N) (rest : list (list N)) :
  heap s !! dm = Some history →
  (k ≤ length history)%nat →
  (∀ i, (i < k)%nat →
        ∃ m, create_message (length (calls s) + i) (req (drop i history))
             = inl (APIStatusError too_large_code m)) →
  create_message (length (calls s) + k) (req (drop k history)) = inr r →
  content r = text :: rest →
  (k < fuel)%nat →
  ∃ s', send_message chat_modes create_message fuel self msg dm chat_mode s
        = (Val (strip text, (usage_input_tokens r, usage_output_tokens r),
                Z.of_nat (length history) - Z.of_nat (length (drop k history))), s')
        ∧ heap s ⊆ heap s'
        ∧ calls s' = calls s ++ ((λ i, req (drop i history)) <$> seq 0 (S k))
        ∧ yielded s' = yielded s.
Proof.
  intros Hh Hk Hfail Hr Hc Hfuel.
  destruct (send_loop_drops k (fuel - k) (entered dm s) history)
    as (s1 & Hloop & Hsub & Hdm & Hcalls & Hy & Ha & _); [done..|].
  replace (k + (fuel - k))%nat with fuel in Hloop by lia.
  cbn in Ha.
  destruct (send_attempt_success s1 (drop k history) r text rest Hdm)
    as (s2 & Hrun & Hheap & Hcalls2 & Hy2 & Hdm2 & Ha2 & Hi2 & Ho2); [|done|].
  { rewrite Hcalls, length_app, length_fmap, length_seq. exact Hr. }
  exists s2. split; [|split; [|split]].
  - eapply send_message_returns; [done| |by rewrite Hdm2, Hheap|done..].
    rewrite Hloop. destruct (fuel - k)%nat as [|f] eqn:E; [lia|].
    unfold send_message_loop.
    rewrite (while_step _ _ _ Ha). rewrite (bind_Val _ _ _ _ _ Hrun).
    by apply while_done.
  - by rewrite Hheap.
  - rewrite <- (seq_snoc_fmap (λ i, req (drop i history))), Hcalls2, Hcalls.
    by rewrite <- app_assoc.
  - by rewrite Hy2, Hy.
Qed.

(** After [k] answers with the [status_code] ['403'], a string, the [k+1]-th
    attempt raises [e]. *)
Lemma send_message_fails_after (k fuel : nat) (s : state) (dm : loc)
    (history : list Turn) (e : exn) :
  heap s !! dm = Some history →
  (k ≤ length history)%nat →
  (∀ i, (i < k)%nat →
        ∃ m, create_message (length (calls s) + i) (req (drop i history))
             = inl (APIStatusError too_large_code m)) →
  (k < fuel)%nat →
  (∀ s1, heap s1 !! dialog_messages (locals s1) = Some (drop k history) →
         length (calls s1) = (length (calls s) + k)%nat →
         attempt s1 = (Exc e, logged (req (drop k history)) s1)) →
  ∃ s', send_message chat_modes create_message fuel self msg dm chat_mode s
        = (Exc e, s')
        ∧ heap s ⊆ heap s'
        ∧ calls s' = calls s ++ ((λ i, req (drop i history)) <$> seq 0 (S k))
        ∧ yielded s' = yielded s.
Proof.
  intros Hh Hk Hfail Hfuel Hatt.
  destruct (send_loop_drops k (fuel - k) (entered dm s) history)
    as (s1 & Hloop & Hsub & Hdm & Hcalls & Hy & Ha & _); [done..|].
  replace (k + (fuel - k))%nat with fuel in Hloop by lia.
  cbn in Ha.
  exists (logged (req (drop k history)) s1). split; [|split; [|split]].
  - eapply send_message_raises; [done|].
    rewrite Hloop. destruct (fuel - k)%nat as [|f] eqn:E; [lia|].
    unfold send_message_loop.
    rewrite (while_step _ _ _ Ha). apply bind_Exc, Hatt; [done|].
    by rewrite Hcalls, length_app, length_fmap, length_seq.
  - done.
  - rewrite <- (seq_snoc_fmap (λ i, req (drop i history))).
    change (calls (logged (req (drop k history)) s1))
      with (calls s1 ++ [req (drop k history)]).
    by rewrite Hcalls, <- app_assoc.
  - done.
Qed.

(** C8.  When the first attempt succeeds, [send_message] returns the text of
    the first content block with its leading and trailing whitespace removed,
    the input and output token counts reported in the response's usage, and
    a discarded count of 0, after that single remote call. *)
Theorem send_message_first_attempt_success (fuel : nat) (s : state) (dm : loc)
    (history : list Turn) (r : Message) (text : list N) (rest : list (list N)) :
  heap s !! dm = Some history →
  create_message (length (calls s)) (req history) = inr r →
  content r = text :: rest →
  (0 < fuel)%nat →
  ∃ s', send_message chat_modes create_message fuel self msg dm chat_mode s
        = (Val (strip text, (usage_input_tokens r, usage_output_tokens r), 0), s')
        ∧ trimmed_of text (strip text)
        ∧ calls s' = calls s ++ [req history].
Proof.
  intros Hh Hr Hc Hfuel.
  destruct (send_message_succeeds_after 0 fuel s dm history r text rest Hh)
    as (s' & Hrun & _ & Hcalls & _);
    [lia|intros i Hi; lia|by rewrite Nat.add_0_r, drop_0|done..|].
  rewrite drop_0, Z.sub_diag in Hrun.
  exists s'. split; [done|]. split; [apply strip_trimmed|].
  by rewrite Hcalls.
Qed.

End SendMessage.

(** *** [send_message_stream]: the items of one stream *)

Section CountForClaude.
Context {Encoding : Type}
        (encoding_for_model : list N → exn + Encoding)
        (encode : Encoding → list N → exn + list Z).
Context (self : Claude) (encoding : Encoding).
Hypothesis Hmodel : model self ∈ claude_models.
Hypothesis Henc : encoding_for_model (py "gpt-4") = inr encoding.

(** For each of the three models: the ["gpt-4"] encoding, 3 per message and 1
    per name. *)
Lemma count_tokens_claude (messages : list message_dict) (a : list N) :
  _count_tokens_from_messages encoding_for_model encode messages a (model self)
  = match count_messages encode encoding 3 1 0 messages with
    | inl e => inl e
    | inr n_input =>
        match encode encoding a with
        | inl e => inl e
        | inr tokens => inr (n_input + 2, 1 + Z.of_nat (length tokens))
        end
    end.
Proof.
  unfold _count_tokens_from_messages. destruct self as [m]. cbn in *.
  unfold claude_models in Hmodel.
  repeat (apply elem_of_cons in Hmodel as [->|Hmodel]);
    [| | |by apply elem_of_nil in Hmodel].
  all: match goal with
       | |- context [str_in ?p ?m] =>
           replace (str_in p m) with true by (by vm_compute)
       end.
  all: rewrite Henc.
  all: match goal with
       | |- context [tokens_per ?m] =>
           replace (tokens_per m) with (@inr exn _ (3, 1)) by (by vm_compute)
       end.
  all: done.
Qed.

(** The count succeeds where the tokenizer raises neither on a value of the
    messages nor on the answer. *)
Lemma count_succeeds_encodes (tokens : list N → list Z)
    (messages : list message_dict) (answers : list (list N)) :
  encodes encode encoding tokens (message_values messages ++ answers) →
  count_succeeds encoding_for_model encode messages (model self) answers.
Proof.
  unfold encodes, count_succeeds. intros H. apply Forall_app in H as [Hm Ha].
  eapply Forall_impl; [exact Ha|]. intros a Henc_a. cbn in Henc_a.
  rewrite count_tokens_claude, (count_messages_encodes encode encoding tokens) by done.
  rewrite Henc_a. eauto.
Qed.
End CountForClaude.

Section StreamItems.
Context {Encoding : Type}
        (encoding_for_model : list N → exn + Encoding)
        (encode : Encoding → list N → exn + list Z).
Context (self : Claude) (messages : list message_dict).

Local Abbreviation counted answers :=
  (count_succeeds encoding_for_model encode messages (model self) answers).

Lemma stream_item_run (nb : Z) (ev : event)
    (s : state) (a : list N) (h : list Turn) :
  answer (locals s) = Some a →
  heap s !! dialog_messages (locals s) = Some h →
  counted (running_answers a [ev]) →
  ∃ s' items,
    stream_item encoding_for_model encode self messages nb ev s = (Val tt, s')
    ∧ heap s' = heap s ∧ calls s' = calls s
    ∧ dialog_messages (locals s') = dialog_messages (locals s)
    ∧ yielded s' = yielded s ++ items
    ∧ Forall (λ x, item_status x = py "not_finished"
                   ∧ item_removed x = nb - Z.of_nat (length h)) items
    ∧ item_answer <$> items = running_answers a [ev]
    ∧ answer (locals s') = Some (a ++ concat (fragments [ev]))
    ∧ (is_delta ev = true ∨ synced s → synced s')
    ∧ (is_delta ev = false → s' = s).
Proof.
  intros Ha Hh Hcount. destruct ev as [text|out|ty]; unfold stream_item.
  - apply Forall_singleton in Hcount as [t Ht].
    run (answer_str_Some _ _ Ha).
    rewrite Ht. cbn.
    erewrite bind_Val by (by apply py_len_Some). cbn.
    eexists. eexists [_]. split; [reflexivity|]. cbn.
    rewrite app_nil_r.
    repeat split; try done.
    + by repeat constructor.
    + intros _. eexists. cbn. rewrite last_snoc. done.
  - apply Forall_singleton in Hcount as [t Ht].
    run (answer_str_Some _ _ Ha).
    rewrite Ht. cbn.
    erewrite bind_Val by (by apply py_len_Some). cbn.
    eexists. eexists [_]. split; [reflexivity|]. cbn.
    rewrite app_nil_r.
    repeat split; try done.
    + by repeat constructor.
    + intros _. eexists. cbn. rewrite last_snoc. done.
  - exists s, []. cbn. rewrite !app_nil_r.
    repeat split; try done.
    by intros [|].
Qed.

Lemma running_answers_cons (a : list N) (ev : event) (evs : list event) :
  running_answers a (ev :: evs)
  = running_answers a [ev] ++ running_answers (a ++ concat (fragments [ev])) evs.
Proof. destruct ev; cbn; by rewrite ?app_nil_r. Qed.

Lemma fragments_cons (ev : event) (evs : list event) :
  concat (fragments (ev :: evs)) = concat (fragments [ev]) ++ concat (fragments evs).
Proof. destruct ev; cbn; by rewrite ?app_nil_r. Qed.

Lemma stream_items_run (nb : Z) (evs : list event) :
  ∀ (s : state) (a : list N) (h : list Turn),
    answer (locals s) = Some a →
    heap s !! dialog_messages (locals s) = Some h →
    counted (running_answers a evs) →
    ∃ s' items,
      stream_items encoding_for_model encode self messages nb evs s = (Val tt, s')
      ∧ heap s' = heap s ∧ calls s' = calls s
      ∧ dialog_messages (locals s') = dialog_messages (locals s)
      ∧ yielded s' = yielded s ++ items
      ∧ Forall (λ x, item_status x = py "not_finished"
                     ∧ item_removed x = nb - Z.of_nat (length h)) items
      ∧ item_answer <$> items = running_answers a evs
      ∧ answer (locals s') = Some (a ++ concat (fragments evs))
      ∧ (existsb is_delta evs = true ∨ synced s → synced s')
      ∧ (existsb is_delta evs = false → s' = s).
Proof.
  induction evs as [|ev evs IH]; intros s a h Ha Hh Hcount.
  - exists s, []. cbn. rewrite !app_nil_r. repeat split; try done.
    by intros [|].
  - rewrite (running_answers_cons a ev evs) in Hcount.
    apply Forall_app in Hcount as [Hcount1 Hcount2].
    destruct (stream_item_run nb ev s a h Ha Hh Hcount1)
      as (s1 & items1 & Hrun1 & Hheap1 & Hcalls1 & Hdm1 & Hy1 & Hall1 & Hans1
          & Ha1 & Hsync1 & Hsame1).
    destruct (IH s1 (a ++ concat (fragments [ev])) h Ha1)
      as (s2 & items2 & Hrun2 & Hheap2 & Hcalls2 & Hdm2 & Hy2 & Hall2 & Hans2
          & Ha2 & Hsync2 & Hsame2); [by rewrite Hheap1, Hdm1|done|].
    exists s2, (items1 ++ items2).
    split; [|repeat split].
    + cbn [stream_items]. by rewrite (bind_Val _ _ _ _ _ Hrun1).
    + congruence.
    + congruence.
    + congruence.
    + by rewrite Hy2, Hy1, app_assoc.
    + by apply Forall_app.
    + by rewrite fmap_app, Hans1, Hans2, (running_answers_cons a ev evs).
    + by rewrite Ha2, (fragments_cons ev evs), app_assoc.
    + intros Hd. apply Hsync2. cbn [existsb] in Hd.
      destruct (is_delta ev) eqn:Hev.
      * right. apply Hsync1. by left.
      * rewrite (Hsame1 eq_refl) in *. cbn in Hd. destruct Hd as [Hd|Hd]; auto.
    + intros Hd. cbn [existsb] in Hd. apply orb_false_iff in Hd as [Hd1 Hd2].
      by rewrite (Hsame2 Hd2), (Hsame1 Hd1).
Qed.

Lemma running_answers_quiet (a : list N) (evs : list event) :
  existsb is_delta evs = false → running_answers a evs = [].
Proof.
  induction evs as [|ev evs IH]; [done|].
  destruct ev; cbn; first [done | apply IH].
Qed.

(** Items that are neither a text fragment nor a usage update change nothing. *)
Lemma stream_items_quiet (nb : Z) (evs : list event) (s : state) :
  existsb is_delta evs = false →
  stream_items encoding_for_model encode self messages nb evs s = (Val tt, s).
Proof.
  induction evs as [|ev evs IH]; [done|].
  destruct ev; cbn; first [done | apply IH].
Qed.

Lemma stream_items_app (nb : Z) (evs1 evs2 : list event) (s : state) :
  stream_items encoding_for_model encode self messages nb (evs1 ++ evs2) s
  = bind (stream_items encoding_for_model encode self messages nb evs1)
         (λ _, stream_items encoding_for_model encode self messages nb evs2) s.
Proof.
  revert s. induction evs1 as [|ev evs1 IH]; intros s; [done|].
  cbn [app stream_items]. rewrite bind_assoc.
  apply bind_ext. intros _ s'. apply IH.
Qed.

(** The first text fragment or usage update on which the local count raises:
    nothing is produced for it. *)
Lemma stream_item_count_raises (nb : Z) (ev : event) (s : state) (a0 a : list N)
    (e : exn) :
  answer (locals s) = Some a0 →
  running_answers a0 [ev] = [a] →
  _count_tokens_from_messages encoding_for_model encode messages a (model self)
  = inl e →
  ∃ s', stream_item encoding_for_model encode self messages nb ev s = (Exc e, s')
        ∧ calls s' = calls s ∧ yielded s' = yielded s.
Proof.
  intros Ha Hev He. destruct ev as [text|out|ty]; [| |done];
    injection Hev as <-; unfold stream_item.
  - run (answer_str_Some _ _ Ha). rewrite He. cbn. by eexists.
  - run (answer_str_Some _ _ Ha). rewrite He. cbn. by eexists.
Qed.

(** A stream without a text fragment or a usage update has no text. *)
Lemma concat_nil_fragments (evs : list event) :
  existsb is_delta evs = false → concat (fragments evs) = [].
Proof.
  induction evs as [|ev evs IH]; [done|].
  destruct ev; cbn; first [done | apply IH].
Qed.
End StreamItems.

(** *** [send_message_stream]: one attempt, then the loop *)

Section SendMessageStream.
Context (chat_modes : gmap (list N) (gmap (list N) (list N))).
Context {Encoding : Type}
        (encoding_for_model : list N → exn + Encoding)
        (encode : Encoding → list N → exn + list Z).
Context (create_stream : nat → request → exn + Stream).
Context (self : Claude) (msg chat_mode : list N).
Context (entry : gmap (list N) (list N)) (system : list N).
Hypothesis Hmodel : model self ∈ claude_models.
Hypothesis Hmode : chat_modes !! chat_mode = Some entry.
Hypothesis Hprompt : entry !! py "prompt_start" = Some system.

Local Abbreviation sreq history := (the_request self chat_mode msg history system true).
Local Abbreviation attempt nb :=
  (try_except_APIStatusError
     (send_message_stream_try chat_modes encoding_for_model encode create_stream
        self msg chat_mode nb)
     on_APIStatusError).
Local Abbreviation loop fuel nb :=
  (send_message_stream_loop chat_modes encoding_for_model encode create_stream
     fuel self msg chat_mode nb).
Local Abbreviation stream fuel dm :=
  (send_message_stream chat_modes encoding_for_model encode create_stream
     fuel self msg dm chat_mode).
(** The local count raises on none of the running answers of the stream [g],
    taken with the messages assembled for [history]. *)
Local Abbreviation counted history g :=
  (count_succeeds encoding_for_model encode
     (_generate_prompt_messages msg history chat_mode) (model self)
     (running_answers [] (events g))).

Lemma stream_create_inr (s : state) (r : request) (g : Stream) :
  create_stream (length (calls s)) r = inr g →
  messages_create_stream create_stream r s = (Val g, logged r s).
Proof. unfold messages_create_stream. by intros ->. Qed.

Lemma stream_create_inl (s : state) (r : request) (e : exn) :
  create_stream (length (calls s)) r = inl e →
  messages_create_stream create_stream r s = (Exc e, logged r s).
Proof. unfold messages_create_stream. by intros ->. Qed.

(** The call itself raises: nothing has been streamed. *)
Lemma stream_try_raises (nb : Z) (s : state) (history : list Turn) (e : exn) :
  heap s !! dialog_messages (locals s) = Some history →
  create_stream (length (calls s)) (sreq history) = inl e →
  send_message_stream_try chat_modes encoding_for_model encode create_stream
    self msg chat_mode nb s
  = (Exc e, logged (sreq history) s).
Proof.
  intros Hh Hr. unfold send_message_stream_try.
  rewrite bool_decide_eq_true_2 by done.
  apply bind_Exc.
  cbn. run (deref_Some _ _ _ Hh).
  run (prompt_start_Some chat_modes chat_mode entry system Hmode Hprompt s).
  by run_exc (stream_create_inl _ _ _ Hr).
Qed.

Lemma stream_attempt_too_large (nb : Z) (s : state) (t : Turn) (rest : list Turn) :
  heap s !! dialog_messages (locals s) = Some (t :: rest) →
  (∃ m, create_stream (length (calls s)) (sreq (t :: rest))
        = inl (APIStatusError too_large_code m)) →
  ∃ s', attempt nb s = (Val tt, s') ∧ turn_dropped (sreq (t :: rest)) rest s s'.
Proof.
  intros Hh [m Hr]. unfold try_except_APIStatusError.
  rewrite (stream_try_raises _ _ _ _ Hh Hr).
  apply (handler_too_large s _ t rest m Hh).
Qed.

Lemma stream_loop_drops (nb : Z) (k fuel : nat) (s : state) (history : list Turn) :
  heap s !! dialog_messages (locals s) = Some history →
  answer (locals s) = None →
  (k ≤ length history)%nat →
  (∀ i, (i < k)%nat →
        ∃ m, create_stream (length (calls s) + i) (sreq (drop i history))
             = inl (APIStatusError too_large_code m)) →
  ∃ s', loop (k + fuel) nb s = loop fuel nb s'
        ∧ turns_dropped (λ h, sreq h) history k s s'.
Proof.
  apply (while_drops (attempt nb) (λ h, sreq h)
           (λ n r, ∃ m, create_stream n r = inl (APIStatusError too_large_code m))).
  apply stream_attempt_too_large.
Qed.

(** The call returns a stream: its items are consumed, one element produced
    for each text fragment and each usage update. *)
Lemma stream_try_consumes (nb : Z) (s : state) (history : list Turn) (g : Stream) :
  heap s !! dialog_messages (locals s) = Some history →
  create_stream (length (calls s)) (sreq history) = inr g →
  counted history g →
  ∃ s1 items,
    send_message_stream_try chat_modes encoding_for_model encode create_stream
      self msg chat_mode nb s
    = bind (match broken g with
            | Some e => raise e
            | None => ret tt
            end)
           (λ _, assign_answer
                   (Some (_postprocess_answer (concat (fragments (events g)))))) s1
    ∧ heap s1 = heap s
    ∧ dialog_messages (locals s1) = dialog_messages (locals s)
    ∧ calls s1 = calls s ++ [sreq history]
    ∧ yielded s1 = yielded s ++ items
    ∧ Forall (λ x, item_status x = py "not_finished"
                   ∧ item_removed x = nb - Z.of_nat (length history)) items
    ∧ item_answer <$> items = running_answers [] (events g)
    ∧ answer (locals s1) = Some (concat (fragments (events g)))
    ∧ (existsb is_delta (events g) = true → synced s1)
    ∧ (existsb is_delta (events g) = false →
       n_input_tokens (locals s1) = n_input_tokens (locals s)).
Proof.
  intros Hh Hr Hcount.
  unfold send_message_stream_try.
  rewrite bool_decide_eq_true_2 by done.
  run (deref_Some _ _ _ Hh).
  run (prompt_start_Some chat_modes chat_mode entry system Hmode Hprompt s).
  run (stream_create_inr _ _ _ Hr).
  match goal with
  | |- context [bind (stream_items _ _ _ ?ms _ _) _ ?s0] =>
      destruct (stream_items_run encoding_for_model encode self ms nb (events g)
                  s0 [] history)
        as (s1 & items & Hrun & Hheap & Hcalls & Hdm & Hy & Hall & Hans & Ha
            & Hsync & Hquiet);
        [done|done|done|]
  end.
  run Hrun. exists s1, items. split.
  { destruct (broken g); norm; [done|]. by rewrite Ha. }
  repeat split; try done.
  - intros Hd. apply Hsync. by left.
  - intros Hd. by rewrite (Hquiet Hd).
Qed.

Lemma send_message_stream_raises (fuel : nat) (s s' : state) (dm : loc)
    (history : list Turn) (e : exn) :
  heap s !! dm = Some history →
  loop fuel (Z.of_nat (length history)) (entered dm s) = (Exc e, s') →
  stream fuel dm s = (Exc e, s').
Proof.
  intros Hh Hloop. unfold send_message_stream. norm.
  rewrite (mode_supported chat_modes chat_mode entry Hmode).
  assert (Hh0 : heap (entered dm s) !! dm = Some history) by done.
  run (py_len_Some _ _ _ Hh0). by apply bind_Exc.
Qed.

Lemma send_message_stream_stuck (fuel : nat) (s s' : state) (dm : loc)
    (history : list Turn) (w : stuck) :
  heap s !! dm = Some history →
  loop fuel (Z.of_nat (length history)) (entered dm s) = (Stuck w, s') →
  stream fuel dm s = (Stuck w, s').
Proof.
  intros Hh Hloop. unfold send_message_stream. norm.
  rewrite (mode_supported chat_modes chat_mode entry Hmode).
  assert (Hh0 : heap (entered dm s) !! dm = Some history) by done.
  run (py_len_Some _ _ _ Hh0). by apply bind_Stuck.
Qed.

(** The loop has ended with the answer [a], the counts in the locals being
    those of the element [x] produced last: the ["finished"] element follows. *)
Lemma send_message_stream_finishes (fuel : nat) (s s' : state) (dm : loc)
    (history : list Turn) (a : list N) (x : list N * list N * (Z * Z) * Z) :
  heap s !! dm = Some history →
  loop fuel (Z.of_nat (length history)) (entered dm s) = (Val a, s') →
  n_input_tokens (locals s') = Some (item_tokens x).1 →
  n_output_tokens (locals s') = Some (item_tokens x).2 →
  n_first_dialog_messages_removed (locals s') = Some (item_removed x) →
  stream fuel dm s
  = (Val tt, produced (py "finished", a, item_tokens x, item_removed x) s').
Proof.
  intros Hh Hloop Hi Ho Hn. unfold send_message_stream. norm.
  rewrite (mode_supported chat_modes chat_mode entry Hmode).
  assert (Hh0 : heap (entered dm s) !! dm = Some history) by done.
  run (py_len_Some _ _ _ Hh0). run Hloop.
  run (read_local_Some "n_input_tokens" _ _ _ Hi).
  run (read_local_Some "n_output_tokens" _ _ _ Ho).
  run (read_local_Some "n_first_dialog_messages_removed" _ _ _ Hn).
  unfold yield. by destruct x as [[? [? ?]] ?].
Qed.

Lemma running_answers_delta (a : list N) (evs : list event) :
  existsb is_delta evs = true → running_answers a evs ≠ [].
Proof.
  revert a. induction evs as [|ev evs IH]; intros a; cbn; [done|].
  destruct ev; cbn; try done. apply IH.
Qed.

(** The element produced last, when the stream has a text fragment or a usage
    update. *)
Lemma last_of_items (s s1 : state)
    (items : list (list N * list N * (Z * Z) * Z)) (x : list N * list N * (Z * Z) * Z)
    (evs : list event) :
  yielded s1 = yielded s ++ items →
  item_answer <$> items = running_answers [] evs →
  existsb is_delta evs = true →
  last (yielded s1) = Some x →
  last items = Some x.
Proof.
  intros Hy Hans Hd Hlast. rewrite Hy, last_app in Hlast.
  destruct (last items) as [y|] eqn:E; [done|].
  apply last_None in E. apply (f_equal (fmap item_answer)) in E.
  rewrite Hans in E. by apply running_answers_delta in E.
Qed.

(** X23.  When the first call returns a stream that runs to its end and
    carries at least one text fragment or usage update, and the local count
    raises on
    none of the running answers, the generator produces one element
    tagged ["not_finished"] per such item, carrying the text received so far, and
    then exactly one more element, tagged ["finished"], and ends; the finished
    element carries the fragments of the stream concatenated in order of
    arrival with leading and trailing whitespace removed, the token counts of
    the element before it, and the discarded count 0. *)
Theorem stream_not_finished_then_finished (fuel : nat) (s : state) (dm : loc)
    (history : list Turn) (g : Stream) :
  heap s !! dm = Some history →
  create_stream (length (calls s)) (sreq history) = inr g →
  broken g = None →
  existsb is_delta (events g) = true →
  counted history g →
  (0 < fuel)%nat →
  ∃ s' items x,
    stream fuel dm s = (Val tt, s')
    ∧ yielded s' = yielded s ++ items
                   ++ [(py "finished", strip (concat (fragments (events g))),
                        item_tokens x, 0)]
    ∧ Forall (λ y, item_status y = py "not_finished" ∧ item_removed y = 0) items
    ∧ item_answer <$> items = running_answers [] (events g)
    ∧ last items = Some x
    ∧ calls s' = calls s ++ [sreq history].
Proof.
  intros Hh Hr Hb Hd Hcount Hfuel. destruct fuel as [|fuel]; [lia|].
  set (nb := Z.of_nat (length history)).
  assert (Hh0 : heap (entered dm s) !! dialog_messages (locals (entered dm s))
                = Some history) by done.
  destruct (stream_try_consumes nb (entered dm s) history g Hh0 Hr Hcount)
    as (s1 & items & Hrun & Hheap & Hdm & Hcalls & Hy & Hall & Hans & Ha & Hsync & _).
  rewrite Hb in Hrun. cbn in Hrun.
  destruct (Hsync Hd) as (x & Hlast & Hi & Ho & Hn).
  pose proof (last_of_items _ _ _ _ _ Hy Hans Hd Hlast) as Hitems.
  assert (Hx : item_removed x = 0).
  { apply last_Some in Hitems as [l' ->].
    apply Forall_app in Hall as [_ Hall].
    apply Forall_singleton in Hall as [_ ->]. unfold nb. lia. }
  set (s2 := (assign_answer
                (Some (_postprocess_answer (concat (fragments (events g))))) s1).2).
  assert (Hatt : attempt nb (entered dm s) = (Val tt, s2)).
  { unfold try_except_APIStatusError. by rewrite Hrun. }
  exists (produced (py "finished", strip (concat (fragments (events g))),
                    item_tokens x, item_removed x) s2), items, x.
  split; [|repeat split].
  - apply (send_message_stream_finishes (S fuel) s s2 dm history); [done| |done..].
    unfold send_message_stream_loop.
    rewrite (while_step _ fuel (entered dm s) eq_refl).
    rewrite (bind_Val _ _ _ _ _ Hatt). by apply while_done.
  - cbn. by rewrite Hy, Hx, <- app_assoc.
  - eapply Forall_impl; [exact Hall|]. intros y [? ->]. split; [done|].
    unfold nb. lia.
  - done.
  - done.
  - done.
Qed.

(** The first call returns a stream that runs to its end without any text
    fragment or usage update: the loop ends with the empty answer, and the
    final [yield] reads [n_input_tokens], which has never been bound. *)
Lemma stream_without_delta_raises (fuel : nat) (s : state) (dm : loc)
    (history : list Turn) (g : Stream) :
  heap s !! dm = Some history →
  create_stream (length (calls s)) (sreq history) = inr g →
  broken g = None →
  existsb is_delta (events g) = false →
  (0 < fuel)%nat →
  ∃ s',
    stream fuel dm s = (Exc (UnboundLocalError (py "n_input_tokens")), s')
    ∧ yielded s' = yielded s
    ∧ calls s' = calls s ++ [sreq history].
Proof.
  intros Hh Hr Hb Hd Hfuel. destruct fuel as [|fuel]; [lia|].
  set (nb := Z.of_nat (length history)).
  assert (Hh0 : heap (entered dm s) !! dialog_messages (locals (entered dm s))
                = Some history) by done.
  pose proof (running_answers_quiet [] (events g) Hd) as Hquiet.
  destruct (stream_try_consumes nb (entered dm s) history g Hh0 Hr)
    as (s1 & items & Hrun & Hheap & Hdm & Hcalls & Hy & Hall & Hans & Ha & _ & Hi).
  { unfold count_succeeds. rewrite Hquiet. constructor. }
  rewrite Hb in Hrun. cbn in Hrun.
  rewrite Hquiet in Hans. apply fmap_nil_inv in Hans. subst items.
  rewrite concat_nil_fragments in Hrun by done.
  set (s2 := (assign_answer (Some (_postprocess_answer [])) s1).2).
  assert (Hatt : attempt nb (entered dm s) = (Val tt, s2)).
  { unfold try_except_APIStatusError. by rewrite Hrun. }
  exists s2. split; [|repeat split].
  - unfold send_message_stream. norm.
    rewrite (mode_supported chat_modes chat_mode entry Hmode).
    assert (Hh1 : heap (entered dm s) !! dm = Some history) by done.
    run (py_len_Some _ _ _ Hh1). fold nb.
    rewrite (bind_Val _ _ _ _ _ Hatt).
    rewrite (bind_Val _ _ _ _ _ (while_done _ fuel s2 [] eq_refl)).
    apply bind_Exc. unfold read_local. cbn. by rewrite (Hi Hd).
  - cbn. by rewrite Hy, app_nil_r.
  - cbn. by rewrite Hcalls.
Qed.

(** The first call returns a stream that breaks off, after at least one text
    fragment or usage update, with a status error for which the [except]
    clause does nothing, turns being left: [answer] is no longer [None], so the
    loop ends there. *)
Lemma stream_interrupted (fuel : nat) (s : state) (dm : loc)
    (history : list Turn) (g : Stream) (c : pyval) (m : list N) :
  heap s !! dm = Some history →
  history ≠ [] →
  create_stream (length (calls s)) (sreq history) = inr g →
  broken g = Some (APIStatusError c m) →
  c ≠ too_large_code → c ≠ rate_limit_code →
  existsb is_delta (events g) = true →
  counted history g →
  (0 < fuel)%nat →
  ∃ s' items x,
    stream fuel dm s = (Val tt, s')
    ∧ calls s' = calls s ++ [sreq history]
    ∧ yielded s' = yielded s ++ items
                   ++ [(py "finished", concat (fragments (events g)),
                        item_tokens x, 0)]
    ∧ Forall (λ y, item_status y = py "not_finished") items
    ∧ item_answer <$> items = running_answers [] (events g)
    ∧ last items = Some x
    ∧ heap s' = heap s
    ∧ dialog_messages (locals s') = dm.
Proof.
  intros Hh Hne Hr Hb Hc1 Hc2 Hd Hcount Hfuel. destruct fuel as [|fuel]; [lia|].
  destruct history as [|t rest] eqn:E; [done|]. rewrite <- E in *.
  set (nb := Z.of_nat (length history)).
  assert (Hh0 : heap (entered dm s) !! dialog_messages (locals (entered dm s))
                = Some history) by done.
  destruct (stream_try_consumes nb (entered dm s) history g Hh0 Hr Hcount)
    as (s1 & items & Hrun & Hheap & Hdm & Hcalls & Hy & Hall & Hans & Ha & Hsync & _).
  rewrite Hb in Hrun. cbn in Hrun.
  destruct (Hsync Hd) as (x & Hlast & Hi & Ho & Hn).
  pose proof (last_of_items _ _ _ _ _ Hy Hans Hd Hlast) as Hitems.
  assert (Hx : item_removed x = 0).
  { apply last_Some in Hitems as [l' ->].
    apply Forall_app in Hall as [_ Hall].
    apply Forall_singleton in Hall as [_ ->]. unfold nb. lia. }
  assert (Hh1 : heap s1 !! dialog_messages (locals s1) = Some (t :: rest)).
  { by rewrite Hheap, Hdm, <- E. }
  assert (Hatt : attempt nb (entered dm s) = (Val tt, s1)).
  { unfold try_except_APIStatusError. rewrite Hrun.
    by apply (handler_other_status s1 t rest c m). }
  exists (produced (py "finished", concat (fragments (events g)),
                    item_tokens x, item_removed x) s1), items, x.
  split; [|repeat split].
  - apply (send_message_stream_finishes (S fuel) s s1 dm history); [done| |done..].
    unfold send_message_stream_loop.
    rewrite (while_step _ fuel (entered dm s) eq_refl).
    rewrite (bind_Val _ _ _ _ _ Hatt). by apply while_done.
  - cbn. by rewrite Hcalls.
  - cbn. by rewrite Hy, Hx, <- app_assoc.
  - eapply Forall_impl; [exact Hall|]. by intros y [? _].
  - done.
  - done.
  - done.
  - done.
Qed.

(** C2 (the code departs from the claim).  The first call returns a stream.
    When it runs to its end without any text fragment or usage update, no
    element at all is produced: the final [yield] reads [n_input_tokens], which
    has never been bound, and the generator ends by raising
    [UnboundLocalError], without a ["finished"] element.  When it breaks off,
    after at least one such item, with a status error as the client raises it
    (an [int] code) and turns are left in the history, the ["finished"]
    element is produced, but the answer it carries is the text received so far
    as it is: not trimmed. *)
Theorem stream_finished_missing_or_untrimmed (fuel : nat) (s : state) (dm : loc)
    (history : list Turn) (g : Stream) :
  heap s !! dm = Some history →
  create_stream (length (calls s)) (sreq history) = inr g →
  (0 < fuel)%nat →
  (broken g = None →
   existsb is_delta (events g) = false →
   ∃ s',
     stream fuel dm s = (Exc (UnboundLocalError (py "n_input_tokens")), s')
     ∧ yielded s' = yielded s
     ∧ calls s' = calls s ++ [sreq history])
  ∧ (∀ (z : Z) (m : list N),
       broken g = Some (APIStatusError (PyInt z) m) →
       history ≠ [] →
       existsb is_delta (events g) = true →
       counted history g →
       ∃ s' items tokens,
         stream fuel dm s = (Val tt, s')
         ∧ yielded s' = yielded s ++ items
                        ++ [(py "finished", concat (fragments (events g)), tokens, 0)]
         ∧ Forall (λ y, item_status y = py "not_finished") items).
Proof.
  intros Hh Hr Hfuel. split.
  - intros Hb Hd. by apply (stream_without_delta_raises fuel s dm history g).
  - intros z m Hb Hne Hd Hcount.
    destruct (stream_interrupted fuel s dm history g (PyInt z) m)
      as (s' & items & x & Hrun & _ & Hy & Hall & _); [done..|].
    by exists s', items, (item_tokens x).
Qed.

(** C6 (the code departs from the claim).  The first call returns a stream
    that breaks off, after at least one text fragment or usage update, with a
    status error as the client raises it (an [int] code, 429 and 413 among
    them), and turns are left in the history.  The [except] clause does
    nothing, and [answer] is no longer [None], so the loop ends there: no
    second call is made, no error is raised, no turn is forgotten, and the
    generator ends with a ["finished"] element that carries the text received
    before the error. *)
Theorem stream_error_while_streaming_is_not_retried (fuel : nat) (s : state)
    (dm : loc) (history : list Turn) (g : Stream) (z : Z) (m : list N) :
  heap s !! dm = Some history →
  history ≠ [] →
  create_stream (length (calls s)) (sreq history) = inr g →
  broken g = Some (APIStatusError (PyInt z) m) →
  existsb is_delta (events g) = true →
  counted history g →
  (0 < fuel)%nat →
  ∃ s' items x,
    stream fuel dm s = (Val tt, s')
    ∧ calls s' = calls s ++ [sreq history]
    ∧ yielded s' = yielded s ++ items
                   ++ [(py "finished", concat (fragments (events g)),
                        item_tokens x, 0)]
    ∧ Forall (λ y, item_status y = py "not_finished") items
    ∧ item_answer <$> items = running_answers [] (events g)
    ∧ last items = Some x
    ∧ heap s' = heap s
    ∧ dialog_messages (locals s') = dm.
Proof.
  intros Hh Hne Hr Hb Hd Hcount Hfuel.
  by apply (stream_interrupted fuel s dm history g (PyInt z) m).
Qed.

(** X19.  When the stream of the first attempt breaks off with an error that
    is not a status error, the elements produced for the items received so far
    stay, all tagged ["not_finished"], the error is raised unchanged, and no
    ["finished"] element and no further call follow. *)
Theorem stream_broken_by_other_error (fuel : nat) (s : state) (dm : loc)
    (history : list Turn) (g : Stream) (e : exn) :
  heap s !! dm = Some history →
  create_stream (length (calls s)) (sreq history) = inr g →
  broken g = Some e →
  (∀ c m, e ≠ APIStatusError c m) →
  counted history g →
  (0 < fuel)%nat →
  ∃ s' items,
    stream fuel dm s = (Exc e, s')
    ∧ calls s' = calls s ++ [sreq history]
    ∧ yielded s' = yielded s ++ items
    ∧ Forall (λ x, item_status x = py "not_finished") items
    ∧ item_answer <$> items = running_answers [] (events g).
Proof.
  intros Hh Hr Hb He Hcount Hfuel. destruct fuel as [|fuel]; [lia|].
  set (nb := Z.of_nat (length history)).
  assert (Hh0 : heap (entered dm s) !! dialog_messages (locals (entered dm s))
                = Some history) by done.
  destruct (stream_try_consumes nb (entered dm s) history g Hh0 Hr Hcount)
    as (s1 & items & Hrun & Hheap & Hdm & Hcalls & Hy & Hall & Hans & _).
  rewrite Hb in Hrun. cbn in Hrun.
  assert (Hatt : attempt nb (entered dm s) = (Exc e, s1)).
  { unfold try_except_APIStatusError. rewrite Hrun.
    destruct e; try done. by destruct (He status_code message). }
  exists s1, items. split; [|repeat split; try done].
  - eapply send_message_stream_raises; [done|].
    unfold send_message_stream_loop.
    rewrite (while_step _ fuel (entered dm s) eq_refl).
    by apply bind_Exc.
  - eapply Forall_impl; [exact Hall|]. by intros x [? _].
Qed.

(** X25.  When the local count raises on the first text fragment or usage
    update of the stream, as the tokenizer does for a request or an answer
    that spells a special token, the generator ends by raising that error,
    having produced nothing; the error is no status error, so the call is not
    repeated. *)
Theorem stream_count_error_propagates (fuel : nat) (s : state) (dm : loc)
    (history : list Turn) (g : Stream) (quiet rest : list event) (ev : event)
    (a : list N) (e : exn) :
  heap s !! dm = Some history →
  create_stream (length (calls s)) (sreq history) = inr g →
  events g = quiet ++ ev :: rest →
  existsb is_delta quiet = false →
  running_answers [] [ev] = [a] →
  _count_tokens_from_messages encoding_for_model encode
    (_generate_prompt_messages msg history chat_mode) a (model self) = inl e →
  (∀ c m, e ≠ APIStatusError c m) →
  (0 < fuel)%nat →
  ∃ s', stream fuel dm s = (Exc e, s')
        ∧ calls s' = calls s ++ [sreq history]
        ∧ yielded s' = yielded s.
Proof.
  intros Hh Hr Hev Hquiet Ha Hcount He Hfuel. destruct fuel as [|fuel]; [lia|].
  set (nb := Z.of_nat (length history)).
  assert (Hh0 : heap (entered dm s) !! dialog_messages (locals (entered dm s))
                = Some history) by done.
  assert (Htry : ∀ o s1,
            send_message_stream_try chat_modes encoding_for_model encode
              create_stream self msg chat_mode nb (entered dm s) = (o, s1) →
            o = Exc e ∧ calls s1 = calls s ++ [sreq history]
            ∧ yielded s1 = yielded s).
  { intros o s1. unfold send_message_stream_try.
    rewrite bool_decide_eq_true_2 by done.
    run (deref_Some _ _ _ Hh0).
    run (prompt_start_Some chat_modes chat_mode entry system Hmode Hprompt
           (entered dm s)).
    run (stream_create_inr (entered dm s) _ _ Hr). rewrite Hev.
    erewrite bind_same by apply stream_items_app.
    rewrite bind_assoc.
    erewrite bind_Val by (by apply stream_items_quiet).
    cbn [stream_items]. rewrite !bind_assoc.
    match goal with
    | |- context [bind (stream_item _ _ _ ?ms _ _) _ ?s0] =>
        destruct (stream_item_count_raises encoding_for_model encode self ms nb
                    ev s0 [] a e eq_refl Ha Hcount) as (s2 & Hrun & Hcalls & Hy)
    end.
    rewrite (bind_Exc _ _ _ _ _ Hrun). by intros [= <- <-]. }
  destruct (send_message_stream_try chat_modes encoding_for_model encode
              create_stream self msg chat_mode nb (entered dm s))
    as [o s1] eqn:Hrun.
  destruct (Htry o s1 eq_refl) as (-> & Hcalls & Hy).
  exists s1. split; [|done].
  eapply send_message_stream_raises; [done|].
  unfold send_message_stream_loop.
  rewrite (while_step _ fuel (entered dm s) eq_refl).
  apply bind_Exc. unfold try_except_APIStatusError. fold nb. rewrite Hrun.
  destruct e; try done. by destruct (He status_code message).
Qed.

End SendMessageStream.

(** ** What a call leaves as it was *)

Section Monotone.
Context (R : relation state) `{!PreOrder R}.
Hypothesis R_set_locals : ∀ f s, R s (set_locals f s).
Hypothesis R_logged : ∀ r s, R s (logged r s).
Hypothesis R_allocated : ∀ v s, R s (allocated v s).
Hypothesis R_produced : ∀ x s, R s (produced x s).

Lemma monotone_bind {A B} (m : M A) (k : A → M B) :
  monotone R m → (∀ a, monotone R (k a)) → monotone R (bind m k).
Proof.
  intros Hm Hk s. unfold bind. specialize (Hm s).
  destruct (m s) as [[a|e|w] s']; cbn in *; [|done..].
  etrans; [exact Hm|apply Hk].
Qed.

(** What follows an operation only extends the state it has reached. *)
Lemma after_bind {A B} (m : M A) (k : A → M B) (s : state) :
  (∀ a, monotone R (k a)) → R (m s).2 (bind m k s).2.
Proof.
  intros Hk. unfold bind. destruct (m s) as [[a|e|w] s']; cbn; [|done..].
  apply Hk.
Qed.

Lemma monotone_try {A} (body : M A) (handler : pyval → list N → M A) :
  monotone R body → (∀ c m, monotone R (handler c m)) →
  monotone R (try_except_APIStatusError body handler).
Proof.
  intros Hb Hh s. unfold try_except_APIStatusError. specialize (Hb s).
  destruct (body s) as [[a|e|w] s']; cbn in *; [done| |done].
  destruct e; cbn; try done. etrans; [exact Hb|apply Hh].
Qed.

Lemma after_try {A} (body : M A) (handler : pyval → list N → M A) (s : state) :
  (∀ c m, monotone R (handler c m)) →
  R (body s).2 (try_except_APIStatusError body handler s).2.
Proof.
  intros Hh. unfold try_except_APIStatusError.
  destruct (body s) as [[a|e|w] s']; cbn; [done| |done].
  destruct e; cbn; try done. apply Hh.
Qed.

Lemma monotone_if {A} (b : bool) (m1 m2 : M A) :
  monotone R m1 → monotone R m2 → monotone R (if b then m1 else m2).
Proof. by destruct b. Qed.

Lemma monotone_ret {A} (a : A) : monotone R (ret a).
Proof. by intros s. Qed.

Lemma monotone_raise {A} (e : exn) : monotone R (@raise A e).
Proof. by intros s. Qed.

Lemma monotone_stop {A} (w : stuck) : monotone R (@stop A w).
Proof. by intros s. Qed.

Lemma monotone_lift {A} (r : exn + A) : monotone R (lift r).
Proof. by destruct r; intros s. Qed.

Lemma monotone_get_local {A} (proj : frame → A) : monotone R (get_local proj).
Proof. by intros s. Qed.

Lemma monotone_read_local {A} (name : string) (proj : frame → option A) :
  monotone R (read_local name proj).
Proof. intros s. unfold read_local. by destruct (proj _). Qed.

Lemma monotone_answer_str : monotone R answer_str.
Proof. intros s. unfold answer_str. by destruct (answer _). Qed.

Lemma monotone_assign_dialog_messages (l : loc) :
  monotone R (assign_dialog_messages l).
Proof. intros s. apply R_set_locals. Qed.

Lemma monotone_assign_answer (a : option (list N)) : monotone R (assign_answer a).
Proof. intros s. apply R_set_locals. Qed.

Lemma monotone_assign_n_input_tokens (n : Z) : monotone R (assign_n_input_tokens n).
Proof. intros s. apply R_set_locals. Qed.

Lemma monotone_assign_n_output_tokens (n : Z) :
  monotone R (assign_n_output_tokens n).
Proof. intros s. apply R_set_locals. Qed.

Lemma monotone_assign_n_first (n : Z) :
  monotone R (assign_n_first_dialog_messages_removed n).
Proof. intros s. apply R_set_locals. Qed.

Lemma monotone_enter (l : loc) : monotone R (enter l).
Proof. intros s. apply R_set_locals. Qed.

Lemma monotone_yield (x : list N * list N * (Z * Z) * Z) : monotone R (yield x).
Proof. intros s. apply R_produced. Qed.

Lemma monotone_deref (l : loc) : monotone R (deref l).
Proof. intros s. unfold deref. by destruct (heap s !! l). Qed.

Create HintDb monotone.

Hint Resolve monotone_ret monotone_raise monotone_stop monotone_lift
  monotone_get_local monotone_read_local monotone_answer_str
  monotone_assign_dialog_messages monotone_assign_answer
  monotone_assign_n_input_tokens monotone_assign_n_output_tokens
  monotone_assign_n_first monotone_enter monotone_yield monotone_deref
  : monotone.

(** The hints first, then the rules for sequencing and branching. *)
Ltac monotone :=
  repeat first
    [ solve [auto with monotone]
    | apply monotone_bind; [|intros ?]
    | apply monotone_try; [|intros ? ?]
    | apply monotone_if
    | match goal with
      | |- monotone _ (match ?x with _ => _ end) => destruct x
      end ].

Lemma monotone_py_len (l : loc) : monotone R (py_len l).
Proof. unfold py_len. monotone. Qed.

Lemma monotone_py_slice_from_1 (l : loc) : monotone R (py_slice_from_1 l).
Proof.
  unfold py_slice_from_1. apply monotone_bind; [auto with monotone|].
  intros v s. apply R_allocated.
Qed.

Hint Resolve monotone_py_len monotone_py_slice_from_1 : monotone.

Lemma monotone_on_APIStatusError (c : pyval) (m : list N) :
  monotone R (on_APIStatusError c m).
Proof. unfold on_APIStatusError. monotone. Qed.

Lemma monotone_while (body : M unit) (fuel : nat) :
  monotone R body → monotone R (while_answer_is_None fuel body).
Proof.
  intros Hb. induction fuel as [|fuel IH]; cbn [while_answer_is_None]; monotone.
Qed.

Hint Resolve monotone_on_APIStatusError : monotone.

Context (chat_modes : gmap (list N) (gmap (list N) (list N))).
Context {Encoding : Type}
        (encoding_for_model : list N → exn + Encoding)
        (encode : Encoding → list N → exn + list Z).
Context (create_message : nat → request → exn + Message).
Context (create_stream : nat → request → exn + Stream).

Lemma monotone_prompt_start (chat_mode : list N) :
  monotone R (prompt_start chat_modes chat_mode).
Proof. unfold prompt_start. monotone. Qed.

Lemma monotone_messages_create (r : request) :
  monotone R (messages_create create_message r).
Proof.
  intros s. unfold messages_create.
  destruct (create_message _ _); apply R_logged.
Qed.

Lemma monotone_messages_create_stream (r : request) :
  monotone R (messages_create_stream create_stream r).
Proof.
  intros s. unfold messages_create_stream.
  destruct (create_stream _ _); apply R_logged.
Qed.

Lemma monotone_content_0_text (r : Message) : monotone R (content_0_text r).
Proof. unfold content_0_text. monotone. Qed.

Hint Resolve monotone_prompt_start monotone_messages_create
  monotone_messages_create_stream monotone_content_0_text : monotone.

Lemma monotone_send_message_loop (fuel : nat) (self : Claude)
    (msg chat_mode : list N) :
  monotone R (send_message_loop chat_modes create_message fuel self msg chat_mode).
Proof.
  unfold send_message_loop, send_message_try. apply monotone_while. monotone.
Qed.

Hint Resolve monotone_send_message_loop : monotone.

Lemma monotone_send_message (fuel : nat) (self : Claude) (msg : list N) (dm : loc)
    (chat_mode : list N) :
  monotone R (send_message chat_modes create_message fuel self msg dm chat_mode).
Proof. unfold send_message. monotone. Qed.

(** [send_message] only extends the state its loop has reached, and the loop
    only extends the state its first [try] block has reached. *)
Lemma send_message_after_loop (fuel : nat) (self : Claude) (msg : list N)
    (dm : loc) (chat_mode : list N) (s : state) (history : list Turn)
    (entry : gmap (list N) (list N)) :
  chat_modes !! chat_mode = Some entry →
  heap s !! dm = Some history →
  R (send_message_loop chat_modes create_message fuel self msg chat_mode
       (entered dm s)).2
    (send_message chat_modes create_message fuel self msg dm chat_mode s).2.
Proof.
  intros Hmode Hh.
  assert (Hh0 : heap (entered dm s) !! dm = Some history) by done.
  unfold send_message. norm.
  rewrite (mode_supported chat_modes chat_mode entry Hmode).
  run (py_len_Some _ _ _ Hh0).
  apply after_bind. intros a. monotone.
Qed.

Lemma send_message_loop_after_try (fuel : nat) (self : Claude)
    (msg chat_mode : list N) (s : state) :
  answer (locals s) = None →
  R (send_message_try chat_modes create_message self msg chat_mode s).2
    (send_message_loop chat_modes create_message (S fuel) self msg chat_mode s).2.
Proof.
  intros Ha. unfold send_message_loop. rewrite while_step by done.
  etrans; [apply after_try; intros; monotone|].
  apply after_bind. intros _. apply monotone_while.
  unfold send_message_try. monotone.
Qed.

Lemma monotone_stream_items (self : Claude) (messages : list message_dict)
    (nb : Z) (evs : list event) :
  monotone R (stream_items encoding_for_model encode self messages nb evs).
Proof.
  induction evs as [|ev evs IH]; cbn [stream_items]; [monotone|].
  apply monotone_bind; [|done]. unfold stream_item. monotone.
Qed.

Hint Resolve monotone_stream_items : monotone.

Lemma monotone_send_message_stream (fuel : nat) (self : Claude) (msg : list N)
    (dm : loc) (chat_mode : list N) :
  monotone R (send_message_stream chat_modes encoding_for_model encode
                create_stream fuel self msg dm chat_mode).
Proof.
  unfold send_message_stream, send_message_stream_loop, send_message_stream_try.
  monotone; apply monotone_while; monotone.
Qed.
End Monotone.

(** *** The two instances *)

Global Instance heap_extends_preorder : PreOrder heap_extends.
Proof.
  split.
  - intros s. by unfold heap_extends.
  - intros s1 s2 s3 H12 H23. unfold heap_extends in *. by etrans.
Qed.

Global Instance calls_extend_preorder : PreOrder calls_extend.
Proof.
  split.
  - intros s. by unfold calls_extend.
  - intros s1 s2 s3 H12 H23. unfold calls_extend in *. by etrans.
Qed.

Lemma heap_extends_logged (r : request) (s : state) : heap_extends s (logged r s).
Proof. by unfold heap_extends. Qed.

Lemma heap_extends_produced (x : list N * list N * (Z * Z) * Z) (s : state) :
  heap_extends s (produced x s).
Proof. by unfold heap_extends. Qed.

Lemma heap_extends_set_locals (f : frame) (s : state) :
  heap_extends s (set_locals f s).
Proof. by unfold heap_extends. Qed.

Lemma heap_extends_allocated (v : list Turn) (s : state) :
  heap_extends s (allocated v s).
Proof. apply heap_allocated_subseteq. Qed.

Lemma calls_extend_logged (r : request) (s : state) : calls_extend s (logged r s).
Proof. unfold calls_extend. cbn. by apply prefix_app_r. Qed.

Lemma calls_extend_set_locals (f : frame) (s : state) :
  calls_extend s (set_locals f s).
Proof. by unfold calls_extend. Qed.

Lemma calls_extend_allocated (v : list Turn) (s : state) :
  calls_extend s (allocated v s).
Proof. by unfold calls_extend. Qed.

Lemma calls_extend_produced (x : list N * list N * (Z * Z) * Z) (s : state) :
  calls_extend s (produced x s).
Proof. by unfold calls_extend. Qed.

(** ** The claims about both methods *)

Section FirstCall.
Context (chat_modes : gmap (list N) (gmap (list N) (list N))).
Context (create_message : nat → request → exn + Message).
Context (self : Claude) (msg chat_mode : list N).
Context (entry : gmap (list N) (list N)) (system : list N).
Hypothesis Hmodel : model self ∈ claude_models.
Hypothesis Hmode : chat_modes !! chat_mode = Some entry.
Hypothesis Hprompt : entry !! py "prompt_start" = Some system.

Local Abbreviation req history := (the_request self chat_mode msg history system false).

(** Whatever the service answers, the [try] block has made the call. *)
Lemma send_try_logs (s : state) (history : list Turn) :
  heap s !! dialog_messages (locals s) = Some history →
  calls (send_message_try chat_modes create_message self msg chat_mode s).2
  = calls s ++ [req history].
Proof.
  intros Hh.
  destruct (create_message (length (calls s)) (req history)) as [e|r] eqn:Hr.
  - by rewrite (send_try_raises chat_modes create_message self msg chat_mode
                  entry system Hmodel Hmode Hprompt s history e Hh Hr).
  - unfold send_message_try. rewrite bool_decide_eq_true_2 by done.
    run (deref_Some _ _ _ Hh).
    run (prompt_start_Some chat_modes chat_mode entry system Hmode Hprompt s).
    run (messages_create_inr create_message _ _ _ Hr).
    unfold content_0_text. by destruct (content r).
Qed.

Lemma first_call_of_send_message (fuel : nat) (s : state) (dm : loc)
    (history : list Turn) :
  heap s !! dm = Some history →
  (0 < fuel)%nat →
  calls (send_message chat_modes create_message fuel self msg dm chat_mode s).2
    !! length (calls s)
  = Some (req history).
Proof.
  intros Hh Hfuel. destruct fuel as [|fuel]; [lia|].
  assert (Hh0 : heap (entered dm s) !! dm = Some history) by done.
  pose proof (send_try_logs (entered dm s) history Hh0) as Hfirst.
  assert (Hloop : calls_extend
                    (send_message_try chat_modes create_message self msg chat_mode
                       (entered dm s)).2
                    (send_message_loop chat_modes create_message (S fuel) self msg
                       chat_mode (entered dm s)).2).
  { apply send_message_loop_after_try;
      auto using calls_extend_set_locals, calls_extend_logged,
        calls_extend_allocated, calls_extend_produced with typeclass_instances. }
  assert (Hpre : calls_extend
                   (send_message_loop chat_modes create_message (S fuel) self msg
                      chat_mode (entered dm s)).2
                   (send_message chat_modes create_message (S fuel) self msg dm
                      chat_mode s).2).
  { eapply send_message_after_loop;
      eauto using calls_extend_set_locals, calls_extend_logged,
        calls_extend_allocated, calls_extend_produced with typeclass_instances. }
  unfold calls_extend in Hloop, Hpre. rewrite Hfirst in Hloop.
  apply (prefix_lookup_Some (calls (entered dm s) ++ [req history])); [|by etrans].
  by apply list_lookup_middle.
Qed.
End FirstCall.

(** C5.  The assembled message list has [2 * len(history) + 1] entries whose
    roles alternate user, assistant, ..., user: turn [i] of the history gives
    the user entry at [2 i] and the assistant entry at [2 i + 1], and the new
    message is the last, user, entry.  The mode's prompt is not in that list:
    the first remote call of [send_message] carries it as the separate [system]
    argument, next to the list as [messages]. *)
Theorem assembled_messages_alternate
    (chat_modes : gmap (list N) (gmap (list N) (list N)))
    (create_message : nat → request → exn + Message)
    (self : Claude) (msg chat_mode : list N) (history : list Turn) :
  let messages := _generate_prompt_messages msg history chat_mode in
  length messages = (2 * length history + 1)%nat
  ∧ (∀ i m, messages !! i = Some m →
            role_of m = Some (if Nat.even i then py "user" else py "assistant"))
  ∧ (∀ i t, history !! i = Some t →
            messages !! (2 * i)%nat = Some (user_entry (user t))
            ∧ messages !! (2 * i + 1)%nat = Some (assistant_entry (bot t)))
  ∧ messages !! (2 * length history)%nat = Some (user_entry msg)
  ∧ (∀ (fuel : nat) (s : state) (dm : loc)
       (entry : gmap (list N) (list N)) (system : list N),
       model self ∈ claude_models →
       chat_modes !! chat_mode = Some entry →
       entry !! py "prompt_start" = Some system →
       heap s !! dm = Some history →
       (0 < fuel)%nat →
       calls (send_message chat_modes create_message fuel self msg dm chat_mode s).2
         !! length (calls s)
       = Some {| req_model := model self; req_system := system;
                 req_messages := messages; req_stream := false;
                 req_options := ANTHROPIC_COMPLETION_OPTIONS |}).
Proof.
  intros messages. subst messages. rewrite generate_turn_entries.
  pose proof (length_turn_entries history) as Hlen.
  split; [|split; [|split; [|split]]].
  - rewrite length_app, Hlen. simpl. lia.
  - intros i m Hi. destruct (decide (i < 2 * length history)%nat) as [Hlt|Hge].
    + rewrite lookup_app_l in Hi by lia. by apply (role_turn_entries history).
    + rewrite lookup_app_r in Hi by lia.
      destruct (i - length (turn_entries history))%nat as [|j] eqn:E; [|done].
      injection Hi as <-.
      replace i with (2 * length history)%nat by lia.
      by rewrite Nat.even_mul.
  - intros i t Hi. destruct (lookup_turn_entries history i t Hi) as [Hu Ha].
    split; by apply lookup_app_l_Some.
  - apply list_lookup_middle. by rewrite Hlen.
  - intros fuel s dm entry system Hmodel Hmode Hprompt Hh Hfuel.
    rewrite <- (generate_turn_entries msg history chat_mode).
    by apply (first_call_of_send_message chat_modes create_message self msg
                chat_mode entry system).
Qed.

(** C7 (amended).  The tokenizer's error for a model name it has no encoding
    for comes first; with the encoding provided (for a model name containing
    ["claude"], the ["gpt-4"] encoding) and no overhead entry for the model,
    the unknown-model error is raised.  With both, for messages without a
    ["name"] key, as all assembled messages are, and a tokenizer that raises on
    none of the texts, the input count is the sum over the messages of the
    model's per-message overhead plus the tokenized length of the message's
    values, plus 2, and the output count is the tokenized length of the answer
    plus one; the first text on which the tokenizer raises, among the values
    in order and then the answer, ends the computation with that error. *)
Theorem local_token_counts {Encoding : Type}
    (encoding_for_model : list N → exn + Encoding)
    (encode : Encoding → list N → exn + list Z)
    (messages : list message_dict) (ans m : list N) :
  let provided := if str_in (py "claude") m then encoding_for_model (py "gpt-4")
                  else encoding_for_model m in
  let count := _count_tokens_from_messages encoding_for_model encode messages ans m in
  (∀ e, provided = inl e → count = inl e)
  ∧ (∀ encoding e,
       provided = inr encoding → tokens_per m = inl e →
       count = inl (ValueError (py "Unknown model: " ++ m)))
  ∧ (∀ encoding tokens_per_message tokens_per_name tokens,
       provided = inr encoding →
       tokens_per m = inr (tokens_per_message, tokens_per_name) →
       Forall no_name messages →
       encodes encode encoding tokens (message_values messages ++ [ans]) →
       count = inr (Zsum ((λ msg, tokens_per_message + values_tokens tokens msg)
                            <$> messages) + 2,
                    Z.of_nat (length (tokens ans)) + 1))
  ∧ (∀ encoding tokens_per_message tokens_per_name tokens pre t post e,
       provided = inr encoding →
       tokens_per m = inr (tokens_per_message, tokens_per_name) →
       message_values messages ++ [ans] = pre ++ t :: post →
       encodes encode encoding tokens pre →
       encode encoding t = inl e →
       count = inl e)
  ∧ (∀ msg history chat_mode,
       Forall no_name (_generate_prompt_messages msg history chat_mode)).
Proof.
  intros provided count. subst provided count. unfold _count_tokens_from_messages.
  split; [|split; [|split; [|split]]].
  - by intros e ->.
  - intros encoding e -> He. rewrite He. f_equal. unfold tokens_per in He.
    repeat case_bool_decide; try done. by injection He as <-.
  - intros encoding tpm tpn tokens -> -> Hnames Henc. unfold encodes in Henc.
    apply Forall_app in Henc as [Hvalues Hans].
    apply Forall_inv in Hans.
    rewrite (count_messages_encodes encode encoding tokens) by done.
    rewrite Hans. f_equal. f_equal; [|lia]. rewrite Z.add_0_l. do 2 f_equal.
    apply Forall_fmap_ext. eapply Forall_impl; [exact Hnames|].
    intros msg Hmsg. cbn. rewrite (name_keys_no_name msg Hmsg). lia.
  - intros encoding tpm tpn tokens pre t post e -> -> Hsplit Hpre Ht.
    apply app_eq_inv in Hsplit as [(k & Hvalues & Hk)|(k & -> & Hk)].
    + destruct k as [|t' k].
      * rewrite app_nil_r in Hvalues. injection Hk as <- _.
        rewrite (count_messages_encodes encode encoding tokens)
          by (by rewrite Hvalues).
        by rewrite Ht.
      * injection Hk as -> _.
        by rewrite (count_messages_raises encode encoding tokens tpm tpn messages
                      t' e 0 pre k).
    + destruct k as [|t' k].
      * injection Hk as <- _. rewrite app_nil_r in Hpre.
        rewrite (count_messages_encodes encode encoding tokens) by done.
        by rewrite Ht.
      * injection Hk as _ Hk. by destruct k.
  - apply generate_no_name.
Qed.

(** C9.  With a mode key that the configuration does not have, [send_message]
    and [send_message_stream] raise the unsupported-mode error whatever the
    number of loop iterations allowed: no remote call has been made, nothing
    has been produced, and no list object has been created. *)
Theorem unsupported_mode_raises_before_any_call
    (chat_modes : gmap (list N) (gmap (list N) (list N)))
    {Encoding : Type}
    (encoding_for_model : list N → exn + Encoding)
    (encode : Encoding → list N → exn + list Z)
    (create_message : nat → request → exn + Message)
    (create_stream : nat → request → exn + Stream)
    (fuel : nat) (self : Claude) (msg : list N) (dm : loc) (chat_mode : list N)
    (s : state) :
  chat_modes !! chat_mode = None →
  (∃ s', send_message chat_modes create_message fuel self msg dm chat_mode s
         = (Exc (ValueError (py "Chat mode " ++ chat_mode ++ py " is not supported")),
            s')
         ∧ calls s' = calls s ∧ yielded s' = yielded s ∧ heap s' = heap s)
  ∧ (∃ s', send_message_stream chat_modes encoding_for_model encode create_stream
             fuel self msg dm chat_mode s
           = (Exc (ValueError (py "Chat mode " ++ chat_mode ++ py " is not supported")),
              s')
           ∧ calls s' = calls s ∧ yielded s' = yielded s ∧ heap s' = heap s).
Proof.
  intros Hmode.
  assert (Hdom : bool_decide (chat_mode ∉ dom chat_modes) = true).
  { apply bool_decide_eq_true_2. by apply not_elem_of_dom. }
  split; exists (entered dm s).
  - unfold send_message. norm. by rewrite Hdom.
  - unfold send_message_stream. norm. by rewrite Hdom.
Qed.

(** C10.  Every list object that exists when [send_message] or
    [send_message_stream] is called, the caller's history among them, holds the
    same value when the call has ended, however it ends: forgetting a turn
    binds the local name to a new list. *)
Theorem caller_history_unchanged
    (chat_modes : gmap (list N) (gmap (list N) (list N)))
    {Encoding : Type}
    (encoding_for_model : list N → exn + Encoding)
    (encode : Encoding → list N → exn + list Z)
    (create_message : nat → request → exn + Message)
    (create_stream : nat → request → exn + Stream)
    (fuel : nat) (self : Claude) (msg : list N) (dm : loc) (chat_mode : list N)
    (s : state) (l : loc) (v : list Turn) :
  heap s !! l = Some v →
  heap (send_message chat_modes create_message fuel self msg dm chat_mode s).2 !! l
  = Some v
  ∧ heap (send_message_stream chat_modes encoding_for_model encode create_stream
            fuel self msg dm chat_mode s).2 !! l
    = Some v.
Proof.
  intros Hl. split.
  - eapply lookup_weaken; [exact Hl|].
    apply (monotone_send_message heap_extends);
      auto using heap_extends_set_locals, heap_extends_logged,
        heap_extends_allocated with typeclass_instances.
  - eapply lookup_weaken; [exact Hl|].
    apply (monotone_send_message_stream heap_extends);
      auto using heap_extends_set_locals, heap_extends_logged,
        heap_extends_allocated, heap_extends_produced with typeclass_instances.
Qed.

(** ** The claims on the sample services *)

(** C7, as stated, fails in three ways.  The values that are tokenized are
    all the values of a message, its role as well as its content: one user
    message ["hi"] counts 11, not the 7 of its content alone.  For a model name
    that has neither an overhead entry nor an encoding, the tokenizer's error
    comes first.  And a text that spells a special token has no count: the
    tokenizer's error ends the computation. *)
Lemma local_token_counts_counterexample :
  (_count_tokens_from_messages sample_encoding_for_model char_encode
     [user_entry (py "hi")] (py "Hel") (py "claude-3-5-sonnet-20240620")
   = inr (11, 4)
   ∧ content_only_input_count char_tokens 3 [user_entry (py "hi")] = 7
   ∧ 11 ≠ 7)
  ∧ (tokens_per (py "foo") = inl (unknown_model (py "foo"))
     ∧ _count_tokens_from_messages sample_encoding_for_model char_encode
         [user_entry (py "hello")] (py "hi") (py "foo")
       = inl (KeyError (py "Could not automatically map foo to a tokeniser."))
     ∧ KeyError (py "Could not automatically map foo to a tokeniser.")
       ≠ unknown_model (py "foo"))
  ∧ _count_tokens_from_messages sample_encoding_for_model char_encode
      [user_entry (py "<|endoftext|>")] (py "Hel") (py "claude-3-5-sonnet-20240620")
    = inl special_token_error.
Proof. vm_compute. by repeat split. Qed.

(** *** The theorems at the sample services *)

Ltac by_evaluation := vm_compute; first [reflexivity | exact I | lia].

Lemma assembled_messages_alternate_witness :
  calls (send_message sample_modes (always (inr greeting)) 1 sonnet (py "hello")
           1%positive (py "assistant") (caller_state [turn1])).2 !! 0%nat
  = Some {| req_model := py "claude-3-5-sonnet-20240620";
            req_system := py "You are a helpful assistant.";
            req_messages := [user_entry (py "hi"); assistant_entry (py "hello");
                             user_entry (py "hello")];
            req_stream := false;
            req_options := ANTHROPIC_COMPLETION_OPTIONS |}.
Proof.
  assert (Hmodel : model sonnet ∈ claude_models)
    by (apply (bool_decide_unpack _); by_evaluation).
  assert (Hmode : sample_modes !! py "assistant"
                  = Some {[ py "prompt_start" := py "You are a helpful assistant." ]})
    by by_evaluation.
  assert (Hprompt : ({[ py "prompt_start" := py "You are a helpful assistant." ]}
                       : gmap (list N) (list N)) !! py "prompt_start"
                    = Some (py "You are a helpful assistant."))
    by by_evaluation.
  assert (Hh : heap (caller_state [turn1]) !! 1%positive = Some [turn1])
    by by_evaluation.
  destruct (assembled_messages_alternate sample_modes (always (inr greeting))
              sonnet (py "hello") (py "assistant") [turn1])
    as (_ & _ & _ & _ & Hcall).
  apply (Hcall 1%nat (caller_state [turn1]) 1%positive _ _ Hmodel Hmode Hprompt Hh).
  lia.
Defined.

Lemma local_token_counts_witness :
  _count_tokens_from_messages sample_encoding_for_model char_encode
    [user_entry (py "hi")] (py "Hel") (py "foo")
  = inl (KeyError (py "Could not automatically map foo to a tokeniser."))
  ∧ _count_tokens_from_messages sample_encoding_for_model char_encode
      [user_entry (py "hi")] (py "Hel") (py "claude-2")
    = inl (ValueError (py "Unknown model: claude-2"))
  ∧ _count_tokens_from_messages sample_encoding_for_model char_encode
      [user_entry (py "hi"); assistant_entry (py "hello"); user_entry (py "hello")]
      (py "Hel") (py "claude-3-5-sonnet-20240620")
    = inr (40, 4)
  ∧ _count_tokens_from_messages sample_encoding_for_model char_encode
      [user_entry (py "hi"); assistant_entry (py "<|endoftext|>")]
      (py "Hel") (py "claude-3-5-sonnet-20240620")
    = inl special_token_error.
Proof.
  split; [|split; [|split]].
  - destruct (local_token_counts sample_encoding_for_model char_encode
                [user_entry (py "hi")] (py "Hel") (py "foo"))
      as (Hfirst & _).
    apply Hfirst. by_evaluation.
  - destruct (local_token_counts sample_encoding_for_model char_encode
                [user_entry (py "hi")] (py "Hel") (py "claude-2"))
      as (_ & Hunknown & _).
    apply (Hunknown tt (unknown_model (py "claude-2"))); by_evaluation.
  - destruct (local_token_counts sample_encoding_for_model char_encode
                [user_entry (py "hi"); assistant_entry (py "hello");
                 user_entry (py "hello")]
                (py "Hel") (py "claude-3-5-sonnet-20240620"))
      as (_ & _ & Hcount & _).
    apply (Hcount tt 3 1 char_tokens); [by_evaluation..| |].
    + apply (generate_no_name (py "hello") [turn1] (py "assistant")).
    + repeat constructor.
  - destruct (local_token_counts sample_encoding_for_model char_encode
                [user_entry (py "hi"); assistant_entry (py "<|endoftext|>")]
                (py "Hel") (py "claude-3-5-sonnet-20240620"))
      as (_ & _ & _ & Hraises & _).
    apply (Hraises tt 3 1 char_tokens
             [py "user"; py "hi"; py "assistant"] (py "<|endoftext|>") [py "Hel"]);
      [by_evaluation..| |by_evaluation].
    repeat constructor.
Defined.

Lemma send_message_first_attempt_success_witness :
  ∃ s', send_message sample_modes (always (inr greeting)) 1 sonnet (py "hello")
          1%positive (py "assistant") (caller_state [])
        = (Val (strip (py "  hi there  "), (5, 3), 0), s')
        ∧ strip (py "  hi there  ") = py "hi there"
        ∧ length (calls s') = 1%nat.
Proof.
  assert (Hmodel : model sonnet ∈ claude_models)
    by (apply (bool_decide_unpack _); by_evaluation).
  assert (Hmode : sample_modes !! py "assistant"
                  = Some {[ py "prompt_start" := py "You are a helpful assistant." ]})
    by by_evaluation.
  assert (Hprompt : ({[ py "prompt_start" := py "You are a helpful assistant." ]}
                       : gmap (list N) (list N)) !! py "prompt_start"
                    = Some (py "You are a helpful assistant."))
    by by_evaluation.
  assert (Hh : heap (caller_state []) !! 1%positive = Some []) by by_evaluation.
  destruct (send_message_first_attempt_success sample_modes (always (inr greeting))
              sonnet (py "hello") (py "assistant") _ _ Hmodel Hmode Hprompt 1
              (caller_state []) 1%positive [] greeting (py "  hi there  ") [] Hh)
    as (s' & Hrun & _ & Hcalls).
  - reflexivity.
  - reflexivity.
  - lia.
  - exists s'. split; [exact Hrun|]. split; [by_evaluation|].
    rewrite Hcalls. reflexivity.
Defined.

Lemma unsupported_mode_raises_before_any_call_witness :
  (∃ s', send_message sample_modes (always (inr greeting)) 3 sonnet (py "hello")
           1%positive (py "pirate") (caller_state [turn1])
         = (Exc (ValueError (py "Chat mode " ++ py "pirate" ++ py " is not supported")),
            s')
         ∧ calls s' = [])
  ∧ (∃ s', send_message_stream sample_modes sample_encoding_for_model char_encode
             (always_stream (inr padded_stream)) 3 sonnet (py "hello")
             1%positive (py "pirate") (caller_state [turn1])
           = (Exc (ValueError (py "Chat mode " ++ py "pirate" ++ py " is not supported")),
              s')
           ∧ calls s' = [] ∧ yielded s' = []).
Proof.
  assert (Hmode : sample_modes !! py "pirate" = None) by by_evaluation.
  destruct (unsupported_mode_raises_before_any_call sample_modes
              sample_encoding_for_model char_encode (always (inr greeting))
              (always_stream (inr padded_stream)) 3 sonnet (py "hello") 1%positive
              (py "pirate") (caller_state [turn1]) Hmode)
    as [(s1 & Hrun1 & Hcalls1 & _) (s2 & Hrun2 & Hcalls2 & Hy2 & _)].
  split.
  - exists s1. by split.
  - exists s2. by repeat split.
Defined.

Lemma caller_history_unchanged_witness :
  heap (send_message sample_modes (too_large_then 2 (inr greeting)) 3 sonnet
          (py "hello") 1%positive (py "assistant")
          (caller_state [turn1; turn2; turn3])).2 !! 1%positive
  = Some [turn1; turn2; turn3]
  ∧ heap (send_message_stream sample_modes sample_encoding_for_model char_encode
            (too_large_then_stream 2 (inr padded_stream)) 3 sonnet (py "hello")
            1%positive (py "assistant")
            (caller_state [turn1; turn2; turn3])).2 !! 1%positive
    = Some [turn1; turn2; turn3].
Proof.
  apply (caller_history_unchanged sample_modes sample_encoding_for_model
           char_encode (too_large_then 2 (inr greeting))
           (too_large_then_stream 2 (inr padded_stream)) 3 sonnet (py "hello")
           1%positive (py "assistant") (caller_state [turn1; turn2; turn3])
           1%positive [turn1; turn2; turn3]).
  by_evaluation.
Defined.

(** * Further properties of the helpers *)

(** ** [_postprocess_answer] *)

Lemma lstrip_app_space (l s : list N) : all_space l → lstrip (l ++ s) = lstrip s.
Proof.
  intros Hl. induction Hl as [|c l Hc _ IH]; [done|].
  simpl. by rewrite Hc.
Qed.

Lemma lstrip_all_space (l : list N) : all_space l → lstrip l = [].
Proof.
  intros Hl. rewrite <- (app_nil_r l). by rewrite lstrip_app_space.
Qed.

Lemma lstrip_nil_all_space (s : list N) : lstrip s = [] → all_space s.
Proof.
  intros H. destruct (lstrip_split s) as (l & Hs & Hl).
  rewrite H, app_nil_r in Hs. by subst.
Qed.

Lemma rstrip_app_space (t r : list N) : all_space r → rstrip (t ++ r) = rstrip t.
Proof.
  intros Hr. unfold rstrip. rewrite reverse_app, lstrip_app_space; [done|].
  unfold all_space. by rewrite Forall_reverse.
Qed.

Lemma rstrip_id (t : list N) :
  (∀ c, last t = Some c → is_space c = false) → rstrip t = t.
Proof.
  intros H. unfold rstrip. rewrite lstrip_id.
  - apply reverse_involutive.
  - intros c Hc. apply H. by rewrite <- head_reverse.
Qed.

Lemma trimmed_of_strip (s t : list N) : trimmed_of s t → strip s = t.
Proof.
  intros ((l & r & -> & Hl & Hr) & Hhead & Hlast). unfold strip.
  rewrite lstrip_app_space by done.
  destruct t as [|c t].
  - simpl. by rewrite lstrip_all_space.
  - rewrite lstrip_id.
    + rewrite rstrip_app_space by done. by apply rstrip_id.
    + simpl. intros d [= <-]. by apply Hhead.
Qed.

Lemma strip_idempotent (a : list N) : strip (strip a) = strip a.
Proof.
  apply trimmed_of_strip.
  destruct (strip_trimmed a) as (_ & Hhead & Hlast).
  split; [|done]. exists [], []. rewrite app_nil_r. by repeat split; try constructor.
Qed.

(** X1.  [strip] is characterised by what it returns: [t] is [s] without its
    leading and trailing whitespace exactly when [t = s.strip()]. *)
Theorem strip_characterised (s t : list N) : trimmed_of s t ↔ t = strip s.
Proof.
  split.
  - intros H. symmetry. by apply trimmed_of_strip.
  - intros ->. apply strip_trimmed.
Qed.

(** X2.  Post-processing an answer that has been post-processed changes
    nothing. *)
Theorem _postprocess_answer_idempotent (a : list N) :
  _postprocess_answer (_postprocess_answer a) = _postprocess_answer a.
Proof. unfold _postprocess_answer. apply strip_idempotent. Qed.

(** X3.  The post-processed answer is empty exactly when the answer consists
    of whitespace only (the empty answer included). *)
Theorem _postprocess_answer_empty (a : list N) :
  _postprocess_answer a = [] ↔ all_space a.
Proof.
  unfold _postprocess_answer. split.
  - intros H. destruct (strip_trimmed a) as ((l & r & Ha & Hl & Hr) & _).
    rewrite H in Ha. rewrite Ha. simpl. by apply Forall_app.
  - intros Ha. unfold strip. by rewrite lstrip_all_space.
Qed.

(** ** [_generate_prompt_messages] *)

Lemma turn_entries_snoc_inj (h h' : list Turn) (m m' : list N) :
  turn_entries h ++ [user_entry m] = turn_entries h' ++ [user_entry m'] →
  m = m' ∧ h = h'.
Proof.
  revert h'. induction h as [|t h IH]; intros [|t' h'] H; simpl in H.
  - by injection H as ->.
  - destruct h'; discriminate.
  - destruct h; discriminate.
  - injection H as Hu Hb H. destruct (IH h' H) as [-> ->].
    destruct t, t'. simpl in *. by subst.
Qed.

(** X4.  The assembled message list determines the history and the new
    message: two calls that assemble the same list were given the same turns
    and the same message. *)
Theorem _generate_prompt_messages_injective
    (msg msg' : list N) (h h' : list Turn) (chat_mode chat_mode' : list N) :
  _generate_prompt_messages msg h chat_mode
  = _generate_prompt_messages msg' h' chat_mode' →
  msg = msg' ∧ h = h'.
Proof. rewrite !generate_turn_entries. apply turn_entries_snoc_inj. Qed.

Lemma _generate_prompt_messages_injective_witness :
  py "hello" = py "hello" ∧ [turn1; turn2] = [turn1; turn2].
Proof.
  apply (_generate_prompt_messages_injective (py "hello") (py "hello")
           [turn1; turn2] [turn1; turn2] (py "assistant") (py "pirate")).
  reflexivity.
Defined.

(** X5.  Forgetting the oldest turn removes exactly the first two entries of
    the message list: the list assembled for a retry is the list of the failed
    attempt without its leading user and assistant entries. *)
Theorem retry_messages_drop_two (msg : list N) (h : list Turn) (chat_mode : list N)
    (i : nat) :
  (i < length h)%nat →
  _generate_prompt_messages msg (drop (S i) h) chat_mode
  = drop 2 (_generate_prompt_messages msg (drop i h) chat_mode).
Proof.
  intros Hi. destruct (lookup_lt_is_Some_2 h i Hi) as [t Ht].
  rewrite (drop_S h t i Ht). by rewrite !generate_turn_entries.
Qed.

Lemma retry_messages_drop_two_witness :
  _generate_prompt_messages (py "hello") (drop 2 [turn1; turn2; turn3]) (py "assistant")
  = drop 2 (_generate_prompt_messages (py "hello") (drop 1 [turn1; turn2; turn3])
              (py "assistant")).
Proof.
  apply (retry_messages_drop_two (py "hello") [turn1; turn2; turn3] (py "assistant") 1).
  simpl. lia.
Defined.

(** ** [_count_tokens_from_messages] *)

Section TokenAccountingMore.
Context {Encoding : Type}
        (encoding_for_model : list N → exn + Encoding)
        (encode : Encoding → list N → exn + list Z).

(** X6.  For any messages, with or without ["name"] keys: when the tokenizer
    provides the encoding and raises on none of the texts, and the model has
    an overhead entry, the input count is the sum over the messages of the
    per-message overhead, the tokenized length of the values and the per-name
    overhead for each ["name"] key, plus 2. *)
Theorem local_input_count_with_names
    (messages : list message_dict) (ans m : list N) (encoding : Encoding)
    (tokens_per_message tokens_per_name : Z) (tokens : list N → list Z) :
  (if str_in (py "claude") m then encoding_for_model (py "gpt-4")
   else encoding_for_model m) = inr encoding →
  tokens_per m = inr (tokens_per_message, tokens_per_name) →
  encodes encode encoding tokens (message_values messages ++ [ans]) →
  _count_tokens_from_messages encoding_for_model encode messages ans m
  = inr (Zsum ((λ msg, tokens_per_message + values_tokens tokens msg
                       + tokens_per_name * name_keys msg) <$> messages) + 2,
         1 + Z.of_nat (length (tokens ans))).
Proof.
  intros Henc Htp Htokens. unfold encodes in Htokens.
  apply Forall_app in Htokens as [Hvalues Hans]. apply Forall_inv in Hans.
  unfold _count_tokens_from_messages.
  rewrite Henc, Htp, (count_messages_encodes encode encoding tokens) by done.
  by rewrite Hans, Z.add_0_l.
Qed.

(** X7.  The input count is additive over the message list, up to the
    per-conversation overhead of 2 that each count includes; the output count
    depends on the answer only. *)
Theorem local_input_count_additive
    (ms1 ms2 : list message_dict) (ans m : list N) (i1 i2 o1 o2 : Z) :
  _count_tokens_from_messages encoding_for_model encode ms1 ans m = inr (i1, o1) →
  _count_tokens_from_messages encoding_for_model encode ms2 ans m = inr (i2, o2) →
  _count_tokens_from_messages encoding_for_model encode (ms1 ++ ms2) ans m
  = inr (i1 + i2 - 2, o1)
  ∧ o1 = o2.
Proof.
  unfold _count_tokens_from_messages.
  destruct (if str_in (py "claude") m then _ else _) as [e|encoding]; [done|].
  destruct (tokens_per m) as [e|[tpm tpn]]; [done|].
  rewrite count_messages_app.
  destruct (count_messages encode encoding tpm tpn 0 ms1) as [e|n1] eqn:E1; [done|].
  destruct (count_messages encode encoding tpm tpn 0 ms2) as [e|n2] eqn:E2; [done|].
  rewrite (count_messages_shift encode encoding tpm tpn ms2 0 n1 n2 E2).
  destruct (encode encoding ans) as [e|tokens]; [done|].
  intros [= <- <-] [= <- <-]. split; [|done]. f_equal. f_equal. lia.
Qed.

(** X8.  The count does not depend on which of the three accepted models is
    addressed: they share the encoding and the overheads. *)
Theorem local_counts_same_for_claude_models
    (messages : list message_dict) (ans m1 m2 : list N) :
  m1 ∈ claude_models → m2 ∈ claude_models →
  _count_tokens_from_messages encoding_for_model encode messages ans m1
  = _count_tokens_from_messages encoding_for_model encode messages ans m2.
Proof.
  unfold claude_models. intros H1 H2.
  repeat (apply elem_of_cons in H1 as [->|H1]);
    [| | |by apply elem_of_nil in H1];
    (repeat (apply elem_of_cons in H2 as [->|H2]);
       [| | |by apply elem_of_nil in H2]);
    unfold _count_tokens_from_messages;
    repeat match goal with
           | |- context [str_in ?p ?m] =>
               replace (str_in p m) with true by (by vm_compute)
           | |- context [tokens_per ?m] =>
               replace (tokens_per m) with (@inr exn _ (3, 1)) by (by vm_compute)
           end;
    done.
Qed.

(** X9.  A client that [Claude.__init__] has accepted addresses one of the
    three models, and for it the local count needs nothing but the tokenizer:
    whenever the ["gpt-4"] encoding is provided and raises on none of the
    texts, the count is returned, with a per-message overhead of 3 and a
    per-name overhead of 1; any other model name is refused by the
    assertion. *)
Theorem constructed_client_counts
    (m : list N) (messages : list message_dict) (ans : list N) :
  (∀ self encoding tokens,
     Claude_init m = inr self →
     encoding_for_model (py "gpt-4") = inr encoding →
     encodes encode encoding tokens (message_values messages ++ [ans]) →
     model self = m ∧ m ∈ claude_models
     ∧ _count_tokens_from_messages encoding_for_model encode messages ans (model self)
       = inr (Zsum ((λ msg, 3 + values_tokens tokens msg + 1 * name_keys msg)
                      <$> messages) + 2,
              1 + Z.of_nat (length (tokens ans))))
  ∧ (m ∉ claude_models →
     Claude_init m = inl (AssertionError (py "Unknown model: " ++ m))).
Proof.
  unfold Claude_init. split.
  - intros self encoding tokens Hinit Henc Htokens. case_bool_decide as Hm; [|done].
    injection Hinit as <-. cbn [model]. split; [done|]. split; [done|].
    unfold encodes in Htokens.
    apply Forall_app in Htokens as [Hvalues Hans]. apply Forall_inv in Hans.
    rewrite (count_tokens_claude encoding_for_model encode {| model := m |}
               encoding Hm Henc).
    rewrite (count_messages_encodes encode encoding tokens) by done.
    by rewrite Hans, Z.add_0_l.
  - intros Hm. by rewrite bool_decide_eq_false_2.
Qed.

End TokenAccountingMore.

Lemma local_input_count_with_names_witness :
  _count_tokens_from_messages sample_encoding_for_model char_encode
    [[(py "role", py "user"); (py "name", py "bob"); (py "content", py "hi")]]
    (py "Hel") (py "gpt-3.5-turbo")
  = inr (14, 4).
Proof.
  rewrite (local_input_count_with_names sample_encoding_for_model char_encode
             [[(py "role", py "user"); (py "name", py "bob"); (py "content", py "hi")]]
             (py "Hel") (py "gpt-3.5-turbo") tt 4 (-1) char_tokens);
    first [by_evaluation | repeat constructor].
Defined.

Lemma local_input_count_additive_witness :
  _count_tokens_from_messages sample_encoding_for_model char_encode
    ([user_entry (py "hi")] ++ [assistant_entry (py "hello")]) (py "Hel")
    (py "claude-3-opus-20240229")
  = inr (11 + 19 - 2, 4)
  ∧ 4 = 4.
Proof.
  apply (local_input_count_additive sample_encoding_for_model char_encode
           [user_entry (py "hi")] [assistant_entry (py "hello")] (py "Hel")
           (py "claude-3-opus-20240229") 11 19 4 4);
    by_evaluation.
Defined.

Lemma local_counts_same_for_claude_models_witness :
  _count_tokens_from_messages sample_encoding_for_model char_encode
    [user_entry (py "hi")] (py "Hel") (py "claude-3-opus-20240229")
  = _count_tokens_from_messages sample_encoding_for_model char_encode
      [user_entry (py "hi")] (py "Hel") (py "claude-3-5-sonnet-20240620").
Proof.
  apply (local_counts_same_for_claude_models sample_encoding_for_model char_encode);
    apply (bool_decide_unpack _); by_evaluation.
Defined.

Lemma constructed_client_counts_witness :
  Claude_init (py "claude-3-haiku") = inl (AssertionError (py "Unknown model: " ++ py "claude-3-haiku"))
  ∧ _count_tokens_from_messages sample_encoding_for_model char_encode
      [user_entry (py "hi")] (py "Hel") (model sonnet)
    = inr (Zsum ((λ msg, 3 + values_tokens char_tokens msg + 1 * name_keys msg)
                   <$> [user_entry (py "hi")]) + 2,
           1 + Z.of_nat (length (char_tokens (py "Hel")))).
Proof.
  split.
  - destruct (constructed_client_counts sample_encoding_for_model char_encode
                (py "claude-3-haiku") [] []) as [_ Hrefused].
    apply Hrefused. apply (bool_decide_unpack _). by_evaluation.
  - destruct (constructed_client_counts sample_encoding_for_model char_encode
                (py "claude-3-5-sonnet-20240620") [user_entry (py "hi")] (py "Hel"))
      as [Haccepted _].
    apply (Haccepted sonnet tt char_tokens);
      first [by_evaluation | repeat constructor].
Defined.

(** ** [_generate_prompt] and [_count_tokens_from_prompt] *)

Lemma _generate_prompt_turns_concat (prompt : list N) (h : list Turn) :
  _generate_prompt_turns prompt h = prompt ++ concat (turn_lines <$> h).
Proof.
  revert prompt. induction h as [|t h IH]; intros prompt.
  - simpl. by rewrite app_nil_r.
  - rewrite fmap_cons. cbn [_generate_prompt_turns concat]. rewrite IH.
    unfold turn_lines. by rewrite <- !app_assoc.
Qed.

Lemma length_turn_lines (t : Turn) :
  length (turn_lines t) = (length (user t) + length (bot t) + 19)%nat.
Proof.
  unfold turn_lines. rewrite !length_app.
  change (length (py "User: ")) with 6%nat.
  change (length (py "Assistant: ")) with 11%nat.
  change (length nl) with 1%nat. lia.
Qed.

Lemma length_concat_turn_lines (h : list Turn) :
  length (concat (turn_lines <$> h))
  = sum_list_with (λ t, length (user t) + length (bot t) + 19)%nat h.
Proof.
  induction h as [|t h IH]; [done|].
  rewrite fmap_cons. cbn [concat sum_list_with].
  by rewrite length_app, length_turn_lines, IH.
Qed.

(** X10.  For a configured mode the text prompt is the mode's prompt, an empty
    line, the ["Chat:"] header and two lines per turn when there is a history
    (nothing at all when there is none), then the new message as a ["User: "]
    line and the open ["Assistant: "] line; its length grows by 19 plus the two
    texts per turn.  For a mode the configuration does not have, or an entry
    without ["prompt_start"], it is a [KeyError], whatever the history. *)
Theorem _generate_prompt_text
    (chat_modes : gmap (list N) (gmap (list N) (list N)))
    (msg : list N) (h : list Turn) (chat_mode : list N) :
  (∀ entry start,
     chat_modes !! chat_mode = Some entry →
     entry !! py "prompt_start" = Some start →
     ∃ prompt,
       _generate_prompt chat_modes msg h chat_mode = inr prompt
       ∧ prompt = start ++ nl ++ nl
                  ++ match h with
                     | [] => []
                     | _ :: _ => py "Chat:" ++ nl ++ concat (turn_lines <$> h)
                     end
                  ++ py "User: " ++ msg ++ nl ++ py "Assistant: "
       ∧ length prompt
         = (length start + 2
            + match h with
              | [] => 0
              | _ :: _ =>
                  6 + sum_list_with (λ t, length (user t) + length (bot t) + 19) h
              end
            + length msg + 18)%nat)
  ∧ (chat_modes !! chat_mode = None →
     _generate_prompt chat_modes msg h chat_mode = inl (KeyError chat_mode))
  ∧ (∀ entry,
       chat_modes !! chat_mode = Some entry →
       entry !! py "prompt_start" = None →
       _generate_prompt chat_modes msg h chat_mode
       = inl (KeyError (py "prompt_start"))).
Proof.
  unfold _generate_prompt. split; [|split].
  - intros entry start -> ->. eexists. split; [reflexivity|].
    destruct h as [|t h].
    + rewrite bool_decide_eq_false_2 by (simpl; lia). split.
      * by rewrite <- !app_assoc.
      * rewrite !length_app.
        change (length (py "User: ")) with 6%nat.
        change (length (py "Assistant: ")) with 11%nat.
        change (length nl) with 1%nat. lia.
    + rewrite bool_decide_eq_true_2 by (simpl; lia).
      rewrite _generate_prompt_turns_concat. split.
      * by rewrite <- !app_assoc.
      * rewrite !length_app, length_concat_turn_lines.
        change (length (py "User: ")) with 6%nat.
        change (length (py "Assistant: ")) with 11%nat.
        change (length (py "Chat:")) with 5%nat.
        change (length nl) with 1%nat. lia.
  - by intros ->.
  - by intros entry -> ->.
Qed.

Lemma _generate_prompt_text_witness :
  (∃ prompt,
     _generate_prompt sample_modes (py "hello") [turn1] (py "assistant") = inr prompt
     ∧ length prompt = (28 + 2 + (6 + (2 + 5 + 19 + 0)) + 5 + 18)%nat)
  ∧ _generate_prompt sample_modes (py "hello") [turn1] (py "pirate")
    = inl (KeyError (py "pirate"))
  ∧ _generate_prompt {[ py "bare" := ∅ ]} (py "hello") [turn1] (py "bare")
    = inl (KeyError (py "prompt_start")).
Proof.
  split; [|split].
  - destruct (_generate_prompt_text sample_modes (py "hello") [turn1] (py "assistant"))
      as (Hshape & _ & _).
    destruct (Hshape {[ py "prompt_start" := py "You are a helpful assistant." ]}
                (py "You are a helpful assistant."))
      as (prompt & Hrun & _ & Hlen); [by_evaluation..|].
    exists prompt. split; [exact Hrun|exact Hlen].
  - destruct (_generate_prompt_text sample_modes (py "hello") [turn1] (py "pirate"))
      as (_ & Hmissing & _).
    apply Hmissing. by_evaluation.
  - destruct (_generate_prompt_text {[ py "bare" := ∅ ]} (py "hello") [turn1]
                (py "bare"))
      as (_ & _ & Hbare).
    apply (Hbare ∅); by_evaluation.
Defined.

(** X11.  For a model name without ["claude"] that the tokenizer has an
    encoding for, and texts on none of which the tokenizer raises, the prompt
    counter returns the tokenized length of the prompt plus one and the
    tokenized length of the answer; it needs no overhead entry.  The message
    counter, for the same model and answer, either raises the unknown-model
    error (no overhead entry) or returns an output count one above the prompt
    counter's. *)
Theorem prompt_counter_against_message_counter {Encoding : Type}
    (encoding_for_model : list N → exn + Encoding)
    (encode : Encoding → list N → exn + list Z)
    (prompt ans m : list N) (messages : list message_dict) (encoding : Encoding)
    (tokens : list N → list Z) :
  encoding_for_model m = inr encoding →
  str_in (py "claude") m = false →
  encodes encode encoding tokens (prompt :: message_values messages ++ [ans]) →
  _count_tokens_from_prompt encoding_for_model encode prompt ans m
  = inr (Z.of_nat (length (tokens prompt)) + 1,
         Z.of_nat (length (tokens ans)))
  ∧ match _count_tokens_from_messages encoding_for_model encode messages ans m with
    | inl e => e = unknown_model m ∧ tokens_per m = inl e
    | inr (_, n_output) => n_output = Z.of_nat (length (tokens ans)) + 1
    end.
Proof.
  intros Henc Hclaude Htokens. unfold encodes in Htokens.
  apply Forall_cons in Htokens as [Hprompt Htokens].
  apply Forall_app in Htokens as [Hvalues Hans]. apply Forall_inv in Hans.
  unfold _count_tokens_from_prompt, _count_tokens_from_messages.
  rewrite Hclaude, Henc, Hprompt, Hans. split; [done|].
  destruct (tokens_per m) as [e|[tpm tpn]] eqn:Htp.
  - split; [|done]. unfold tokens_per in Htp.
    repeat case_bool_decide; try done. by injection Htp as <-.
  - rewrite (count_messages_encodes encode encoding tokens) by done. lia.
Qed.

Lemma prompt_counter_against_message_counter_witness :
  _count_tokens_from_prompt sample_encoding_for_model char_encode
    (py "User: hi") (py "Hel") (py "text-davinci-003")
  = inr (9, 3)
  ∧ _count_tokens_from_messages sample_encoding_for_model char_encode
      [user_entry (py "hi")] (py "Hel") (py "text-davinci-003")
    = inl (unknown_model (py "text-davinci-003")).
Proof.
  destruct (prompt_counter_against_message_counter sample_encoding_for_model
              char_encode (py "User: hi") (py "Hel") (py "text-davinci-003")
              [user_entry (py "hi")] tt char_tokens)
    as [Hprompt Hmessages]; [by_evaluation|by_evaluation|repeat constructor|].
  split; [exact Hprompt|].
  destruct (_count_tokens_from_messages _ _ _ _ _) as [e|[? ?]] eqn:E.
  - destruct Hmessages as [-> _]. reflexivity.
  - vm_compute in E. discriminate.
Defined.

(** * Further properties of the two methods *)

(** ** [send_message] against any service *)

Section SendMessageAnyService.
Context (chat_modes : gmap (list N) (gmap (list N) (list N))).
Context (create_message : nat → request → exn + Message).
Context (self : Claude) (msg chat_mode : list N).
Context (entry : gmap (list N) (list N)) (system : list N).
Hypothesis Hmodel : model self ∈ claude_models.
Hypothesis Hmode : chat_modes !! chat_mode = Some entry.
Hypothesis Hprompt : entry !! py "prompt_start" = Some system.

Local Abbreviation req history := (the_request self chat_mode msg history system false).
Local Abbreviation attempt :=
  (try_except_APIStatusError
     (send_message_try chat_modes create_message self msg chat_mode)
     on_APIStatusError).
Local Abbreviation loop fuel :=
  (send_message_loop chat_modes create_message fuel self msg chat_mode).

Lemma send_attempt_empty_content (s : state) (history : list Turn) (r : Message) :
  heap s !! dialog_messages (locals s) = Some history →
  create_message (length (calls s)) (req history) = inr r →
  content r = [] →
  attempt s = (Exc (IndexError (py "list index out of range")), logged (req history) s).
Proof.
  intros Hh Hr Hc. unfold try_except_APIStatusError, send_message_try.
  rewrite bool_decide_eq_true_2 by done.
  run (deref_Some _ _ _ Hh).
  run (prompt_start_Some chat_modes chat_mode entry system Hmode Hprompt s).
  run (messages_create_inr create_message _ _ _ Hr).
  unfold content_0_text. by rewrite Hc.
Qed.

(** What one pass through the loop body can do. *)
Lemma send_attempt_cases (s : state) (h : list Turn) :
  heap s !! dialog_messages (locals s) = Some h →
  answer (locals s) = None →
  ∃ o s',
    attempt s = (o, s')
    ∧ calls s' = calls s ++ [req h]
    ∧ yielded s' = yielded s
    ∧ match o with
      | Val _ =>
          (∃ text, answer (locals s') = Some (strip text)
                   ∧ heap s' !! dialog_messages (locals s') = Some h
                   ∧ is_Some (n_input_tokens (locals s'))
                   ∧ is_Some (n_output_tokens (locals s')))
          ∨ (answer (locals s') = None
             ∧ ∃ j, (j ≤ length h)%nat
                    ∧ heap s' !! dialog_messages (locals s') = Some (drop j h))
      | Exc _ => s' = logged (req h) s
      | Stuck _ => False
      end.
Proof.
  intros Hh Ha.
  destruct (create_message (length (calls s)) (req h)) as [e|r] eqn:Hr.
  - assert (Hkind : (∃ c m, e = APIStatusError c m)
                    ∨ (∀ c m, e ≠ APIStatusError c m))
      by (destruct e; eauto; by right).
    destruct Hkind as [(c & m & ->)|Hother].
    + destruct h as [|t rest].
      * eexists _, _. split; [by eapply send_attempt_exhausted|]. done.
      * destruct (decide (c = too_large_code)) as [->|Hc1].
        { destruct (send_attempt_too_large chat_modes create_message self msg
                      chat_mode entry system Hmodel Hmode Hprompt s t rest Hh)
            as (s' & Hrun & _ & Hdm & Hcalls & Hy & Ha' & _); [by exists m|].
          exists (Val tt), s'. repeat split; try done.
          right. split; [congruence|]. exists 1%nat. simpl. split; [lia|].
          by rewrite drop_0. }
        destruct (decide (c = rate_limit_code)) as [->|Hc2].
        { eexists _, _. split; [by eapply send_attempt_rate_limited|]. done. }
        eexists _, _. split; [by eapply send_attempt_other_status|].
        repeat split; try done. right. split; [done|].
        exists 0%nat. split; [lia|done].
    + eexists _, _. split; [by eapply send_attempt_other_error|done].
  - destruct (content r) as [|text rest] eqn:Hc.
    + eexists _, _. split; [by eapply send_attempt_empty_content|]. done.
    + destruct (send_attempt_success chat_modes create_message self msg chat_mode
                  entry system Hmodel Hmode Hprompt s h r text rest Hh Hr Hc)
        as (s' & Hrun & Hheap & Hcalls & Hy & Hdm & Ha' & Hi & Ho).
      exists (Val tt), s'. repeat split; try done.
      left. exists text. rewrite Hheap, Hdm, Hi, Ho. eauto.
Qed.

Context (history : list Turn).

(** The loop, entered with the history less its [k] oldest turns. *)
Lemma send_loop_any (fuel : nat) :
  ∀ (s : state) (k : nat),
    (k ≤ length history)%nat →
    heap s !! dialog_messages (locals s) = Some (drop k history) →
    answer (locals s) = None →
    ∃ o s' k',
      loop fuel s = (o, s')
      ∧ retried (λ h, req h) history k k' fuel s s'
      ∧ match o with
        | Val a =>
            (∃ text, a = strip text)
            ∧ is_Some (n_input_tokens (locals s'))
            ∧ is_Some (n_output_tokens (locals s'))
            ∧ last (calls s') = Some (req (drop k' history))
        | Exc _ => True
        | Stuck w => w = OutOfFuel
        end.
Proof.
  induction fuel as [|fuel IH]; intros s k Hk Hh Ha.
  - exists (Stuck OutOfFuel), s, k. split.
    { unfold send_message_loop. cbn. by rewrite Ha. }
    split; [|done]. repeat split; try done.
    exists []. by rewrite app_nil_r.
  - destruct (send_attempt_cases s (drop k history) Hh Ha)
      as (o1 & s1 & Hrun & Hcalls & Hy & Hcase).
    unfold send_message_loop. rewrite (while_step _ _ _ Ha).
    destruct o1 as [[]|e|w]; [|subst s1|done].
    + destruct Hcase as [(text & Ha1 & Hh1 & Hi & Ho)|(Ha1 & j & Hj & Hh1)].
      * exists (Val (strip text)), s1, k. split.
        { rewrite (bind_Val _ _ _ _ _ Hrun). by apply while_done. }
        split.
        { repeat split; try done. exists [req (drop k history)].
          repeat split; [done|simpl; lia|]. repeat constructor. by exists k. }
        repeat split; eauto. by rewrite Hcalls, last_snoc.
      * rewrite length_drop in Hj. rewrite drop_drop in Hh1.
        destruct (IH s1 (k + j)%nat) as (o & s' & k' & Hloop & Hret & Hres);
          [lia|done|done|].
        destruct Hret as (Hk1 & Hk2 & Hh' & (new & Hcalls' & Hlen & Hall) & Hy').
        exists o, s', k'. split.
        { by rewrite (bind_Val _ _ _ _ _ Hrun). }
        split; [|done].
        repeat split; [lia|done|done| |congruence].
        exists (req (drop k history) :: new).
        repeat split.
        { by rewrite Hcalls', Hcalls, <- app_assoc. }
        { simpl. lia. }
        constructor.
        { exists k. repeat split; lia. }
        eapply Forall_impl; [exact Hall|].
        intros r (i & Hi1 & Hi2 & ->). exists i. repeat split; lia.
    + exists (Exc e), (logged (req (drop k history)) s), k. split.
      { by apply bind_Exc. }
      split; [|done]. repeat split; try done.
      exists [req (drop k history)].
      repeat split; [simpl; lia|]. repeat constructor. by exists k.
Qed.

Lemma send_message_stuck (fuel : nat) (s s' : state) (dm : loc) (w : stuck) :
  heap s !! dm = Some history →
  loop fuel (entered dm s) = (Stuck w, s') →
  send_message chat_modes create_message fuel self msg dm chat_mode s = (Stuck w, s').
Proof.
  intros Hh Hloop. unfold send_message. norm.
  rewrite (mode_supported chat_modes chat_mode entry Hmode).
  assert (Hh0 : heap (entered dm s) !! dm = Some history) by done.
  run (py_len_Some _ _ _ Hh0). by apply bind_Stuck.
Qed.

(** How [send_message] ends, from how its loop ends. *)
Lemma send_message_any (fuel : nat) (s : state) (dm : loc) :
  heap s !! dm = Some history →
  ∃ o s' k,
    send_message chat_modes create_message fuel self msg dm chat_mode s = (o, s')
    ∧ retried (λ h, req h) history 0 k fuel s s'
    ∧ match o with
      | Val (a, _, n) =>
          (∃ text, a = strip text)
          ∧ n = Z.of_nat k
          ∧ last (calls s') = Some (req (drop k history))
      | Exc _ => True
      | Stuck w => w = OutOfFuel
      end.
Proof.
  intros Hh.
  destruct (send_loop_any fuel (entered dm s) 0%nat) as (o & s' & k & Hloop & Hret & Hres);
    [lia|by rewrite drop_0|done|].
  pose proof Hret as (_ & Hk & Hh' & _ & _).
  destruct o as [a|e|w].
  - destruct Hres as (Htext & [n_in Hi] & [n_out Ho] & Hlast).
    eexists _, s', k. split.
    { by eapply send_message_returns. }
    split; [done|]. split; [done|]. split; [|done].
    rewrite length_drop. lia.
  - eexists _, s', k. split; [by eapply send_message_raises|]. done.
  - eexists _, s', k. split; [by eapply send_message_stuck|]. done.
Qed.

(** X12.  Whatever the service answers: when [send_message] returns, the
    discarded count [n] lies between 0 and the length of the history, the last
    remote call was made for the history less its [n] oldest turns, which is
    the list [dialog_messages] is bound to at the end, and the answer has no
    whitespace left at either end. *)
Theorem send_message_result_invariant (fuel : nat) (s s' : state) (dm : loc)
    (a : list N) (tokens : Z * Z) (n : Z) :
  heap s !! dm = Some history →
  send_message chat_modes create_message fuel self msg dm chat_mode s
  = (Val (a, tokens, n), s') →
  0 ≤ n ≤ Z.of_nat (length history)
  ∧ last (calls s') = Some (req (drop (Z.to_nat n) history))
  ∧ heap s' !! dialog_messages (locals s') = Some (drop (Z.to_nat n) history)
  ∧ _postprocess_answer a = a.
Proof.
  intros Hh Hrun.
  destruct (send_message_any fuel s dm Hh) as (o & s1 & k & Hrun1 & Hret & Hres).
  rewrite Hrun in Hrun1. injection Hrun1 as <- <-.
  destruct Hres as ([text ->] & -> & Hlast).
  destruct Hret as (_ & Hk & Hh' & _).
  rewrite Nat2Z.id. repeat split; try done; try lia.
  apply strip_idempotent.
Qed.

(** X13.  Whatever the service answers and however [send_message] ends: it
    makes at most as many remote calls as the loop is allowed iterations, each
    of them without [stream], for the client's model, with the mode's prompt as
    [system] and the fixed options, and with the message list assembled for
    the history less some of its oldest turns, so that the new message is
    always its last entry; it produces no element. *)
Theorem send_message_calls_invariant (fuel : nat) (s : state) (dm : loc) :
  heap s !! dm = Some history →
  ∃ new,
    calls (send_message chat_modes create_message fuel self msg dm chat_mode s).2
    = calls s ++ new
    ∧ (length new ≤ fuel)%nat
    ∧ Forall (λ r, (∃ j, (j ≤ length history)%nat
                         ∧ req_messages r
                           = turn_entries (drop j history) ++ [user_entry msg])
                   ∧ last (req_messages r) = Some (user_entry msg)
                   ∧ req_system r = system
                   ∧ req_model r = model self
                   ∧ req_stream r = false
                   ∧ req_options r = ANTHROPIC_COMPLETION_OPTIONS) new
    ∧ yielded (send_message chat_modes create_message fuel self msg dm chat_mode s).2
      = yielded s.
Proof.
  intros Hh.
  destruct (send_message_any fuel s dm Hh) as (o & s1 & k & Hrun & Hret & _).
  rewrite Hrun. cbn [snd].
  destruct Hret as (_ & Hk & _ & (new & Hcalls & Hlen & Hall) & Hy).
  exists new. repeat split; try done.
  eapply Forall_impl; [exact Hall|].
  intros r (j & _ & Hj & ->). cbn.
  rewrite generate_turn_entries, last_snoc. repeat split; try done.
  exists j. split; [lia|done].
Qed.

Lemma send_loop_other_status (fuel : nat) :
  ∀ (s : state) (t : Turn) (rest : list Turn),
    heap s !! dialog_messages (locals s) = Some (t :: rest) →
    answer (locals s) = None →
    (∀ n r, ∃ c m, create_message n r = inl (APIStatusError c m)
                   ∧ c ≠ too_large_code ∧ c ≠ rate_limit_code) →
    ∃ s', loop fuel s = (Stuck OutOfFuel, s')
          ∧ calls s' = calls s ++ replicate fuel (req (t :: rest)).
Proof.
  induction fuel as [|fuel IH]; intros s t rest Hh Ha Hall.
  - exists s. split.
    + unfold send_message_loop. cbn. by rewrite Ha.
    + by rewrite app_nil_r.
  - destruct (Hall (length (calls s)) (req (t :: rest))) as (c & m & Hr & Hc1 & Hc2).
    pose proof (send_attempt_other_status chat_modes create_message self msg
                  chat_mode entry system Hmodel Hmode Hprompt s t rest c m
                  Hh Hc1 Hc2 Hr) as Hrun.
    destruct (IH (logged (req (t :: rest)) s) t rest) as (s' & Hloop & Hcalls);
      [done..|].
    exists s'. split.
    + unfold send_message_loop in *.
      by rewrite (while_step _ _ _ Ha), (bind_Val _ _ _ _ _ Hrun).
    + rewrite Hcalls. cbn. by rewrite <- app_assoc.
Qed.

(** X14.  With a non-empty history and a service that answers every call with
    a status error whose code is neither ['403'] nor ['429'], [send_message]
    does not end: however many iterations the loop is allowed, it uses them
    all, making the same call each time. *)
Theorem send_message_other_status_never_ends (fuel : nat) (s : state) (dm : loc) :
  heap s !! dm = Some history →
  history ≠ [] →
  (∀ n r, ∃ c m, create_message n r = inl (APIStatusError c m)
                 ∧ c ≠ too_large_code ∧ c ≠ rate_limit_code) →
  ∃ s', send_message chat_modes create_message fuel self msg dm chat_mode s
        = (Stuck OutOfFuel, s')
        ∧ calls s' = calls s ++ replicate fuel (req history).
Proof.
  intros Hh Hne Hall. destruct history as [|t rest] eqn:E; [done|].
  destruct (send_loop_other_status fuel (entered dm s) t rest) as (s' & Hloop & Hcalls);
    [done..|].
  exists s'. split; [|done]. rewrite <- E in *. by eapply send_message_stuck.
Qed.

(** X15.  A response without any content block makes [send_message] raise the
    [IndexError] of [r.content[0]]; the call is not repeated. *)
Theorem send_message_empty_content (fuel : nat) (s : state) (dm : loc) (r : Message) :
  heap s !! dm = Some history →
  create_message (length (calls s)) (req history) = inr r →
  content r = [] →
  (0 < fuel)%nat →
  ∃ s', send_message chat_modes create_message fuel self msg dm chat_mode s
        = (Exc (IndexError (py "list index out of range")), s')
        ∧ calls s' = calls s ++ [req history].
Proof.
  intros Hh Hr Hc Hfuel.
  destruct (send_message_fails_after chat_modes create_message self msg chat_mode
              entry system Hmodel Hmode Hprompt 0 fuel s dm history
              (IndexError (py "list index out of range")) Hh)
    as (s' & Hrun & _ & Hcalls & _); [lia|intros i Hi; lia|done| |].
  - intros s1 Hdm Hlen. rewrite drop_0 in Hdm |- *.
    apply (send_attempt_empty_content s1 history r); [done| |done].
    by rewrite Hlen, Nat.add_0_r.
  - exists s'. split; [done|]. by rewrite Hcalls.
Qed.

End SendMessageAnyService.

(** ** Status errors as the client raises them

    The client library sets [status_code] to the [int] of the HTTP response,
    so neither comparison of the [except] clause, both with a [str], holds:
    with turns left in the history the clause does nothing and the loop makes
    the same call again. *)

(** *** No status error leaves either method *)

Lemma no_status_bind {A B} (m : M A) (k : A → M B) :
  no_status_error m → (∀ a, no_status_error (k a)) → no_status_error (bind m k).
Proof.
  intros Hm Hk s c msg. unfold bind. specialize (Hm s c msg).
  destruct (m s) as [[a|e|w] s']; cbn in *;
    [apply Hk|intros [= ->]; by apply Hm|done].
Qed.

Lemma no_status_try {A} (body : M A) (handler : pyval → list N → M A) :
  (∀ c m, no_status_error (handler c m)) →
  no_status_error (try_except_APIStatusError body handler).
Proof.
  intros Hh s c msg. unfold try_except_APIStatusError.
  destruct (body s) as [[a|e|w] s']; [done| |done].
  destruct e; try done. apply Hh.
Qed.

Lemma no_status_py_len (l : loc) : no_status_error (py_len l).
Proof.
  intros s c msg. unfold py_len, bind, deref, ret.
  by destruct (heap s !! l).
Qed.

Lemma no_status_read_local {A} (name : string) (proj : frame → option A) :
  no_status_error (read_local name proj).
Proof. intros s c msg. unfold read_local. by destruct (proj (locals s)). Qed.

Lemma no_status_on_APIStatusError (c : pyval) (m : list N) :
  no_status_error (on_APIStatusError c m).
Proof.
  intros s c' m'.
  unfold on_APIStatusError, py_len, py_slice_from_1, bind, get_local, deref, ret,
    raise, assign_dialog_messages.
  cbn. destruct (heap s !! dialog_messages (locals s)) as [v|] eqn:E; cbn; [|done].
  repeat (case_bool_decide; cbn; rewrite ?E; cbn; try done).
Qed.

Lemma no_status_while (body : M unit) (fuel : nat) :
  no_status_error body → no_status_error (while_answer_is_None fuel body).
Proof.
  intros Hb. induction fuel as [|fuel IH]; intros s c msg.
  - cbn. unfold bind, get_local, ret, stop. cbn. by destruct (answer (locals s)).
  - destruct (answer (locals s)) as [a|] eqn:Ha.
    + by rewrite (while_done body (S fuel) s a Ha).
    + rewrite (while_step body fuel s Ha). by apply no_status_bind.
Qed.

Lemma no_status_send_message (chat_modes : gmap (list N) (gmap (list N) (list N)))
    (create_message : nat → request → exn + Message) (fuel : nat) (self : Claude)
    (msg : list N) (dm : loc) (chat_mode : list N) :
  no_status_error (send_message chat_modes create_message fuel self msg dm chat_mode).
Proof.
  unfold send_message, send_message_loop.
  apply no_status_bind; [done|]. intros _.
  case_bool_decide; [done|].
  apply no_status_bind; [apply no_status_py_len|]. intros nb.
  apply no_status_bind.
  { apply no_status_while, no_status_try, no_status_on_APIStatusError. }
  intros a. apply no_status_bind; [done|]. intros dm'.
  apply no_status_bind; [apply no_status_py_len|]. intros n.
  apply no_status_bind; [apply no_status_read_local|]. intros n_in.
  apply no_status_bind; [apply no_status_read_local|]. by intros n_out.
Qed.

Lemma no_status_send_message_stream
    (chat_modes : gmap (list N) (gmap (list N) (list N))) {Encoding : Type}
    (encoding_for_model : list N → exn + Encoding)
    (encode : Encoding → list N → exn + list Z)
    (create_stream : nat → request → exn + Stream) (fuel : nat) (self : Claude)
    (msg : list N) (dm : loc) (chat_mode : list N) :
  no_status_error (send_message_stream chat_modes encoding_for_model encode
                     create_stream fuel self msg dm chat_mode).
Proof.
  unfold send_message_stream, send_message_stream_loop.
  apply no_status_bind; [done|]. intros _.
  case_bool_decide; [done|].
  apply no_status_bind; [apply no_status_py_len|]. intros nb.
  apply no_status_bind.
  { apply no_status_while, no_status_try, no_status_on_APIStatusError. }
  intros a.
  apply no_status_bind; [apply no_status_read_local|]. intros n_in.
  apply no_status_bind; [apply no_status_read_local|]. intros n_out.
  apply no_status_bind; [apply no_status_read_local|]. by intros removed.
Qed.

(** X24.  Whatever the service answers, before or while it streams,
    [send_message_stream] does not end by raising an [APIStatusError] either:
    the [except] clause catches every one of them, and raises nothing but the
    two [ValueError]s. *)
Theorem stream_never_raises_status_error
    (chat_modes : gmap (list N) (gmap (list N) (list N))) {Encoding : Type}
    (encoding_for_model : list N → exn + Encoding)
    (encode : Encoding → list N → exn + list Z)
    (create_stream : nat → request → exn + Stream) (fuel : nat) (self : Claude)
    (msg : list N) (dm : loc) (chat_mode : list N) (s : state) (c : pyval)
    (m : list N) :
  (send_message_stream chat_modes encoding_for_model encode create_stream
     fuel self msg dm chat_mode s).1
  ≠ Exc (APIStatusError c m).
Proof. apply no_status_send_message_stream. Qed.

(** *** [send_message] *)

Section SendMessageStatusErrors.
Context (chat_modes : gmap (list N) (gmap (list N) (list N))).
Context (create_message : nat → request → exn + Message).
Context (self : Claude) (msg chat_mode : list N).
Context (entry : gmap (list N) (list N)) (system : list N).
Hypothesis Hmodel : model self ∈ claude_models.
Hypothesis Hmode : chat_modes !! chat_mode = Some entry.
Hypothesis Hprompt : entry !! py "prompt_start" = Some system.

Local Abbreviation req history := (the_request self chat_mode msg history system false).
Local Abbreviation attempt :=
  (try_except_APIStatusError
     (send_message_try chat_modes create_message self msg chat_mode)
     on_APIStatusError).
Local Abbreviation loop fuel :=
  (send_message_loop chat_modes create_message fuel self msg chat_mode).
Local Abbreviation send fuel dm :=
  (send_message chat_modes create_message fuel self msg dm chat_mode).
(** The remote call number [n], made for [history], is answered by a status
    error whose code equals neither string of the [except] clause. *)
Local Abbreviation refused history n :=
  (∃ c m, create_message n (req history) = inl (APIStatusError c m)
          ∧ c ≠ too_large_code ∧ c ≠ rate_limit_code).

Lemma send_loop_repeats (k fuel : nat) (s : state) (dm : loc) (history : list Turn) :
  heap s !! dm = Some history →
  ((0 < k)%nat → history ≠ []) →
  (∀ i, (i < k)%nat → refused history (length (calls s) + i)%nat) →
  loop (k + fuel) (entered dm s)
  = loop fuel (relogged k (req history) (entered dm s)).
Proof.
  intros Hh Hne Hall. destruct k as [|k]; [by rewrite relogged_0|].
  destruct history as [|t rest]; [by destruct Hne; [lia|]|].
  apply (while_repeats attempt (req (t :: rest)) (t :: rest)
           (λ n, refused (t :: rest) n)); [|done..].
  intros s0 Hh0 _ (c & m & Hr & Hc1 & Hc2).
  by apply (send_attempt_other_status chat_modes create_message self msg chat_mode
              entry system Hmodel Hmode Hprompt s0 t rest c m).
Qed.

(** After [k] refused attempts the next one succeeds. *)
Lemma send_message_returns_after_refusals (k fuel : nat) (s : state) (dm : loc)
    (history : list Turn) (r : Message) (text : list N) (rest : list (list N)) :
  heap s !! dm = Some history →
  ((0 < k)%nat → history ≠ []) →
  (∀ i, (i < k)%nat → refused history (length (calls s) + i)%nat) →
  create_message (length (calls s) + k) (req history) = inr r →
  content r = text :: rest →
  (k < fuel)%nat →
  ∃ s', send fuel dm s
        = (Val (strip text, (usage_input_tokens r, usage_output_tokens r), 0), s')
        ∧ calls s' = calls s ++ replicate (S k) (req history)
        ∧ heap s' = heap s
        ∧ yielded s' = yielded s.
Proof.
  intros Hh Hne Hall Hr Hc Hfuel.
  pose proof (send_loop_repeats k (fuel - k) s dm history Hh Hne Hall) as Hloop.
  replace (k + (fuel - k))%nat with fuel in Hloop by lia.
  set (s1 := relogged k (req history) (entered dm s)) in *.
  assert (Hh1 : heap s1 !! dialog_messages (locals s1) = Some history) by done.
  destruct (send_attempt_success chat_modes create_message self msg chat_mode
              entry system Hmodel Hmode Hprompt s1 history r text rest Hh1)
    as (s2 & Hrun & Hheap & Hcalls & Hy & Hdm & Ha & Hi & Ho); [|done|].
  { unfold s1. by rewrite length_calls_relogged. }
  exists s2. split; [|split; [|split]].
  - rewrite <- (Z.sub_diag (Z.of_nat (length history))).
    eapply (send_message_returns chat_modes create_message self msg chat_mode
              entry Hmode); [done| |by rewrite Hdm, Hheap|done..].
    rewrite Hloop. destruct (fuel - k)%nat as [|f] eqn:E; [lia|].
    unfold send_message_loop.
    rewrite (while_step _ _ s1 eq_refl), (bind_Val _ _ _ _ _ Hrun).
    by apply while_done.
  - rewrite Hcalls. cbn. by rewrite <- app_assoc, <- replicate_S_end.
  - by rewrite Hheap.
  - by rewrite Hy.
Qed.

(** After [k] refused attempts the next one raises [e]. *)
Lemma send_message_raises_after_refusals (k fuel : nat) (s : state) (dm : loc)
    (history : list Turn) (e : exn) :
  heap s !! dm = Some history →
  ((0 < k)%nat → history ≠ []) →
  (∀ i, (i < k)%nat → refused history (length (calls s) + i)%nat) →
  (k < fuel)%nat →
  (∀ s1, heap s1 !! dialog_messages (locals s1) = Some history →
         length (calls s1) = (length (calls s) + k)%nat →
         attempt s1 = (Exc e, logged (req history) s1)) →
  ∃ s', send fuel dm s = (Exc e, s')
        ∧ calls s' = calls s ++ replicate (S k) (req history)
        ∧ heap s' = heap s
        ∧ yielded s' = yielded s.
Proof.
  intros Hh Hne Hall Hfuel Hatt.
  pose proof (send_loop_repeats k (fuel - k) s dm history Hh Hne Hall) as Hloop.
  replace (k + (fuel - k))%nat with fuel in Hloop by lia.
  set (s1 := relogged k (req history) (entered dm s)) in *.
  assert (Hh1 : heap s1 !! dialog_messages (locals s1) = Some history) by done.
  exists (logged (req history) s1). split; [|split; [|done]].
  - eapply (send_message_raises chat_modes create_message self msg chat_mode
              entry Hmode); [done|].
    rewrite Hloop. destruct (fuel - k)%nat as [|f] eqn:E; [lia|].
    unfold send_message_loop. rewrite (while_step _ _ s1 eq_refl).
    apply bind_Exc, Hatt; [done|]. unfold s1. by rewrite length_calls_relogged.
  - cbn. by rewrite <- app_assoc, <- replicate_S_end.
Qed.

(** Every attempt refused: the loop never ends, and nothing changes but the
    log of calls. *)
Lemma send_message_never_ends (fuel : nat) (s : state) (dm : loc)
    (history : list Turn) :
  heap s !! dm = Some history →
  history ≠ [] →
  (∀ i, (i < fuel)%nat → refused history (length (calls s) + i)%nat) →
  send fuel dm s = (Stuck OutOfFuel, relogged fuel (req history) (entered dm s)).
Proof.
  intros Hh Hne Hall.
  pose proof (send_loop_repeats fuel 0 s dm history Hh (λ _, Hne) Hall) as Hloop.
  rewrite Nat.add_0_r in Hloop.
  apply (send_message_stuck chat_modes create_message self msg chat_mode entry
           Hmode history); [done|].
  by rewrite Hloop.
Qed.

(** A refused first attempt is followed by a second call, made with the same
    request, however the service goes on. *)
Lemma send_message_repeats_call (fuel : nat) (s : state) (dm : loc)
    (history : list Turn) :
  heap s !! dm = Some history →
  history ≠ [] →
  refused history (length (calls s)) →
  (1 < fuel)%nat →
  (calls s ++ [req history; req history]) `prefix_of` calls (send fuel dm s).2.
Proof.
  intros Hh Hne Href Hfuel. destruct fuel as [|[|fuel]]; [lia..|].
  set (s1 := relogged 1 (req history) (entered dm s)).
  assert (Hloop : loop (S (S fuel)) (entered dm s) = loop (S fuel) s1).
  { apply (send_loop_repeats 1 (S fuel) s dm history Hh (λ _, Hne)).
    intros i Hi. replace i with 0%nat by lia. by rewrite Nat.add_0_r. }
  assert (Hh1 : heap s1 !! dialog_messages (locals s1) = Some history) by done.
  pose proof (send_try_logs chat_modes create_message self msg chat_mode entry
                system Hmodel Hmode Hprompt s1 history Hh1) as Hsecond.
  assert (Hstep : calls_extend
                    (send_message_try chat_modes create_message self msg chat_mode
                       s1).2
                    (loop (S fuel) s1).2).
  { apply send_message_loop_after_try;
      auto using calls_extend_set_locals, calls_extend_logged,
        calls_extend_allocated, calls_extend_produced with typeclass_instances. }
  assert (Hend : calls_extend (loop (S (S fuel)) (entered dm s)).2
                   (send (S (S fuel)) dm s).2).
  { eapply send_message_after_loop;
      eauto using calls_extend_set_locals, calls_extend_logged,
        calls_extend_allocated, calls_extend_produced with typeclass_instances. }
  unfold calls_extend in Hstep, Hend. rewrite Hsecond in Hstep.
  rewrite Hloop in Hend.
  etrans; [|exact Hend]. etrans; [|exact Hstep].
  cbn. by rewrite <- app_assoc.
Qed.

(** C1 (the code departs from the claim).  The service answers every attempt
    by a status error as the client raises it, with an [int] code (413 or 400
    for a request that is too large), and the history is not empty.  No turn
    is ever dropped: however many iterations the loop is allowed, it uses them
    all, each call made for the whole history, and the history-exhausted error
    is never raised; no shorter list has been created, and [dialog_messages] is
    bound to the caller's list throughout.  When the attempt after [k] such
    failures succeeds, the discarded count returned is 0 and not [k]. *)
Theorem send_message_too_large_never_trims (fuel : nat) (s : state) (dm : loc)
    (history : list Turn) :
  heap s !! dm = Some history →
  history ≠ [] →
  ((∀ n, ∃ z m, create_message n (req history) = inl (APIStatusError (PyInt z) m)) →
   ∃ s', send fuel dm s = (Stuck OutOfFuel, s')
         ∧ calls s' = calls s ++ replicate fuel (req history)
         ∧ heap s' = heap s
         ∧ dialog_messages (locals s') = dm)
  ∧ (∀ (k : nat) (r : Message) (text : list N) (rest : list (list N)),
       (∀ i, (i < k)%nat →
             ∃ z m, create_message (length (calls s) + i) (req history)
                    = inl (APIStatusError (PyInt z) m)) →
       create_message (length (calls s) + k) (req history) = inr r →
       content r = text :: rest →
       (k < fuel)%nat →
       ∃ s', send fuel dm s
             = (Val (strip text, (usage_input_tokens r, usage_output_tokens r), 0), s')
             ∧ calls s' = calls s ++ replicate (S k) (req history)).
Proof.
  intros Hh Hne. split.
  - intros Hall. exists (relogged fuel (req history) (entered dm s)).
    split; [|done].
    apply send_message_never_ends; [done..|].
    intros i _. destruct (Hall (length (calls s) + i)%nat) as (z & m & Hr).
    by exists (PyInt z), m.
  - intros k r text rest Hall Hr Hc Hfuel.
    destruct (send_message_returns_after_refusals k fuel s dm history r text rest)
      as (s' & Hrun & Hcalls & _); [done..| |done|done|done|by exists s'].
    intros i Hi. destruct (Hall i Hi) as (z & m & Hm). by exists (PyInt z), m.
Qed.

(** C3 (the code departs from the claim).  The first attempt is answered by
    the rate-limit error as the client raises it, with the [int] code 429.
    With turns left in the history the rate-limit error is not raised: the same
    call is made a second time, however the service goes on, and when that
    second call succeeds [send_message] returns its answer.  With an empty
    history the error raised is the history-exhausted one. *)
Theorem send_message_rate_limit_is_retried (fuel : nat) (s : state) (dm : loc)
    (history : list Turn) (m : list N) :
  heap s !! dm = Some history →
  create_message (length (calls s)) (req history)
    = inl (APIStatusError (PyInt 429) m) →
  (history ≠ [] → (1 < fuel)%nat →
   (calls s ++ [req history; req history]) `prefix_of` calls (send fuel dm s).2
   ∧ ∀ (r : Message) (text : list N) (rest : list (list N)),
       create_message (S (length (calls s))) (req history) = inr r →
       content r = text :: rest →
       ∃ s', send fuel dm s
             = (Val (strip text, (usage_input_tokens r, usage_output_tokens r), 0), s')
             ∧ calls s' = calls s ++ [req history; req history])
  ∧ (history = [] → (0 < fuel)%nat →
     ∃ s', send fuel dm s = (Exc history_exhausted, s')
           ∧ calls s' = calls s ++ [req []]
           ∧ ∀ text, history_exhausted ≠ rate_limited text).
Proof.
  intros Hh Hr. split.
  - intros Hne Hfuel. split.
    + apply send_message_repeats_call; [done..| |done].
      by exists (PyInt 429), m.
    + intros r text rest Hr2 Hc.
      destruct (send_message_returns_after_refusals 1 fuel s dm history r text rest)
        as (s' & Hrun & Hcalls & _); [done..| | |done|done|by exists s'].
      * intros i Hi. replace i with 0%nat by lia. rewrite Nat.add_0_r.
        by exists (PyInt 429), m.
      * by rewrite Nat.add_1_r.
  - intros -> Hfuel.
    destruct (send_message_raises_after_refusals 0 fuel s dm [] history_exhausted Hh)
      as (s' & Hrun & Hcalls & _); [lia|intros i Hi; lia|done| |].
    + intros s1 Hh1 Hlen.
      apply (send_attempt_exhausted chat_modes create_message self msg chat_mode
               entry system Hmodel Hmode Hprompt s1 (PyInt 429) m); [done|].
      by rewrite Hlen, Nat.add_0_r.
    + exists s'. split; [done|]. split; [done|].
      intros text. unfold history_exhausted, rate_limited. by intros [=].
Qed.

(** C4 (the code departs from the claim).  No status error of the remote call
    is ever propagated: whatever the service answers, [send_message] does not
    end by raising an [APIStatusError].  A status error of any code met with an
    empty history is replaced by the history-exhausted error; one whose code
    is neither of the two strings, every [int] code among them, met with turns
    left in the history, is followed by a second call with the same request. *)
Theorem send_message_never_raises_status_error (fuel : nat) (s : state) (dm : loc)
    (history : list Turn) :
  heap s !! dm = Some history →
  (∀ c m, (send fuel dm s).1 ≠ Exc (APIStatusError c m))
  ∧ (∀ c m,
       history = [] →
       create_message (length (calls s)) (req []) = inl (APIStatusError c m) →
       (0 < fuel)%nat →
       ∃ s', send fuel dm s = (Exc history_exhausted, s')
             ∧ calls s' = calls s ++ [req []])
  ∧ (∀ c m,
       history ≠ [] →
       create_message (length (calls s)) (req history) = inl (APIStatusError c m) →
       c ≠ too_large_code → c ≠ rate_limit_code →
       (1 < fuel)%nat →
       (calls s ++ [req history; req history]) `prefix_of` calls (send fuel dm s).2).
Proof.
  intros Hh. split; [|split].
  - intros c m. apply no_status_send_message.
  - intros c m -> Hr Hfuel.
    destruct (send_message_raises_after_refusals 0 fuel s dm [] history_exhausted Hh)
      as (s' & Hrun & Hcalls & _); [lia|intros i Hi; lia|done| |by exists s'].
    intros s1 Hh1 Hlen.
    apply (send_attempt_exhausted chat_modes create_message self msg chat_mode
             entry system Hmodel Hmode Hprompt s1 c m); [done|].
    by rewrite Hlen, Nat.add_0_r.
  - intros c m Hne Hr Hc1 Hc2 Hfuel.
    apply send_message_repeats_call; [done..| |done]. by exists c, m.
Qed.

(** X22.  What [send_message] does propagate: an error of the remote call
    that is not a status error is raised unchanged, also after [k] refused
    attempts, and no call follows the one that raised it. *)
Theorem send_message_other_error_not_retried (k fuel : nat) (s : state) (dm : loc)
    (history : list Turn) (e : exn) :
  heap s !! dm = Some history →
  ((0 < k)%nat → history ≠ []) →
  (∀ i, (i < k)%nat → refused history (length (calls s) + i)%nat) →
  create_message (length (calls s) + k) (req history) = inl e →
  (∀ c m, e ≠ APIStatusError c m) →
  (k < fuel)%nat →
  ∃ s', send fuel dm s = (Exc e, s')
        ∧ calls s' = calls s ++ replicate (S k) (req history)
        ∧ yielded s' = yielded s.
Proof.
  intros Hh Hne Hall Hr He Hfuel.
  destruct (send_message_raises_after_refusals k fuel s dm history e Hh Hne Hall Hfuel)
    as (s' & Hrun & Hcalls & _ & Hy); [|by exists s'].
  intros s1 Hh1 Hlen.
  apply (send_attempt_other_error chat_modes create_message self msg chat_mode
           entry system Hmodel Hmode Hprompt s1 history e); [done..|].
  by rewrite Hlen.
Qed.

End SendMessageStatusErrors.

(** ** [send_message_stream] against any service *)

Global Instance yields_not_finished_preorder : PreOrder yields_not_finished.
Proof.
  split.
  - intros s. exists []. by rewrite app_nil_r.
  - intros s1 s2 s3 (l1 & H1 & Hl1) (l2 & H2 & Hl2). exists (l1 ++ l2). split.
    + by rewrite H2, H1, app_assoc.
    + by apply Forall_app.
Qed.

Lemma yields_nothing (s s' : state) : yielded s' = yielded s → yields_not_finished s s'.
Proof. intros H. exists []. by rewrite app_nil_r. Qed.

Lemma ynf_set_locals (f : frame) (s : state) : yields_not_finished s (set_locals f s).
Proof. by apply yields_nothing. Qed.

Lemma ynf_logged (r : request) (s : state) : yields_not_finished s (logged r s).
Proof. by apply yields_nothing. Qed.

Lemma ynf_allocated (v : list Turn) (s : state) : yields_not_finished s (allocated v s).
Proof. by apply yields_nothing. Qed.

Lemma ynf_yield (a : list N) (tokens : Z * Z) (n : Z) :
  monotone yields_not_finished (yield (py "not_finished", a, tokens, n)).
Proof. intros s. exists [(py "not_finished", a, tokens, n)]. by repeat constructor. Qed.

(** The rules for sequencing and branching, then the operations. *)
Ltac ynf :=
  repeat first
    [ apply ynf_yield
    | solve [ eauto using monotone_ret, monotone_raise, monotone_stop, monotone_lift,
                monotone_get_local, monotone_read_local, monotone_answer_str,
                monotone_assign_dialog_messages, monotone_assign_answer,
                monotone_assign_n_input_tokens, monotone_assign_n_output_tokens,
                monotone_assign_n_first, monotone_enter, monotone_deref,
                monotone_py_len, monotone_py_slice_from_1,
                monotone_on_APIStatusError, monotone_prompt_start,
                monotone_messages_create_stream,
                ynf_set_locals, ynf_logged, ynf_allocated
                with typeclass_instances ]
    | apply (monotone_bind yields_not_finished); [|intros ?]
    | apply (monotone_try yields_not_finished); [|intros ? ?]
    | apply (monotone_if yields_not_finished)
    | match goal with
      | |- monotone _ (match ?x with _ => _ end) => destruct x
      end ].

Section StreamAnyService.
Context (chat_modes : gmap (list N) (gmap (list N) (list N))).
Context {Encoding : Type}
        (encoding_for_model : list N → exn + Encoding)
        (encode : Encoding → list N → exn + list Z).
Context (create_stream : nat → request → exn + Stream).
Context (self : Claude) (msg chat_mode : list N).

Lemma ynf_stream_items (messages : list message_dict) (nb : Z) (evs : list event) :
  monotone yields_not_finished
    (stream_items encoding_for_model encode self messages nb evs).
Proof.
  induction evs as [|ev evs IH]; cbn [stream_items]; [ynf|].
  apply (monotone_bind yields_not_finished); [|done].
  unfold stream_item. ynf.
Qed.

Lemma ynf_stream_loop (fuel : nat) (nb : Z) :
  monotone yields_not_finished
    (send_message_stream_loop chat_modes encoding_for_model encode create_stream
       fuel self msg chat_mode nb).
Proof.
  unfold send_message_stream_loop, send_message_stream_try.
  apply (monotone_while yields_not_finished).
  ynf. apply ynf_stream_items.
Qed.

Lemma stream_shape (fuel : nat) (dm : loc) (s s' : state) (o : outcome unit) :
  send_message_stream chat_modes encoding_for_model encode create_stream
    fuel self msg dm chat_mode s = (o, s') →
  ∃ items : list (list N * list N * (Z * Z) * Z),
    Forall (λ x, item_status x = py "not_finished") items
    ∧ match o with
      | Val _ => ∃ a tokens n,
                   yielded s' = yielded s ++ items ++ [(py "finished", a, tokens, n)]
      | _ => yielded s' = yielded s ++ items
      end.
Proof.
  unfold send_message_stream. norm.
  destruct (bool_decide (chat_mode ∉ dom chat_modes)).
  { intros [= <- <-]. exists []. split; [constructor|]. cbn. by rewrite app_nil_r. }
  pose proof (monotone_py_len yields_not_finished dm (entered dm s)) as (l0 & H0 & Hl0).
  destruct (py_len dm (entered dm s)) as [[nb|e|w] s0] eqn:E0; cbn [fst snd] in *.
  2: { rewrite (bind_Exc _ _ _ _ _ E0). intros [= <- <-]. by exists l0. }
  2: { rewrite (bind_Stuck _ _ _ _ _ E0). intros [= <- <-]. by exists l0. }
  rewrite (bind_Val _ _ _ _ _ E0).
  pose proof (ynf_stream_loop fuel nb s0) as (l1 & H1 & Hl1).
  destruct (send_message_stream_loop _ _ _ _ _ _ _ _ _ s0) as [[a|e|w] s1] eqn:E1;
    cbn [fst snd] in *.
  2: { rewrite (bind_Exc _ _ _ _ _ E1). intros [= <- <-]. exists (l0 ++ l1).
       split; [by apply Forall_app|]. by rewrite H1, H0, app_assoc. }
  2: { rewrite (bind_Stuck _ _ _ _ _ E1). intros [= <- <-]. exists (l0 ++ l1).
       split; [by apply Forall_app|]. by rewrite H1, H0, app_assoc. }
  rewrite (bind_Val _ _ _ _ _ E1).
  unfold bind, read_local, yield.
  destruct (n_input_tokens (locals s1)) as [n_in|];
    [|intros [= <- <-]; exists (l0 ++ l1); split; [by apply Forall_app|];
      by rewrite H1, H0, app_assoc].
  destruct (n_output_tokens (locals s1)) as [n_out|];
    [|intros [= <- <-]; exists (l0 ++ l1); split; [by apply Forall_app|];
      by rewrite H1, H0, app_assoc].
  destruct (n_first_dialog_messages_removed (locals s1)) as [removed|];
    [|intros [= <- <-]; exists (l0 ++ l1); split; [by apply Forall_app|];
      by rewrite H1, H0, app_assoc].
  intros [= <- <-]. exists (l0 ++ l1). split; [by apply Forall_app|].
  exists a, (n_in, n_out), removed. cbn. by rewrite H1, H0, !app_assoc.
Qed.

(** X16.  Whatever the service answers, for any inputs: the elements that
    [send_message_stream] produces are tagged ["not_finished"], except that
    when it ends normally exactly one more element follows them, tagged
    ["finished"]; when it ends by raising, no ["finished"] element has been
    produced. *)
Theorem stream_finished_only_last (fuel : nat) (dm : loc) (s : state) :
  ∃ items : list (list N * list N * (Z * Z) * Z),
    Forall (λ x, item_status x = py "not_finished") items
    ∧ match (send_message_stream chat_modes encoding_for_model encode create_stream
               fuel self msg dm chat_mode s).1 with
      | Val _ =>
          ∃ a tokens n,
            yielded (send_message_stream chat_modes encoding_for_model encode
                       create_stream fuel self msg dm chat_mode s).2
            = yielded s ++ items ++ [(py "finished", a, tokens, n)]
      | _ =>
          yielded (send_message_stream chat_modes encoding_for_model encode
                     create_stream fuel self msg dm chat_mode s).2
          = yielded s ++ items
      end.
Proof.
  destruct (send_message_stream _ _ _ _ _ _ _ _ _ s) as [o s'] eqn:E.
  apply (stream_shape fuel dm s s' o E).
Qed.

End StreamAnyService.

(** ** [send_message_stream]: errors of the call itself *)

Section StreamStatusErrors.
Context (chat_modes : gmap (list N) (gmap (list N) (list N))).
Context {Encoding : Type}
        (encoding_for_model : list N → exn + Encoding)
        (encode : Encoding → list N → exn + list Z).
Context (create_stream : nat → request → exn + Stream).
Context (self : Claude) (msg chat_mode : list N).
Context (entry : gmap (list N) (list N)) (system : list N).
Hypothesis Hmodel : model self ∈ claude_models.
Hypothesis Hmode : chat_modes !! chat_mode = Some entry.
Hypothesis Hprompt : entry !! py "prompt_start" = Some system.

Local Abbreviation sreq history := (the_request self chat_mode msg history system true).
Local Abbreviation attempt nb :=
  (try_except_APIStatusError
     (send_message_stream_try chat_modes encoding_for_model encode create_stream
        self msg chat_mode nb)
     on_APIStatusError).
Local Abbreviation loop fuel nb :=
  (send_message_stream_loop chat_modes encoding_for_model encode create_stream
     fuel self msg chat_mode nb).
Local Abbreviation stream fuel dm :=
  (send_message_stream chat_modes encoding_for_model encode create_stream
     fuel self msg dm chat_mode).
Local Abbreviation refused history n :=
  (∃ c m, create_stream n (sreq history) = inl (APIStatusError c m)
          ∧ c ≠ too_large_code ∧ c ≠ rate_limit_code).

(** The call raises [e], and the [except] clause, run on the state the call has
    left, ends as [o]. *)
Lemma stream_attempt_raises (nb : Z) (s : state) (history : list Turn) (e : exn)
    (o : outcome unit) :
  heap s !! dialog_messages (locals s) = Some history →
  create_stream (length (calls s)) (sreq history) = inl e →
  match e with
  | APIStatusError c m =>
      on_APIStatusError c m (logged (sreq history) s) = (o, logged (sreq history) s)
  | _ => o = Exc e
  end →
  attempt nb s = (o, logged (sreq history) s).
Proof.
  intros Hh Hr He. unfold try_except_APIStatusError.
  rewrite (stream_try_raises chat_modes encoding_for_model encode create_stream
             self msg chat_mode entry system Hmodel Hmode Hprompt nb s history e
             Hh Hr).
  destruct e; by subst.
Qed.

Lemma stream_loop_repeats (nb : Z) (k fuel : nat) (s : state) (dm : loc)
    (history : list Turn) :
  heap s !! dm = Some history →
  ((0 < k)%nat → history ≠ []) →
  (∀ i, (i < k)%nat → refused history (length (calls s) + i)%nat) →
  loop (k + fuel) nb (entered dm s)
  = loop fuel nb (relogged k (sreq history) (entered dm s)).
Proof.
  intros Hh Hne Hall. destruct k as [|k]; [by rewrite relogged_0|].
  destruct history as [|t rest]; [by destruct Hne; [lia|]|].
  apply (while_repeats (attempt nb) (sreq (t :: rest)) (t :: rest)
           (λ n, refused (t :: rest) n)); [|done..].
  intros s0 Hh0 _ (c & m & Hr & Hc1 & Hc2).
  apply (stream_attempt_raises nb s0 (t :: rest) _ (Val tt) Hh0 Hr).
  by apply (handler_other_status _ t rest).
Qed.

(** X17.  With a non-empty history and a service that answers every call with
    a status error whose code is neither ['403'] nor ['429'], as every [int]
    code is, [send_message_stream] does not end either: however many
    iterations the loop is allowed, it uses them all, making the same call
    each time, and produces no element. *)
Theorem stream_status_error_never_ends (fuel : nat) (s : state) (dm : loc)
    (history : list Turn) :
  heap s !! dm = Some history →
  history ≠ [] →
  (∀ n r, ∃ c m, create_stream n r = inl (APIStatusError c m)
                 ∧ c ≠ too_large_code ∧ c ≠ rate_limit_code) →
  ∃ s', stream fuel dm s = (Stuck OutOfFuel, s')
        ∧ calls s' = calls s ++ replicate fuel (sreq history)
        ∧ yielded s' = yielded s.
Proof.
  intros Hh Hne Hall.
  pose proof (stream_loop_repeats (Z.of_nat (length history)) fuel 0 s dm history
                Hh (λ _, Hne) (λ i _, Hall _ _)) as Hloop.
  rewrite Nat.add_0_r in Hloop.
  exists (relogged fuel (sreq history) (entered dm s)). split; [|done].
  apply (send_message_stream_stuck chat_modes encoding_for_model encode
           create_stream self msg chat_mode entry Hmode fuel s _ dm history);
    [done|].
  by rewrite Hloop.
Qed.

(** X18.  An error of the streaming call itself that is not a status error is
    raised unchanged, also after [k] refused attempts: no call follows the one
    that raised it, and no element has been produced.  A status error of any
    code met with an empty history is replaced by the history-exhausted
    error. *)
Theorem stream_call_error_not_retried (k fuel : nat) (s : state) (dm : loc)
    (history : list Turn) (e : exn) :
  heap s !! dm = Some history →
  ((0 < k)%nat → history ≠ []) →
  (∀ i, (i < k)%nat → refused history (length (calls s) + i)%nat) →
  create_stream (length (calls s) + k) (sreq history) = inl e →
  (k < fuel)%nat →
  ((∀ c m, e ≠ APIStatusError c m) →
   ∃ s', stream fuel dm s = (Exc e, s')
         ∧ calls s' = calls s ++ replicate (S k) (sreq history)
         ∧ yielded s' = yielded s)
  ∧ ((∃ c m, e = APIStatusError c m) → history = [] →
     ∃ s', stream fuel dm s = (Exc history_exhausted, s')
           ∧ calls s' = calls s ++ [sreq []]
           ∧ yielded s' = yielded s).
Proof.
  intros Hh Hne Hall Hr Hfuel.
  set (nb := Z.of_nat (length history)).
  pose proof (stream_loop_repeats nb k (fuel - k) s dm history Hh Hne Hall) as Hloop.
  replace (k + (fuel - k))%nat with fuel in Hloop by lia.
  set (s1 := relogged k (sreq history) (entered dm s)) in *.
  assert (Hh1 : heap s1 !! dialog_messages (locals s1) = Some history) by done.
  assert (Hr1 : create_stream (length (calls s1)) (sreq history) = inl e).
  { unfold s1. by rewrite length_calls_relogged. }
  assert (Hend : ∀ e', attempt nb s1 = (Exc e', logged (sreq history) s1) →
                       stream fuel dm s = (Exc e', logged (sreq history) s1)).
  { intros e' Hatt.
    apply (send_message_stream_raises chat_modes encoding_for_model encode
             create_stream self msg chat_mode entry Hmode fuel s _ dm history);
      [done|].
    fold nb. rewrite Hloop. destruct (fuel - k)%nat as [|f] eqn:E; [lia|].
    unfold send_message_stream_loop. rewrite (while_step _ _ s1 eq_refl).
    by apply bind_Exc. }
  split.
  - intros He. exists (logged (sreq history) s1). split; [|split; [|done]].
    + apply Hend, (stream_attempt_raises nb s1 history e); [done..|].
      destruct e; try done. by destruct (He status_code message).
    + cbn. by rewrite <- app_assoc, <- replicate_S_end.
  - intros (c & m & ->) ->. destruct k as [|k]; [|by destruct Hne; [lia|]].
    exists (logged (sreq []) s1). split; [|split; [|done]].
    + apply Hend, (stream_attempt_raises nb s1 [] _ _ Hh1 Hr1).
      by apply handler_empty.
    + cbn. by rewrite app_nil_r.
Qed.

End StreamStatusErrors.

(** ** Failures before the remote call *)

Section BeforeTheCall.
Context (chat_modes : gmap (list N) (gmap (list N) (list N))).
Context {Encoding : Type}
        (encoding_for_model : list N → exn + Encoding)
        (encode : Encoding → list N → exn + list Z).
Context (create_message : nat → request → exn + Message).
Context (create_stream : nat → request → exn + Stream).
Context (self : Claude) (msg chat_mode : list N).
Context (entry : gmap (list N) (list N)) (history : list Turn).
Hypothesis Hmode : chat_modes !! chat_mode = Some entry.

(** Both methods, once the first pass through the loop body raises [e] and
    leaves the state as it is. *)
Lemma raised_in_first_pass (fuel : nat) (s : state) (dm : loc) (e : exn) :
  heap s !! dm = Some history →
  (0 < fuel)%nat →
  try_except_APIStatusError
    (send_message_try chat_modes create_message self msg chat_mode)
    on_APIStatusError (entered dm s) = (Exc e, entered dm s) →
  send_message chat_modes create_message fuel self msg dm chat_mode s
  = (Exc e, entered dm s).
Proof.
  intros Hh Hfuel Hrun. destruct fuel as [|fuel]; [lia|].
  apply (send_message_raises chat_modes create_message self msg chat_mode entry
           Hmode (S fuel) s (entered dm s) dm history e Hh).
  unfold send_message_loop.
  rewrite (while_step _ fuel (entered dm s) eq_refl). by apply bind_Exc.
Qed.

Lemma stream_raised_in_first_pass (fuel : nat) (s : state) (dm : loc) (e : exn) :
  heap s !! dm = Some history →
  (0 < fuel)%nat →
  try_except_APIStatusError
    (send_message_stream_try chat_modes encoding_for_model encode create_stream
       self msg chat_mode (Z.of_nat (length history)))
    on_APIStatusError (entered dm s) = (Exc e, entered dm s) →
  send_message_stream chat_modes encoding_for_model encode create_stream
    fuel self msg dm chat_mode s
  = (Exc e, entered dm s).
Proof.
  intros Hh Hfuel Hrun. destruct fuel as [|fuel]; [lia|].
  unfold send_message_stream. norm.
  rewrite (mode_supported chat_modes chat_mode entry Hmode).
  assert (Hh0 : heap (entered dm s) !! dm = Some history) by done.
  run (py_len_Some _ _ _ Hh0). by apply bind_Exc.
Qed.

(** X20.  When the entry of the mode has no ["prompt_start"], both methods
    raise the [KeyError] of the lookup: it is no status error, so nothing is
    retried, and no remote call has been made. *)
Theorem missing_prompt_start_raises (fuel : nat) (s : state) (dm : loc) :
  model self ∈ claude_models →
  entry !! py "prompt_start" = None →
  heap s !! dm = Some history →
  (0 < fuel)%nat →
  (∃ s', send_message chat_modes create_message fuel self msg dm chat_mode s
         = (Exc (KeyError (py "prompt_start")), s')
         ∧ calls s' = calls s)
  ∧ (∃ s', send_message_stream chat_modes encoding_for_model encode create_stream
             fuel self msg dm chat_mode s
           = (Exc (KeyError (py "prompt_start")), s')
           ∧ calls s' = calls s ∧ yielded s' = yielded s).
Proof.
  intros Hmodel Hnone Hh Hfuel.
  assert (Hh0 : heap (entered dm s) !! dialog_messages (locals (entered dm s))
                = Some history) by done.
  assert (Hp : prompt_start chat_modes chat_mode (entered dm s)
               = (Exc (KeyError (py "prompt_start")), entered dm s)).
  { unfold prompt_start. by rewrite Hmode, Hnone. }
  split; exists (entered dm s); (split; [|done]).
  - apply raised_in_first_pass; [done..|].
    unfold try_except_APIStatusError, send_message_try.
    rewrite bool_decide_eq_true_2 by done.
    run (deref_Some _ _ _ Hh0). by rewrite (bind_Exc _ _ _ _ _ Hp).
  - apply stream_raised_in_first_pass; [done..|].
    unfold try_except_APIStatusError, send_message_stream_try.
    rewrite bool_decide_eq_true_2 by done.
    run (deref_Some _ _ _ Hh0). by rewrite (bind_Exc _ _ _ _ _ Hp).
Qed.

(** X21.  For a client whose model is none of the three, [send_message] raises
    the unknown-model [ValueError] of its [else] branch, while
    [send_message_stream], which has no such branch, raises the
    [AttributeError] of post-processing [None]; neither makes a remote call. *)
Theorem model_outside_the_three (fuel : nat) (s : state) (dm : loc) :
  model self ∉ claude_models →
  heap s !! dm = Some history →
  (0 < fuel)%nat →
  (∃ s', send_message chat_modes create_message fuel self msg dm chat_mode s
         = (Exc (ValueError (py "Unknown model: " ++ model self)), s')
         ∧ calls s' = calls s)
  ∧ (∃ s', send_message_stream chat_modes encoding_for_model encode create_stream
             fuel self msg dm chat_mode s
           = (Exc (AttributeError (py "'NoneType' object has no attribute 'strip'")),
              s')
           ∧ calls s' = calls s ∧ yielded s' = yielded s).
Proof.
  intros Hmodel Hh Hfuel.
  split; exists (entered dm s); (split; [|done]).
  - apply raised_in_first_pass; [done..|].
    unfold try_except_APIStatusError, send_message_try.
    by rewrite bool_decide_eq_false_2.
  - apply stream_raised_in_first_pass; [done..|].
    unfold try_except_APIStatusError, send_message_stream_try.
    by rewrite bool_decide_eq_false_2.
Qed.

End BeforeTheCall.

(** ** The further theorems at the sample services *)

Ltac sample_facts :=
  assert (Hmodel : model sonnet ∈ claude_models)
    by (apply (bool_decide_unpack _); by_evaluation);
  assert (Hmode : sample_modes !! py "assistant"
                  = Some {[ py "prompt_start" := py "You are a helpful assistant." ]})
    by by_evaluation;
  assert (Hprompt : ({[ py "prompt_start" := py "You are a helpful assistant." ]}
                       : gmap (list N) (list N)) !! py "prompt_start"
                    = Some (py "You are a helpful assistant."))
    by by_evaluation;
  assert (Henc : sample_encoding_for_model (py "gpt-4") = inr tt) by by_evaluation.

Lemma send_message_result_invariant_witness :
  0 ≤ 2 ≤ Z.of_nat (length [turn1; turn2; turn3])
  ∧ _postprocess_answer (py "hi there") = py "hi there".
Proof.
  sample_facts.
  destruct (send_message_result_invariant sample_modes
              (too_large_then 2 (inr greeting)) sonnet (py "hello") (py "assistant")
              _ _ Hmodel Hmode Hprompt [turn1; turn2; turn3] 3
              (caller_state [turn1; turn2; turn3])
              (send_message sample_modes (too_large_then 2 (inr greeting)) 3 sonnet
                 (py "hello") 1%positive (py "assistant")
                 (caller_state [turn1; turn2; turn3])).2
              1%positive (py "hi there") (5, 3) 2)
    as (Hn & _ & _ & Ha); [by_evaluation..|].
  by split.
Defined.

Lemma send_message_calls_invariant_witness :
  ∃ new,
    calls (send_message sample_modes (too_large_then 2 (inl connection_error)) 5
             sonnet (py "hello") 1%positive (py "assistant")
             (caller_state [turn1; turn2; turn3])).2
    = [] ++ new
    ∧ (length new ≤ 5)%nat.
Proof.
  sample_facts.
  destruct (send_message_calls_invariant sample_modes
              (too_large_then 2 (inl connection_error)) sonnet (py "hello")
              (py "assistant") _ _ Hmodel Hmode Hprompt [turn1; turn2; turn3] 5
              (caller_state [turn1; turn2; turn3]) 1%positive)
    as (new & Hcalls & Hlen & _); [by_evaluation|].
  exists new. by split.
Defined.

Lemma send_message_other_status_never_ends_witness :
  ∃ s', send_message sample_modes (always (inl server_error)) 7 sonnet (py "hello")
          1%positive (py "assistant") (caller_state [turn1])
        = (Stuck OutOfFuel, s')
        ∧ length (calls s') = 7%nat.
Proof.
  sample_facts.
  destruct (send_message_other_status_never_ends sample_modes
              (always (inl server_error)) sonnet (py "hello") (py "assistant")
              _ _ Hmodel Hmode Hprompt [turn1] 7 (caller_state [turn1]) 1%positive)
    as (s' & Hrun & Hcalls).
  - by_evaluation.
  - discriminate.
  - intros n r. exists (PyInt 500), (py "Internal server error").
    repeat split; discriminate.
  - exists s'. split; [exact Hrun|]. rewrite Hcalls. reflexivity.
Defined.

Lemma send_message_empty_content_witness :
  ∃ s', send_message sample_modes
          (always (inr {| content := []; usage_input_tokens := 5;
                          usage_output_tokens := 0 |}))
          3 sonnet (py "hello") 1%positive (py "assistant") (caller_state [turn1])
        = (Exc (IndexError (py "list index out of range")), s')
        ∧ length (calls s') = 1%nat.
Proof.
  sample_facts.
  destruct (send_message_empty_content sample_modes
              (always (inr {| content := []; usage_input_tokens := 5;
                              usage_output_tokens := 0 |}))
              sonnet (py "hello") (py "assistant") _ _ Hmodel Hmode Hprompt
              [turn1] 3 (caller_state [turn1]) 1%positive
              {| content := []; usage_input_tokens := 5; usage_output_tokens := 0 |})
    as (s' & Hrun & Hcalls); [by_evaluation|reflexivity|reflexivity|lia|].
  exists s'. split; [exact Hrun|]. rewrite Hcalls. reflexivity.
Defined.

(** The local count on the sample requests: the sample tokenizer raises on
    none of their texts. *)
Ltac sample_count :=
  repeat first [apply Forall_nil_2 | apply Forall_cons_2 | eexists; reflexivity].

Lemma send_message_too_large_never_trims_witness :
  (∃ s', send_message sample_modes (always (inl request_too_large)) 6 sonnet
           (py "hello") 1%positive (py "assistant")
           (caller_state [turn1; turn2; turn3])
         = (Stuck OutOfFuel, s')
         ∧ calls s' = replicate 6 (the_request sonnet (py "assistant") (py "hello")
                                     [turn1; turn2; turn3]
                                     (py "You are a helpful assistant.") false)
         ∧ dialog_messages (locals s') = 1%positive)
  ∧ (∃ s', send_message sample_modes (failing_then request_too_large 2 (inr greeting))
             3 sonnet (py "hello") 1%positive (py "assistant")
             (caller_state [turn1; turn2; turn3])
           = (Val (strip (py "  hi there  "), (5, 3), 0), s')
           ∧ length (calls s') = 3%nat).
Proof.
  sample_facts.
  assert (Hh : heap (caller_state [turn1; turn2; turn3]) !! 1%positive
               = Some [turn1; turn2; turn3])
    by by_evaluation.
  split.
  - destruct (send_message_too_large_never_trims sample_modes
                (always (inl request_too_large)) sonnet (py "hello") (py "assistant")
                _ _ Hmodel Hmode Hprompt 6 _ _ _ Hh) as [Hall _]; [discriminate|].
    destruct Hall as (s' & Hrun & Hcalls & _ & Hdm).
    + intros n. eexists _, _. reflexivity.
    + exists s'. split; [exact Hrun|]. split; [exact Hcalls|exact Hdm].
  - destruct (send_message_too_large_never_trims sample_modes
                (failing_then request_too_large 2 (inr greeting)) sonnet (py "hello")
                (py "assistant") _ _ Hmodel Hmode Hprompt 3 _ _ _ Hh)
      as [_ Hsome]; [discriminate|].
    destruct (Hsome 2%nat greeting (py "  hi there  ") []) as (s' & Hrun & Hcalls).
    + intros i Hi. eexists _, _. unfold failing_then. simpl.
      destruct i as [|[|i]]; [reflexivity|reflexivity|lia].
    + reflexivity.
    + reflexivity.
    + lia.
    + exists s'. split; [exact Hrun|]. rewrite Hcalls. reflexivity.
Defined.

Lemma send_message_rate_limit_is_retried_witness :
  (∃ s', send_message sample_modes (failing_then rate_limit_429 1 (inr greeting)) 3
           sonnet (py "hello") 1%positive (py "assistant")
           (caller_state [turn1; turn2])
         = (Val (strip (py "  hi there  "), (5, 3), 0), s')
         ∧ length (calls s') = 2%nat)
  ∧ (∃ s', send_message sample_modes (always (inl rate_limit_429)) 3 sonnet
             (py "hello") 1%positive (py "assistant") (caller_state [])
           = (Exc history_exhausted, s')
           ∧ length (calls s') = 1%nat).
Proof.
  sample_facts. split.
  - assert (Hh : heap (caller_state [turn1; turn2]) !! 1%positive
                 = Some [turn1; turn2])
      by by_evaluation.
    destruct (send_message_rate_limit_is_retried sample_modes
                (failing_then rate_limit_429 1 (inr greeting)) sonnet (py "hello")
                (py "assistant") _ _ Hmodel Hmode Hprompt 3 _ _ _
                (py "rate_limit_error") Hh)
      as [Hretry _]; [reflexivity|].
    destruct Hretry as [_ Hsecond]; [discriminate|lia|].
    destruct (Hsecond greeting (py "  hi there  ") []) as (s' & Hrun & Hcalls);
      [reflexivity..|].
    exists s'. split; [exact Hrun|]. rewrite Hcalls. reflexivity.
  - assert (Hh : heap (caller_state []) !! 1%positive = Some []) by by_evaluation.
    destruct (send_message_rate_limit_is_retried sample_modes
                (always (inl rate_limit_429)) sonnet (py "hello")
                (py "assistant") _ _ Hmodel Hmode Hprompt 3 _ _ _
                (py "rate_limit_error") Hh)
      as [_ Hempty]; [reflexivity|].
    destruct Hempty as (s' & Hrun & Hcalls & _); [reflexivity|lia|].
    exists s'. split; [exact Hrun|]. rewrite Hcalls. reflexivity.
Defined.

Lemma send_message_never_raises_status_error_witness :
  (send_message sample_modes (always (inl server_error)) 5 sonnet (py "hello")
     1%positive (py "assistant") (caller_state [turn1])).1
  ≠ Exc server_error
  ∧ (∃ s', send_message sample_modes (always (inl server_error)) 3 sonnet
             (py "hello") 1%positive (py "assistant") (caller_state [])
           = (Exc history_exhausted, s')
           ∧ length (calls s') = 1%nat).
Proof.
  sample_facts. split.
  - assert (Hh : heap (caller_state [turn1]) !! 1%positive = Some [turn1])
      by by_evaluation.
    destruct (send_message_never_raises_status_error sample_modes
                (always (inl server_error)) sonnet (py "hello") (py "assistant")
                _ _ Hmodel Hmode Hprompt 5 _ _ _ Hh) as [Hnever _].
    apply Hnever.
  - assert (Hh : heap (caller_state []) !! 1%positive = Some []) by by_evaluation.
    destruct (send_message_never_raises_status_error sample_modes
                (always (inl server_error)) sonnet (py "hello") (py "assistant")
                _ _ Hmodel Hmode Hprompt 3 _ _ _ Hh) as (_ & Hempty & _).
    destruct (Hempty (PyInt 500) (py "Internal server error"))
      as (s' & Hrun & Hcalls); [reflexivity|reflexivity|lia|].
    exists s'. split; [exact Hrun|]. rewrite Hcalls. reflexivity.
Defined.

Lemma send_message_other_error_not_retried_witness :
  ∃ s', send_message sample_modes (failing_then server_error 1 (inl connection_error))
          3 sonnet (py "hello") 1%positive (py "assistant")
          (caller_state [turn1; turn2])
        = (Exc connection_error, s')
        ∧ length (calls s') = 2%nat.
Proof.
  sample_facts.
  assert (Hh : heap (caller_state [turn1; turn2]) !! 1%positive = Some [turn1; turn2])
    by by_evaluation.
  destruct (send_message_other_error_not_retried sample_modes
              (failing_then server_error 1 (inl connection_error)) sonnet (py "hello")
              (py "assistant") _ _ Hmodel Hmode Hprompt 1 3 _ _ _ connection_error Hh)
    as (s' & Hrun & Hcalls & _).
  - discriminate.
  - intros i Hi. exists (PyInt 500), (py "Internal server error").
    unfold failing_then. simpl. destruct i as [|i]; [|lia].
    repeat split; discriminate.
  - reflexivity.
  - intros c m. discriminate.
  - lia.
  - exists s'. split; [exact Hrun|]. rewrite Hcalls. reflexivity.
Defined.

Lemma stream_not_finished_then_finished_witness :
  ∃ s' items x,
    send_message_stream sample_modes sample_encoding_for_model char_encode
      (always_stream (inr padded_stream)) 2 sonnet (py "hello")
      1%positive (py "assistant") (caller_state [turn1])
    = (Val tt, s')
    ∧ yielded s' = [] ++ items ++ [(py "finished", strip (py "  hi there  "),
                                    item_tokens x, 0)]
    ∧ item_answer <$> items = [py "  hi"; py "  hi there  "; py "  hi there  "]
    ∧ last items = Some x.
Proof.
  sample_facts.
  assert (Hh : heap (caller_state [turn1]) !! 1%positive = Some [turn1])
    by by_evaluation.
  destruct (stream_not_finished_then_finished sample_modes
              sample_encoding_for_model char_encode
              (always_stream (inr padded_stream)) sonnet (py "hello")
              (py "assistant") _ _ Hmodel Hmode Hprompt 2
              (caller_state [turn1]) 1%positive [turn1] padded_stream Hh)
    as (s' & items & x & Hrun & Hy & _ & Hans & Hlast & _).
  - reflexivity.
  - reflexivity.
  - reflexivity.
  - sample_count.
  - lia.
  - exists s', items, x. split; [exact Hrun|]. split; [exact Hy|]. by split.
Defined.

Lemma stream_finished_missing_or_untrimmed_witness :
  (∃ s', send_message_stream sample_modes sample_encoding_for_model char_encode
           (always_stream (inr silent_stream)) 3 sonnet (py "hello") 1%positive
           (py "assistant") (caller_state [turn1])
         = (Exc (UnboundLocalError (py "n_input_tokens")), s')
         ∧ yielded s' = []
         ∧ length (calls s') = 1%nat)
  ∧ (∃ s' items tokens,
       send_message_stream sample_modes sample_encoding_for_model char_encode
         (always_stream (inr interrupted_stream)) 3 sonnet (py "hello") 1%positive
         (py "assistant") (caller_state [turn1])
       = (Val tt, s')
       ∧ yielded s' = [] ++ items ++ [(py "finished", py "Hel ", tokens, 0)]
       ∧ strip (py "Hel ") ≠ py "Hel ").
Proof.
  sample_facts.
  assert (Hh : heap (caller_state [turn1]) !! 1%positive = Some [turn1])
    by by_evaluation.
  split.
  - destruct (stream_finished_missing_or_untrimmed sample_modes
                sample_encoding_for_model char_encode
                (always_stream (inr silent_stream)) sonnet (py "hello")
                (py "assistant") _ _ Hmodel Hmode Hprompt 3
                (caller_state [turn1]) 1%positive [turn1] silent_stream Hh)
      as [Hsilent _]; [reflexivity|lia|].
    destruct Hsilent as (s' & Hrun & Hy & Hcalls); [reflexivity..|].
    exists s'. split; [exact Hrun|]. split; [exact Hy|].
    rewrite Hcalls. reflexivity.
  - destruct (stream_finished_missing_or_untrimmed sample_modes
                sample_encoding_for_model char_encode
                (always_stream (inr interrupted_stream)) sonnet (py "hello")
                (py "assistant") _ _ Hmodel Hmode Hprompt 3
                (caller_state [turn1]) 1%positive [turn1] interrupted_stream Hh)
      as [_ Hbroken]; [reflexivity|lia|].
    destruct (Hbroken 529 (py "overloaded_error"))
      as (s' & items & tokens & Hrun & Hy & _).
    + reflexivity.
    + discriminate.
    + reflexivity.
    + sample_count.
    + exists s', items, tokens. split; [exact Hrun|]. split; [exact Hy|].
      by vm_compute.
Defined.

Lemma stream_error_while_streaming_is_not_retried_witness :
  ∃ s' items x,
    send_message_stream sample_modes sample_encoding_for_model char_encode
      (always_stream (inr interrupted_stream)) 5 sonnet (py "hello") 1%positive
      (py "assistant") (caller_state [turn1])
    = (Val tt, s')
    ∧ length (calls s') = 1%nat
    ∧ yielded s' = [] ++ items ++ [(py "finished", py "Hel ", item_tokens x, 0)]
    ∧ item_answer <$> items = [py "Hel "]
    ∧ strip (py "Hel ") ≠ py "Hel ".
Proof.
  sample_facts.
  assert (Hh : heap (caller_state [turn1]) !! 1%positive = Some [turn1])
    by by_evaluation.
  destruct (stream_error_while_streaming_is_not_retried sample_modes
              sample_encoding_for_model char_encode
              (always_stream (inr interrupted_stream)) sonnet (py "hello")
              (py "assistant") _ _ Hmodel Hmode Hprompt 5
              (caller_state [turn1]) 1%positive [turn1] interrupted_stream
              529 (py "overloaded_error") Hh)
    as (s' & items & x & Hrun & Hcalls & Hy & _ & Hans & _).
  - discriminate.
  - reflexivity.
  - reflexivity.
  - reflexivity.
  - sample_count.
  - lia.
  - exists s', items, x. split; [exact Hrun|]. split; [by rewrite Hcalls|].
    split; [exact Hy|]. split; [exact Hans|]. by vm_compute.
Defined.

Lemma stream_status_error_never_ends_witness :
  ∃ s', send_message_stream sample_modes sample_encoding_for_model char_encode
          (always_stream (inl request_too_large)) 7 sonnet (py "hello") 1%positive
          (py "assistant") (caller_state [turn1; turn2])
        = (Stuck OutOfFuel, s')
        ∧ length (calls s') = 7%nat ∧ yielded s' = [].
Proof.
  sample_facts.
  destruct (stream_status_error_never_ends sample_modes sample_encoding_for_model
              char_encode (always_stream (inl request_too_large)) sonnet (py "hello")
              (py "assistant") _ _ Hmodel Hmode Hprompt 7
              (caller_state [turn1; turn2]) 1%positive [turn1; turn2])
    as (s' & Hrun & Hcalls & Hy).
  - by_evaluation.
  - discriminate.
  - intros n r. exists (PyInt 413), (py "request_too_large").
    repeat split; discriminate.
  - exists s'. split; [exact Hrun|]. split; [|exact Hy].
    rewrite Hcalls. reflexivity.
Defined.

Lemma stream_call_error_not_retried_witness :
  (∃ s', send_message_stream sample_modes sample_encoding_for_model char_encode
           (failing_then_stream server_error 1 (inl connection_error)) 3 sonnet
           (py "hello") 1%positive (py "assistant") (caller_state [turn1; turn2])
         = (Exc connection_error, s')
         ∧ length (calls s') = 2%nat ∧ yielded s' = [])
  ∧ (∃ s', send_message_stream sample_modes sample_encoding_for_model char_encode
             (always_stream (inl rate_limit_429)) 3 sonnet (py "hello")
             1%positive (py "assistant") (caller_state [])
           = (Exc history_exhausted, s')
           ∧ length (calls s') = 1%nat ∧ yielded s' = []).
Proof.
  sample_facts. split.
  - assert (Hh : heap (caller_state [turn1; turn2]) !! 1%positive
                 = Some [turn1; turn2])
      by by_evaluation.
    destruct (stream_call_error_not_retried sample_modes sample_encoding_for_model
                char_encode (failing_then_stream server_error 1 (inl connection_error))
                sonnet (py "hello") (py "assistant") _ _ Hmodel Hmode Hprompt 1 3
                (caller_state [turn1; turn2]) 1%positive [turn1; turn2]
                connection_error Hh)
      as [Hother _].
    + discriminate.
    + intros i Hi. exists (PyInt 500), (py "Internal server error").
      unfold failing_then_stream. simpl. destruct i as [|i]; [|lia].
      repeat split; discriminate.
    + reflexivity.
    + lia.
    + destruct Hother as (s' & Hrun & Hcalls & Hy); [intros c m; discriminate|].
      exists s'. split; [exact Hrun|]. split; [|exact Hy].
      rewrite Hcalls. reflexivity.
  - assert (Hh : heap (caller_state []) !! 1%positive = Some []) by by_evaluation.
    destruct (stream_call_error_not_retried sample_modes sample_encoding_for_model
                char_encode (always_stream (inl rate_limit_429)) sonnet (py "hello")
                (py "assistant") _ _ Hmodel Hmode Hprompt 0 3
                (caller_state []) 1%positive [] rate_limit_429 Hh)
      as [_ Hstatus].
    + lia.
    + intros i Hi. lia.
    + reflexivity.
    + lia.
    + destruct Hstatus as (s' & Hrun & Hcalls & Hy);
        [by eexists _, _|reflexivity|].
      exists s'. split; [exact Hrun|]. split; [|exact Hy].
      rewrite Hcalls. reflexivity.
Defined.

Lemma stream_broken_by_other_error_witness :
  ∃ s' items,
    send_message_stream sample_modes sample_encoding_for_model char_encode
      (always_stream (inr {| events := [content_block_delta (py "Hel")];
                             broken := Some connection_error |}))
      3 sonnet (py "hello") 1%positive (py "assistant") (caller_state [turn1])
    = (Exc connection_error, s')
    ∧ yielded s' = [] ++ items
    ∧ item_answer <$> items = [py "Hel"].
Proof.
  sample_facts.
  destruct (stream_broken_by_other_error sample_modes sample_encoding_for_model
              char_encode
              (always_stream (inr {| events := [content_block_delta (py "Hel")];
                                     broken := Some connection_error |}))
              sonnet (py "hello") (py "assistant") _ _ Hmodel Hmode Hprompt
              3 (caller_state [turn1]) 1%positive [turn1]
              {| events := [content_block_delta (py "Hel")];
                 broken := Some connection_error |} connection_error)
    as (s' & items & Hrun & _ & Hy & _ & Hans).
  - by_evaluation.
  - reflexivity.
  - reflexivity.
  - intros c m. discriminate.
  - sample_count.
  - lia.
  - exists s', items. split; [exact Hrun|]. split; [exact Hy|exact Hans].
Defined.

Lemma stream_count_error_propagates_witness :
  ∃ s', send_message_stream sample_modes sample_encoding_for_model char_encode
          (always_stream (inr padded_stream)) 3 sonnet (py "<|endoftext|>")
          1%positive (py "assistant") (caller_state [turn1])
        = (Exc special_token_error, s')
        ∧ length (calls s') = 1%nat ∧ yielded s' = [].
Proof.
  sample_facts.
  assert (Hh : heap (caller_state [turn1]) !! 1%positive = Some [turn1])
    by by_evaluation.
  destruct (stream_count_error_propagates sample_modes sample_encoding_for_model
              char_encode (always_stream (inr padded_stream)) sonnet
              (py "<|endoftext|>") (py "assistant") _ _ Hmodel Hmode Hprompt 3
              (caller_state [turn1]) 1%positive [turn1] padded_stream
              [other_event (py "message_start")]
              [content_block_delta (py " there  "); message_delta 3;
               other_event (py "message_stop")]
              (content_block_delta (py "  hi")) (py "  hi") special_token_error Hh)
    as (s' & Hrun & Hcalls & Hy).
  - reflexivity.
  - reflexivity.
  - reflexivity.
  - reflexivity.
  - by_evaluation.
  - intros c m. discriminate.
  - lia.
  - exists s'. split; [exact Hrun|]. split; [|exact Hy].
    rewrite Hcalls. reflexivity.
Defined.

Lemma missing_prompt_start_raises_witness :
  (∃ s', send_message {[ py "bare" := ∅ ]} (always (inr greeting)) 3 sonnet
           (py "hello") 1%positive (py "bare") (caller_state [turn1])
         = (Exc (KeyError (py "prompt_start")), s')
         ∧ calls s' = [])
  ∧ (∃ s', send_message_stream {[ py "bare" := ∅ ]} sample_encoding_for_model
             char_encode (always_stream (inr padded_stream)) 3 sonnet (py "hello")
             1%positive (py "bare") (caller_state [turn1])
           = (Exc (KeyError (py "prompt_start")), s')
           ∧ calls s' = [] ∧ yielded s' = []).
Proof.
  sample_facts.
  apply (missing_prompt_start_raises {[ py "bare" := ∅ ]} sample_encoding_for_model
           char_encode (always (inr greeting)) (always_stream (inr padded_stream))
           sonnet (py "hello") (py "bare") ∅ [turn1]);
    first [exact Hmodel | by_evaluation].
Defined.

Lemma model_outside_the_three_witness :
  (∃ s', send_message sample_modes (always (inr greeting)) 3
           {| model := py "claude-2" |} (py "hello") 1%positive (py "assistant")
           (caller_state [turn1])
         = (Exc (ValueError (py "Unknown model: " ++ py "claude-2")), s')
         ∧ calls s' = [])
  ∧ (∃ s', send_message_stream sample_modes sample_encoding_for_model char_encode
             (always_stream (inr padded_stream)) 3 {| model := py "claude-2" |}
             (py "hello") 1%positive (py "assistant") (caller_state [turn1])
           = (Exc (AttributeError (py "'NoneType' object has no attribute 'strip'")),
              s')
           ∧ calls s' = [] ∧ yielded s' = []).
Proof.
  sample_facts.
  apply (model_outside_the_three sample_modes sample_encoding_for_model char_encode
           (always (inr greeting)) (always_stream (inr padded_stream))
           {| model := py "claude-2" |} (py "hello") (py "assistant") _ [turn1] Hmode).
  - apply (bool_decide_unpack _). by_evaluation.
  - by_evaluation.
  - lia.
Defined.
